(** * Nourish-AI: the recommendation engine

    A shallow embedding of [backend/app/services/recommendation_engine.py],
    of the models it builds ([app/models/recommendation.py],
    [app/models/nutrition.py], [app/models/user.py]), of the feedback
    endpoint of [app/api/v1/endpoints/recommendations.py] and of
    [validate_recommendation_feedback] in [app/utils/validators.py].

    Modelling conventions.
    - Python [float] and [int] amounts are exact rationals ([Q]); the
      rounding of IEEE doubles is not modelled.
    - [str] is [string]; [str.lower] and [str.title] are modelled on ASCII
      letters and leave every other byte unchanged.
    - A [dict] that is only looked up is a [gmap]; a [dict] whose literal
      order is iterated ([macros], [common_allergens],
      [meal_distribution]) is an association list in that order.
    - Exceptions are the [Raise] case of [result]; [try]/[except] is
      [try_except].
    - The collaborators the engine awaits (document store, target
      calculator, suggestion generator, clock) are the fields of a
      [World]; each may answer or raise. *)

From Stdlib Require Import QArith Qabs ZArith String Ascii List Sorting.Sorted Sorting.Permutation Lia.
From stdpp Require Import base gmap strings list.

Open Scope string_scope.
Open Scope list_scope.

(** ** Exceptions *)

Inductive exn : Type :=
| AttributeError (cls attr : string)
| UpstreamError (msg : string).

Inductive result (A : Type) : Type :=
| Ok (a : A)
| Raise (e : exn).

Arguments Ok {A} a.
Arguments Raise {A} e.

Definition bind {A B : Type} (r : result A) (k : A -> result B) : result B :=
  match r with
  | Ok a => k a
  | Raise e => Raise e
  end.

Notation "'let*' x ':=' r 'in' k" := (bind r (fun x => k))
  (at level 10, x name, r at level 100, k at level 200).

(** [try: body except Exception as e: handler]. *)
Definition try_except {A : Type} (body : result A) (handler : exn -> A) : A :=
  match body with
  | Ok a => a
  | Raise e => handler e
  end.

(** ** Numbers *)

(** Python's [x < y] on numbers. *)
Definition Qlt_bool (x y : Q) : bool := negb (Qle_bool y x).

(** Python's [max(0, x)]. *)
Definition max0 (x : Q) : Q := if Qlt_bool 0 x then x else 0%Q.

(** ** Strings *)

Module PyStr.

Definition is_upper (c : ascii) : bool :=
  let n := nat_of_ascii c in (65 <=? n)%nat && (n <=? 90)%nat.

Definition is_lower (c : ascii) : bool :=
  let n := nat_of_ascii c in (97 <=? n)%nat && (n <=? 122)%nat.

Definition lower_char (c : ascii) : ascii :=
  if is_upper c then ascii_of_nat (nat_of_ascii c + 32) else c.

Definition upper_char (c : ascii) : ascii :=
  if is_lower c then ascii_of_nat (nat_of_ascii c - 32) else c.

(** [s.lower()] *)
Fixpoint lower (s : string) : string :=
  match s with
  | EmptyString => EmptyString
  | String c t => String (lower_char c) (lower t)
  end.

(** [s.title()]: a letter that follows a letter is lowered, any other
    letter is raised. *)
Fixpoint title_from (prev_cased : bool) (s : string) : string :=
  match s with
  | EmptyString => EmptyString
  | String c t =>
      if is_upper c || is_lower c
      then String (if prev_cased then lower_char c else upper_char c) (title_from true t)
      else String c (title_from false t)
  end.

Definition title (s : string) : string := title_from false s.

(** [needle in hay] *)
Fixpoint contains (needle hay : string) : bool :=
  if String.prefix needle hay then true
  else match hay with
       | EmptyString => false
       | String _ t => contains needle t
       end.

(** [s.replace(a, b)] for one-character [a] and [b]. *)
Fixpoint replace (a b : ascii) (s : string) : string :=
  match s with
  | EmptyString => EmptyString
  | String c t => String (if Ascii.eqb c a then b else c) (replace a b t)
  end.

(** [sep.join(l)] *)
Fixpoint join (sep : string) (l : list string) : string :=
  match l with
  | [] => EmptyString
  | [x] => x
  | x :: t => x +:+ sep +:+ join sep t
  end.

End PyStr.

(** [d.get(key, 0)] on a dictionary of amounts. *)
Definition get0 (d : gmap string Q) (key : string) : Q := default 0%Q (d !! key).

(** ** Data model *)

(** [app/models/user.py] *)
Module HealthCondition.
Record t : Type := mk { name : string }.
End HealthCondition.

Module DietaryRestriction.
Record t : Type := mk { type : string }.
End DietaryRestriction.

Module User.
Record t : Type := mk {
  id : string;
  age : option Z;
  gender : option string;
  activity_level : option string;
  primary_goal : option string;
  health_conditions : list HealthCondition.t;
  dietary_restrictions : list DietaryRestriction.t;
  allergies : list string
}.
End User.

(** [app/models/nutrition.py] *)
Module MacroTargets.
Record t : Type := mk {
  calories : Q;
  protein_g : Q;
  carbs_g : Q;
  fat_g : Q;
  fiber_g : Q
}.

(** [getattr(macro_targets, nutrient)]; the engine passes field names
    only, any other name reads as 0 here. *)
Definition getattr (m : t) (nutrient : string) : Q :=
  if String.eqb nutrient "calories" then calories m
  else if String.eqb nutrient "protein_g" then protein_g m
  else if String.eqb nutrient "carbs_g" then carbs_g m
  else if String.eqb nutrient "fat_g" then fat_g m
  else if String.eqb nutrient "fiber_g" then fiber_g m
  else 0%Q.
End MacroTargets.

Module NutritionProfile.
Record t : Type := mk {
  user_id : string;
  macro_targets : MacroTargets.t;
  meal_distribution : list (string * Q)
}.

Definition default_meal_distribution : list (string * Q) :=
  [("breakfast", 0.25%Q); ("lunch", 0.35%Q); ("dinner", 0.30%Q); ("snack", 0.10%Q)].
End NutritionProfile.

Module DailyIntake.
Record t : Type := mk {
  actual_calories : Q;
  actual_protein_g : Q;
  actual_carbs_g : Q;
  actual_fat_g : Q;
  actual_fiber_g : Q;
  micronutrients : gmap string Q
}.
End DailyIntake.

(** [app/models/recommendation.py] *)
Inductive RecommendationType : Type :=
| DAILY_NUTRITION
| FOOD_SUGGESTION
| MEAL_PLAN
| NUTRIENT_ADJUSTMENT
| HEALTH_OPTIMIZATION.

Module ConfidenceLevel.
Inductive t : Type := LOW | MEDIUM | HIGH | VERY_HIGH.
End ConfidenceLevel.

Module RecommendationPriority.
Inductive t : Type := CRITICAL | HIGH | MEDIUM | LOW | INFORMATIONAL.

Definition value (p : t) : Z :=
  match p with
  | CRITICAL => 1
  | HIGH => 2
  | MEDIUM => 3
  | LOW => 4
  | INFORMATIONAL => 5
  end.
End RecommendationPriority.

Module FoodSuggestion.
Record t : Type := mk {
  fdc_id : Z;
  food_name : string;
  serving_size : Q;
  serving_unit : string;
  calories : Q;
  protein_g : Q;
  carbs_g : Q;
  fat_g : Q;
  reason : string;
  meal_type : option string;
  priority_score : Q;
  nutritional_benefits : list string;
  matches_dietary_restrictions : bool;
  allergen_warnings : list string
}.
End FoodSuggestion.

Module MealPlan.
Record t : Type := mk {
  date : Z;
  meals : gmap string (list FoodSuggestion.t);
  total_calories : Q;
  total_protein_g : Q;
  total_carbs_g : Q;
  total_fat_g : Q;
  total_fiber_g : Q;
  plan_type : string;
  difficulty_level : string;
  prep_time_minutes : option Z;
  cost_estimate : option Q
}.
End MealPlan.

(** The schema declares exactly these fields: there is no [priority]. *)
Module NutrientAdjustment.
Record t : Type := mk {
  nutrient_name : string;
  current_intake : Q;
  recommended_intake : Q;
  adjustment_amount : Q;
  adjustment_direction : string;
  unit : string;
  reason : string;
  health_impact : string;
  food_sources : list string;
  supplement_suggestion : option string
}.

(** [adj.priority]: the attribute is not a field of the schema, so the
    access raises. *)
Definition priority (adj : t) : result Z :=
  Raise (AttributeError "NutrientAdjustment" "priority").
End NutrientAdjustment.

(** The time stamps and the fields no path of the engine sets
    ([current_nutrition_status], [valid_until], [expires_at]) are left
    out. *)
Module Recommendation.
Record t : Type := mk {
  user_id : string;
  recommendation_type : RecommendationType;
  title : string;
  description : string;
  confidence_level : ConfidenceLevel.t;
  food_suggestions : list FoodSuggestion.t;
  meal_plan : option MealPlan.t;
  nutrient_adjustments : list NutrientAdjustment.t;
  model_version : string;
  model_confidence : Q;
  features_used : list string;
  user_goals : list string;
  health_conditions : list string;
  dietary_restrictions : list string;
  priority : Z;
  expected_impact : string;
  implementation_difficulty : string;
  time_horizon : string;
  is_active : bool;
  is_viewed : bool;
  is_accepted : bool;
  user_feedback : option string;
  user_rating : option Z
}.
End Recommendation.

(** [RecommendationFeedback]: the request body of the feedback endpoint,
    before validation. *)
Module RecommendationFeedback.
Record t : Type := mk {
  recommendation_id : string;
  is_accepted : bool;
  rating : option Z;
  feedback : option string
}.

(** [rating: Optional[int] = Field(None, ge=1, le=5)];
    [feedback: Optional[str] = None] carries no constraint. *)
Definition validate (body : t) : bool :=
  match rating body with
  | None => true
  | Some r => (1 <=? r)%Z && (r <=? 5)%Z
  end.
End RecommendationFeedback.

(** ** Collaborators *)

(** One suggestion of the generator: a dictionary with optional keys. *)
Module AISuggestion.
Record t : Type := mk {
  name : option string;
  ingredients : list (option string);
  estimated_nutrition : gmap string Q;
  rationale : option string
}.
End AISuggestion.

Module SuggestionRequest.
Record t : Type := mk {
  user_profile : option Z * option string * option string * option string * list string;
  nutrition_targets : list (string * Q);
  dietary_restrictions : list string;
  meal_type : string
}.
End SuggestionRequest.

Record World : Type := mkWorld {
  (** [NutritionProfile.find_one] by user id *)
  find_profile : string -> result (option NutritionProfile.t);
  (** [nutrition_calculator.get_nutrition_recommendations(user)['macro_targets']] *)
  get_nutrition_recommendations : User.t -> result MacroTargets.t;
  (** [profile.insert()] *)
  insert_profile : NutritionProfile.t -> result unit;
  (** [DailyIntake.find_one] for the user id and today *)
  find_daily_intake : string -> result (option DailyIntake.t);
  (** [openai_service.generate_meal_suggestions]; the module
      [app/services/openai_service.py] is outside the sources read here,
      so its answer to a request is left arbitrary *)
  generate_meal_suggestions : SuggestionRequest.t -> result (list AISuggestion.t);
  (** [len] of the user's food logs of the last three days *)
  recent_logs : string -> result nat;
  (** [datetime.now().hour] *)
  current_hour : Z;
  (** [datetime.now()] *)
  now : Z
}.

(** ** The engine: [RecommendationEngine] *)

(** [self.nutrient_thresholds] *)
Definition protein_deficit_threshold : Q := 0.8.
Definition fiber_deficit_threshold : Q := 0.7.
Definition vitamin_deficit_threshold : Q := 0.6.
Definition excess_threshold : Q := 1.5.
Definition critical_threshold : Q := 0.5.

Definition _get_or_create_nutrition_profile (w : World) (user : User.t)
  : result NutritionProfile.t :=
  let* profile := find_profile w (User.id user) in
  match profile with
  | Some p => Ok p
  | None =>
      let* targets := get_nutrition_recommendations w user in
      let p := NutritionProfile.mk (User.id user) targets
                 NutritionProfile.default_meal_distribution in
      let* _ := insert_profile w p in
      Ok p
  end.

(** The literal lists the five macros first and [**micronutrients] last,
    so a micronutrient key wins over a macro key of the same name. *)
Definition _get_current_daily_intake (w : World) (user : User.t)
  : result (gmap string Q) :=
  let* daily_intake := find_daily_intake w (User.id user) in
  match daily_intake with
  | Some d =>
      Ok (DailyIntake.micronutrients d ∪
          list_to_map [("calories", DailyIntake.actual_calories d);
                       ("protein_g", DailyIntake.actual_protein_g d);
                       ("carbs_g", DailyIntake.actual_carbs_g d);
                       ("fat_g", DailyIntake.actual_fat_g d);
                       ("fiber_g", DailyIntake.actual_fiber_g d)])
  | None =>
      Ok (list_to_map [("calories", 0%Q); ("protein_g", 0%Q); ("carbs_g", 0%Q);
                       ("fat_g", 0%Q); ("fiber_g", 0%Q)])
  end.

Definition _get_nutrient_gap_reason (nutrient : string) (ratio : Q) (user : User.t) : string :=
  let severity :=
    if Qlt_bool ratio 0.5 then "critically low"
    else if Qlt_bool ratio 0.8 then "below target"
    else "above recommended levels" in
  let nutrient_benefits : list (string * string) :=
    [("protein_g", "muscle maintenance and repair");
     ("fiber_g", "digestive health and blood sugar control");
     ("calories", "energy balance and metabolic function");
     ("carbs_g", "energy production and brain function");
     ("fat_g", "hormone production and nutrient absorption")] in
  let benefit :=
    default "overall health"
      (snd <$> List.find (fun kv => String.eqb (fst kv) nutrient) nutrient_benefits) in
  "Your " +:+ PyStr.replace "_" " " nutrient +:+ " intake is " +:+ severity
    +:+ ", which may impact " +:+ benefit +:+ ".".

Definition _get_health_impact (nutrient severity : string) : string :=
  let impacts : list (string * list (string * string)) :=
    [("protein_g",
      [("critical", "Risk of muscle loss and impaired immune function");
       ("high", "Reduced muscle protein synthesis and recovery");
       ("excess", "Potential kidney strain and dehydration")]);
     ("fiber_g",
      [("critical", "Digestive issues and blood sugar instability");
       ("high", "Suboptimal digestive health and satiety");
       ("excess", "Potential digestive discomfort and bloating")]);
     ("calories",
      [("critical", "Risk of malnutrition and metabolic slowdown");
       ("high", "Energy deficiency and potential muscle loss");
       ("excess", "Weight gain and metabolic dysfunction")])] in
  let inner :=
    default [] (snd <$> List.find (fun kv => String.eqb (fst kv) nutrient) impacts) in
  default "May affect overall health and wellness"
    (snd <$> List.find (fun kv => String.eqb (fst kv) severity) inner).

Definition _get_food_sources_for_nutrient (nutrient : string) : list string :=
  let sources : list (string * list string) :=
    [("protein_g", ["lean meats"; "fish"; "eggs"; "legumes"; "dairy"; "nuts"]);
     ("fiber_g", ["whole grains"; "vegetables"; "fruits"; "legumes"; "nuts"]);
     ("calories", ["healthy fats"; "whole grains"; "lean proteins"; "fruits"]);
     ("carbs_g", ["whole grains"; "fruits"; "vegetables"; "legumes"]);
     ("fat_g", ["avocados"; "nuts"; "olive oil"; "fatty fish"; "seeds"]);
     ("iron_mg", ["red meat"; "spinach"; "lentils"; "fortified cereals"]);
     ("calcium_mg", ["dairy products"; "leafy greens"; "sardines"; "almonds"]);
     ("vitamin_c_mg", ["citrus fruits"; "bell peppers"; "strawberries"; "broccoli"]);
     ("vitamin_d_mcg", ["fatty fish"; "fortified milk"; "egg yolks"; "mushrooms"])] in
  default ["varied whole foods"]
    (snd <$> List.find (fun kv => String.eqb (fst kv) nutrient) sources).

Definition _determine_next_meal (w : World) : string :=
  let h := current_hour w in
  if (5 <=? h)%Z && (h <? 11)%Z then "breakfast"
  else if (11 <=? h)%Z && (h <? 15)%Z then "lunch"
  else if (15 <=? h)%Z && (h <? 18)%Z then "snack"
  else "dinner".

(** *** Nutrient gaps *)

(** The [macros] dictionary, in the order of its literal. *)
Definition macros (macro_targets : MacroTargets.t) : list (string * Q) :=
  [("calories", MacroTargets.calories macro_targets);
   ("protein_g", MacroTargets.protein_g macro_targets);
   ("carbs_g", MacroTargets.carbs_g macro_targets);
   ("fat_g", MacroTargets.fat_g macro_targets);
   ("fiber_g", MacroTargets.fiber_g macro_targets)].

(** [ratio = current / target if target > 0 else 0] *)
Definition gap_ratio (current target : Q) : Q :=
  if Qlt_bool 0 target then (current / target)%Q else 0%Q.

(** The [if]/[elif] chain of the loop; [None] is the [continue]. *)
Definition gap_severity (ratio : Q) : option (RecommendationPriority.t * string) :=
  if Qlt_bool ratio critical_threshold
  then Some (RecommendationPriority.CRITICAL, "critical")
  else if Qlt_bool ratio protein_deficit_threshold
  then Some (RecommendationPriority.HIGH, "high")
  else if Qlt_bool excess_threshold ratio
  then Some (RecommendationPriority.MEDIUM, "excess")
  else None.

(** One iteration of [for nutrient, target in macros.items()]: the
    adjustment appended, if any. *)
Definition gap_adjustment (user : User.t) (current_intake : gmap string Q)
    (item : string * Q) : option NutrientAdjustment.t :=
  let '(nutrient, target) := item in
  let current := get0 current_intake nutrient in
  let ratio := gap_ratio current target in
  match gap_severity ratio with
  | None => None
  | Some (_, severity) =>
      let gap := (target - current)%Q in
      Some {| NutrientAdjustment.nutrient_name := nutrient;
              NutrientAdjustment.current_intake := current;
              NutrientAdjustment.recommended_intake := target;
              NutrientAdjustment.adjustment_amount := Qabs gap;
              NutrientAdjustment.adjustment_direction :=
                if Qlt_bool 0 gap then "increase" else "decrease";
              NutrientAdjustment.unit :=
                if String.eqb nutrient "calories" then "kcal" else "g";
              NutrientAdjustment.reason := _get_nutrient_gap_reason nutrient ratio user;
              NutrientAdjustment.health_impact := _get_health_impact nutrient severity;
              NutrientAdjustment.food_sources := _get_food_sources_for_nutrient nutrient;
              NutrientAdjustment.supplement_suggestion := None |}
  end.

(** The list [nutrient_adjustments] when the loop ends. *)
Definition gap_adjustments (user : User.t) (macro_targets : MacroTargets.t)
    (current_intake : gmap string Q) : list NutrientAdjustment.t :=
  omap (gap_adjustment user current_intake) (macros macro_targets).

(** ["critical" in adj.reason.lower()] *)
Definition critical_reason (adj : NutrientAdjustment.t) : bool :=
  PyStr.contains "critical" (PyStr.lower (NutrientAdjustment.reason adj)).

(** [min(l, key=key)] on a non-empty list, [x] its head: the first
    element whose key is least. *)
Definition py_min {A : Type} (key : A -> Z) (x : A) (l : list A) : A :=
  fold_left (fun best y => if (key y <? key best)%Z then y else best) l x.

Definition user_goals_of (user : User.t) : list string :=
  match User.primary_goal user with
  | Some g => if String.eqb g "" then [] else [g]
  | None => []
  end.

Definition _generate_nutrient_gap_recommendations (user : User.t)
    (nutrition_profile : NutritionProfile.t) (current_intake : gmap string Q)
  : result (list Recommendation.t) :=
  let macro_targets := NutritionProfile.macro_targets nutrition_profile in
  let nutrient_adjustments := gap_adjustments user macro_targets current_intake in
  match nutrient_adjustments with
  | [] => Ok []
  | first :: rest =>
      let* priority :=
        NutrientAdjustment.priority
          (py_min (fun x => if critical_reason x then 1 else 2)%Z first rest) in
      Ok [ {| Recommendation.user_id := User.id user;
              Recommendation.recommendation_type := NUTRIENT_ADJUSTMENT;
              Recommendation.title := "Nutrition Balance Optimization";
              Recommendation.description :=
                "Adjust your nutrient intake to better meet your daily targets";
              Recommendation.confidence_level := ConfidenceLevel.HIGH;
              Recommendation.food_suggestions := [];
              Recommendation.meal_plan := None;
              Recommendation.nutrient_adjustments := nutrient_adjustments;
              Recommendation.model_version := "1.0";
              Recommendation.model_confidence := 0.85;
              Recommendation.features_used := ["current_intake"; "targets"; "user_profile"];
              Recommendation.user_goals := user_goals_of user;
              Recommendation.health_conditions :=
                map HealthCondition.name (User.health_conditions user);
              Recommendation.dietary_restrictions :=
                map DietaryRestriction.type (User.dietary_restrictions user);
              Recommendation.priority := priority;
              Recommendation.expected_impact :=
                if existsb critical_reason nutrient_adjustments then "high" else "medium";
              Recommendation.implementation_difficulty := "easy";
              Recommendation.time_horizon := "immediate";
              Recommendation.is_active := true;
              Recommendation.is_viewed := false;
              Recommendation.is_accepted := false;
              Recommendation.user_feedback := None;
              Recommendation.user_rating := None |} ]
  end.

(** *** Allergen screening *)

(** [common_allergens], in the order of its literal. *)
Definition common_allergens : list (string * list string) :=
  [("milk", ["milk"; "dairy"; "cheese"; "butter"; "cream"]);
   ("eggs", ["egg"; "eggs"]);
   ("fish", ["fish"; "salmon"; "tuna"; "cod"]);
   ("shellfish", ["shrimp"; "crab"; "lobster"; "shellfish"]);
   ("tree nuts", ["almond"; "walnut"; "pecan"; "cashew"; "pistachio"]);
   ("peanuts", ["peanut"; "peanuts"]);
   ("wheat", ["wheat"; "flour"; "bread"; "pasta"]);
   ("soy", ["soy"; "tofu"; "soybean"; "edamame"])].

Definition suggestion_text (suggestion : AISuggestion.t) : string :=
  PyStr.lower (default "" (AISuggestion.name suggestion)) +:+ " " +:+
  PyStr.join " "
    (map (fun ingredient => PyStr.lower (default "" ingredient))
         (AISuggestion.ingredients suggestion)).

(** [allergy_lower in allergen_group or any(keyword in allergy_lower ...)] *)
Definition allergy_matches (allergy_lower allergen_group : string)
    (keywords : list string) : bool :=
  PyStr.contains allergy_lower allergen_group
  || existsb (fun keyword => PyStr.contains keyword allergy_lower) keywords.

Definition _check_allergens (suggestion : AISuggestion.t) (user_allergies : list string)
  : list string :=
  let text := suggestion_text suggestion in
  flat_map
    (fun allergy =>
       let allergy_lower := PyStr.lower allergy in
       flat_map
         (fun group : string * list string =>
            let '(allergen_group, keywords) := group in
            if allergy_matches allergy_lower allergen_group keywords
            then if existsb (fun keyword => PyStr.contains keyword text) keywords
                 then ["May contain " +:+ allergen_group]
                 else []
            else [])
         common_allergens)
    user_allergies.

(** *** Food suggestions *)

Definition user_profile_of (user : User.t)
  : option Z * option string * option string * option string * list string :=
  (User.age user, User.gender user, User.activity_level user, User.primary_goal user,
   map HealthCondition.name (User.health_conditions user)).

(** [FoodSuggestion(...)] from one generator suggestion. *)
Definition food_suggestion_of (suggestion : AISuggestion.t) (default_reason : string)
    (meal_type : string) (benefits warnings : list string) : FoodSuggestion.t :=
  let nutrition := AISuggestion.estimated_nutrition suggestion in
  {| FoodSuggestion.fdc_id := 0;
     FoodSuggestion.food_name := default "Unknown" (AISuggestion.name suggestion);
     FoodSuggestion.serving_size := 1.0;
     FoodSuggestion.serving_unit := "serving";
     FoodSuggestion.calories := get0 nutrition "calories";
     FoodSuggestion.protein_g := get0 nutrition "protein_g";
     FoodSuggestion.carbs_g := get0 nutrition "carbs_g";
     FoodSuggestion.fat_g := get0 nutrition "fat_g";
     FoodSuggestion.reason := default default_reason (AISuggestion.rationale suggestion);
     FoodSuggestion.meal_type := Some meal_type;
     FoodSuggestion.priority_score := 0.8;
     FoodSuggestion.nutritional_benefits := benefits;
     FoodSuggestion.matches_dietary_restrictions := true;
     FoodSuggestion.allergen_warnings := warnings |}.

(** [meal_type or self._determine_next_meal()] *)
Definition target_meal_type_of (w : World) (meal_type : option string) : string :=
  match meal_type with
  | Some m => if String.eqb m "" then _determine_next_meal w else m
  | None => _determine_next_meal w
  end.

(** The nutrients of [['protein_g', 'fiber_g']] below 80% of target. *)
Definition deficit_nutrients_of (macro_targets : MacroTargets.t)
    (current_intake : gmap string Q) : list string :=
  List.filter
    (fun nutrient =>
       let current := get0 current_intake nutrient in
       let target := MacroTargets.getattr macro_targets nutrient in
       Qlt_bool current (target * 0.8))
    ["protein_g"; "fiber_g"].

Definition food_request (w : World) (user : User.t) (macro_targets : MacroTargets.t)
    (current_intake : gmap string Q) (meal_type : option string) : SuggestionRequest.t :=
  let remaining_calories :=
    max0 (MacroTargets.calories macro_targets - get0 current_intake "calories") in
  {| SuggestionRequest.user_profile := user_profile_of user;
     SuggestionRequest.nutrition_targets :=
       [("calories", remaining_calories * 0.3);
        ("protein_g",
         max0 (MacroTargets.protein_g macro_targets - get0 current_intake "protein_g") * 0.3);
        ("carbs_g",
         max0 (MacroTargets.carbs_g macro_targets - get0 current_intake "carbs_g") * 0.3);
        ("fat_g",
         max0 (MacroTargets.fat_g macro_targets - get0 current_intake "fat_g") * 0.3)]%Q;
     SuggestionRequest.dietary_restrictions :=
       map DietaryRestriction.type (User.dietary_restrictions user);
     SuggestionRequest.meal_type := target_meal_type_of w meal_type |}.

(** The body of the [try] of [_generate_food_suggestions]. *)
Definition food_suggestions_body (w : World) (user : User.t)
    (nutrition_profile : NutritionProfile.t) (current_intake : gmap string Q)
    (meal_type : option string) : result (list Recommendation.t) :=
  let macro_targets := NutritionProfile.macro_targets nutrition_profile in
  let deficit_nutrients := deficit_nutrients_of macro_targets current_intake in
  match deficit_nutrients with
  | [] => Ok []
  | _ :: _ =>
      let request := food_request w user macro_targets current_intake meal_type in
      let target_meal_type := SuggestionRequest.meal_type request in
      let* ai_suggestions := generate_meal_suggestions w request in
      match ai_suggestions with
      | [] => Ok []
      | _ :: _ =>
          let food_suggestions :=
            map (fun suggestion =>
                   food_suggestion_of suggestion "Nutritionally balanced option"
                     target_meal_type deficit_nutrients
                     (_check_allergens suggestion (User.allergies user)))
                (take 3 ai_suggestions) in
          Ok [ {| Recommendation.user_id := User.id user;
                  Recommendation.recommendation_type := FOOD_SUGGESTION;
                  Recommendation.title :=
                    "Smart " +:+ PyStr.title target_meal_type +:+ " Suggestions";
                  Recommendation.description :=
                    "Personalized food recommendations to help you meet your "
                    +:+ PyStr.join ", " deficit_nutrients +:+ " goals";
                  Recommendation.confidence_level := ConfidenceLevel.MEDIUM;
                  Recommendation.food_suggestions := food_suggestions;
                  Recommendation.meal_plan := None;
                  Recommendation.nutrient_adjustments := [];
                  Recommendation.model_version := "1.0";
                  Recommendation.model_confidence := 0.75;
                  Recommendation.features_used :=
                    ["nutrition_gaps"; "user_preferences"; "ai_analysis"];
                  Recommendation.user_goals := user_goals_of user;
                  Recommendation.health_conditions :=
                    map HealthCondition.name (User.health_conditions user);
                  Recommendation.dietary_restrictions :=
                    SuggestionRequest.dietary_restrictions request;
                  Recommendation.priority :=
                    RecommendationPriority.value RecommendationPriority.MEDIUM;
                  Recommendation.expected_impact := "medium";
                  Recommendation.implementation_difficulty := "easy";
                  Recommendation.time_horizon := "immediate";
                  Recommendation.is_active := true;
                  Recommendation.is_viewed := false;
                  Recommendation.is_accepted := false;
                  Recommendation.user_feedback := None;
                  Recommendation.user_rating := None |} ]
      end
  end.

(** The list is appended to only as the last step of the [try], so the
    handler returns it empty. *)
Definition _generate_food_suggestions (w : World) (user : User.t)
    (nutrition_profile : NutritionProfile.t) (current_intake : gmap string Q)
    (meal_type : option string) : list Recommendation.t :=
  try_except (food_suggestions_body w user nutrition_profile current_intake meal_type)
    (fun _ => []).

(** *** Meal plan *)

Definition meal_request (user : User.t) (macro_targets : MacroTargets.t)
    (meal_type : string) (percentage : Q) : SuggestionRequest.t :=
  {| SuggestionRequest.user_profile := user_profile_of user;
     SuggestionRequest.nutrition_targets :=
       [("calories", MacroTargets.calories macro_targets * percentage);
        ("protein_g", MacroTargets.protein_g macro_targets * percentage);
        ("carbs_g", MacroTargets.carbs_g macro_targets * percentage);
        ("fat_g", MacroTargets.fat_g macro_targets * percentage)]%Q;
     SuggestionRequest.dietary_restrictions :=
       map DietaryRestriction.type (User.dietary_restrictions user);
     SuggestionRequest.meal_type := meal_type |}.

(** [for meal_type, percentage in meal_distribution.items()], threading
    [daily_meals]; a raising generator call ends the loop. *)
Fixpoint daily_meals_loop (w : World) (user : User.t) (macro_targets : MacroTargets.t)
    (items : list (string * Q)) (daily_meals : gmap string (list FoodSuggestion.t))
  : result (gmap string (list FoodSuggestion.t)) :=
  match items with
  | [] => Ok daily_meals
  | (meal_type, percentage) :: items' =>
      let* ai_suggestions :=
        generate_meal_suggestions w (meal_request user macro_targets meal_type percentage) in
      let daily_meals' :=
        match ai_suggestions with
        | [] => daily_meals
        | _ :: _ =>
            <[meal_type :=
                map (fun suggestion => food_suggestion_of suggestion "" meal_type [] [])
                    (take 1 ai_suggestions)]> daily_meals
        end in
      daily_meals_loop w user macro_targets items' daily_meals'
  end.

Definition meal_plan_body (w : World) (user : User.t)
    (nutrition_profile : NutritionProfile.t) : result (list Recommendation.t) :=
  let* recent := recent_logs w (User.id user) in
  if (recent <? 5)%nat then
    let macro_targets := NutritionProfile.macro_targets nutrition_profile in
    let* daily_meals :=
      daily_meals_loop w user macro_targets
        (NutritionProfile.meal_distribution nutrition_profile) ∅ in
    if decide (daily_meals = ∅) then Ok []
    else
      let meal_plan :=
        {| MealPlan.date := now w;
           MealPlan.meals := daily_meals;
           MealPlan.total_calories := MacroTargets.calories macro_targets;
           MealPlan.total_protein_g := MacroTargets.protein_g macro_targets;
           MealPlan.total_carbs_g := MacroTargets.carbs_g macro_targets;
           MealPlan.total_fat_g := MacroTargets.fat_g macro_targets;
           MealPlan.total_fiber_g := MacroTargets.fiber_g macro_targets;
           MealPlan.plan_type := "daily";
           MealPlan.difficulty_level := "easy";
           MealPlan.prep_time_minutes := Some 45%Z;
           MealPlan.cost_estimate := Some 25.0%Q |} in
      Ok [ {| Recommendation.user_id := User.id user;
              Recommendation.recommendation_type := MEAL_PLAN;
              Recommendation.title := "Personalized Daily Meal Plan";
              Recommendation.description :=
                "A complete meal plan designed to meet your nutritional goals and preferences";
              Recommendation.confidence_level := ConfidenceLevel.MEDIUM;
              Recommendation.food_suggestions := [];
              Recommendation.meal_plan := Some meal_plan;
              Recommendation.nutrient_adjustments := [];
              Recommendation.model_version := "1.0";
              Recommendation.model_confidence := 0.70;
              Recommendation.features_used :=
                ["nutrition_targets"; "user_preferences"; "meal_distribution"];
              Recommendation.user_goals := user_goals_of user;
              Recommendation.health_conditions :=
                map HealthCondition.name (User.health_conditions user);
              Recommendation.dietary_restrictions :=
                map DietaryRestriction.type (User.dietary_restrictions user);
              Recommendation.priority :=
                RecommendationPriority.value RecommendationPriority.LOW;
              Recommendation.expected_impact := "high";
              Recommendation.implementation_difficulty := "medium";
              Recommendation.time_horizon := "short_term";
              Recommendation.is_active := true;
              Recommendation.is_viewed := false;
              Recommendation.is_accepted := false;
              Recommendation.user_feedback := None;
              Recommendation.user_rating := None |} ]
  else Ok [].

Definition _generate_meal_plan_recommendations (w : World) (user : User.t)
    (nutrition_profile : NutritionProfile.t) : list Recommendation.t :=
  try_except (meal_plan_body w user nutrition_profile) (fun _ => []).

(** *** Condition-specific rule packs *)

(** [Recommendation(...)] as the five packs build it; the arguments are
    what differs between them. *)
Definition health_recommendation (user : User.t) (title description : string)
    (adjustments : list NutrientAdjustment.t) (model_confidence : Q)
    (condition difficulty horizon : string) : Recommendation.t :=
  {| Recommendation.user_id := User.id user;
     Recommendation.recommendation_type := HEALTH_OPTIMIZATION;
     Recommendation.title := title;
     Recommendation.description := description;
     Recommendation.confidence_level := ConfidenceLevel.HIGH;
     Recommendation.food_suggestions := [];
     Recommendation.meal_plan := None;
     Recommendation.nutrient_adjustments := adjustments;
     Recommendation.model_version := "1.0";
     Recommendation.model_confidence := model_confidence;
     Recommendation.features_used :=
       ["health_conditions"; "current_intake"; "clinical_guidelines"];
     Recommendation.user_goals := user_goals_of user;
     Recommendation.health_conditions := [condition];
     Recommendation.dietary_restrictions := [];
     Recommendation.priority := RecommendationPriority.value RecommendationPriority.HIGH;
     Recommendation.expected_impact := "high";
     Recommendation.implementation_difficulty := difficulty;
     Recommendation.time_horizon := horizon;
     Recommendation.is_active := true;
     Recommendation.is_viewed := false;
     Recommendation.is_accepted := false;
     Recommendation.user_feedback := None;
     Recommendation.user_rating := None |}.

Definition _diabetes_recommendations (user : User.t) (current_intake : gmap string Q)
  : list Recommendation.t :=
  let fiber := get0 current_intake "fiber_g" in
  let adjustments :=
    if Qlt_bool fiber 25
    then [ {| NutrientAdjustment.nutrient_name := "fiber_g";
              NutrientAdjustment.current_intake := fiber;
              NutrientAdjustment.recommended_intake := 30;
              NutrientAdjustment.adjustment_amount := 30 - fiber;
              NutrientAdjustment.adjustment_direction := "increase";
              NutrientAdjustment.unit := "g";
              NutrientAdjustment.reason :=
                "Higher fiber intake helps regulate blood sugar levels";
              NutrientAdjustment.health_impact :=
                "Improved glucose control and insulin sensitivity";
              NutrientAdjustment.food_sources :=
                ["whole grains"; "legumes"; "vegetables"; "fruits with skin"];
              NutrientAdjustment.supplement_suggestion :=
                Some "Consider a fiber supplement if dietary intake is insufficient" |} ]
    else [] in
  match adjustments with
  | [] => []
  | _ :: _ =>
      [ health_recommendation user "Diabetes Management Nutrition"
          "Optimize your nutrition to better manage blood sugar levels"
          adjustments 0.90 "diabetes" "medium" "long_term" ]
  end.

Definition _hypertension_recommendations (user : User.t) (current_intake : gmap string Q)
  : list Recommendation.t :=
  let sodium := get0 current_intake "sodium_mg" in
  let potassium := get0 current_intake "potassium_mg" in
  let adjustments :=
    (if Qlt_bool 2300 sodium
     then [ {| NutrientAdjustment.nutrient_name := "sodium_mg";
               NutrientAdjustment.current_intake := sodium;
               NutrientAdjustment.recommended_intake := 1500;
               NutrientAdjustment.adjustment_amount := sodium - 1500;
               NutrientAdjustment.adjustment_direction := "decrease";
               NutrientAdjustment.unit := "mg";
               NutrientAdjustment.reason :=
                 "Reducing sodium intake helps lower blood pressure";
               NutrientAdjustment.health_impact := "Reduced risk of cardiovascular events";
               NutrientAdjustment.food_sources :=
                 ["fresh fruits"; "vegetables"; "unsalted nuts"; "herbs and spices"];
               NutrientAdjustment.supplement_suggestion :=
                 Some "Focus on whole foods rather than supplements" |} ]
     else [])
    ++ (if Qlt_bool potassium 3500
        then [ {| NutrientAdjustment.nutrient_name := "potassium_mg";
                  NutrientAdjustment.current_intake := potassium;
                  NutrientAdjustment.recommended_intake := 4700;
                  NutrientAdjustment.adjustment_amount := 4700 - potassium;
                  NutrientAdjustment.adjustment_direction := "increase";
                  NutrientAdjustment.unit := "mg";
                  NutrientAdjustment.reason :=
                    "Adequate potassium helps counteract sodium's effects on blood pressure";
                  NutrientAdjustment.health_impact := "Better blood pressure control";
                  NutrientAdjustment.food_sources :=
                    ["bananas"; "oranges"; "potatoes"; "spinach"; "beans"];
                  NutrientAdjustment.supplement_suggestion :=
                    Some "Consult healthcare provider before potassium supplements" |} ]
        else []) in
  match adjustments with
  | [] => []
  | _ :: _ =>
      [ health_recommendation user "Blood Pressure Management"
          "Nutritional strategies to help manage blood pressure"
          adjustments 0.88 "hypertension" "medium" "long_term" ]
  end.

Definition _heart_health_recommendations (user : User.t) (current_intake : gmap string Q)
  : list Recommendation.t :=
  let fiber := get0 current_intake "fiber_g" in
  let adjustments :=
    if Qlt_bool fiber 25
    then [ {| NutrientAdjustment.nutrient_name := "fiber_g";
              NutrientAdjustment.current_intake := fiber;
              NutrientAdjustment.recommended_intake := 30;
              NutrientAdjustment.adjustment_amount := 30 - fiber;
              NutrientAdjustment.adjustment_direction := "increase";
              NutrientAdjustment.unit := "g";
              NutrientAdjustment.reason := "Soluble fiber helps reduce cholesterol levels";
              NutrientAdjustment.health_impact :=
                "Improved cardiovascular health and cholesterol profile";
              NutrientAdjustment.food_sources :=
                ["oats"; "beans"; "apples"; "barley"; "psyllium"];
              NutrientAdjustment.supplement_suggestion :=
                Some "Consider psyllium husk supplement" |} ]
    else [] in
  match adjustments with
  | [] => []
  | _ :: _ =>
      [ health_recommendation user "Heart Health Optimization"
          "Nutrition recommendations to support cardiovascular health"
          adjustments 0.85 "heart_disease" "medium" "long_term" ]
  end.

Definition _anemia_recommendations (user : User.t) (current_intake : gmap string Q)
  : list Recommendation.t :=
  let iron := get0 current_intake "iron_mg" in
  let vitamin_c := get0 current_intake "vitamin_c_mg" in
  let adjustments :=
    (if Qlt_bool iron 15
     then [ {| NutrientAdjustment.nutrient_name := "iron_mg";
               NutrientAdjustment.current_intake := iron;
               NutrientAdjustment.recommended_intake := 18;
               NutrientAdjustment.adjustment_amount := 18 - iron;
               NutrientAdjustment.adjustment_direction := "increase";
               NutrientAdjustment.unit := "mg";
               NutrientAdjustment.reason :=
                 "Adequate iron intake is essential for red blood cell production";
               NutrientAdjustment.health_impact :=
                 "Improved energy levels and oxygen transport";
               NutrientAdjustment.food_sources :=
                 ["lean red meat"; "spinach"; "lentils"; "fortified cereals"];
               NutrientAdjustment.supplement_suggestion :=
                 Some "Consider iron supplement with healthcare provider guidance" |} ]
     else [])
    ++ (if Qlt_bool vitamin_c 75
        then [ {| NutrientAdjustment.nutrient_name := "vitamin_c_mg";
                  NutrientAdjustment.current_intake := vitamin_c;
                  NutrientAdjustment.recommended_intake := 90;
                  NutrientAdjustment.adjustment_amount := 90 - vitamin_c;
                  NutrientAdjustment.adjustment_direction := "increase";
                  NutrientAdjustment.unit := "mg";
                  NutrientAdjustment.reason := "Vitamin C enhances iron absorption";
                  NutrientAdjustment.health_impact :=
                    "Better iron utilization and absorption";
                  NutrientAdjustment.food_sources :=
                    ["citrus fruits"; "bell peppers"; "strawberries"; "broccoli"];
                  NutrientAdjustment.supplement_suggestion :=
                    Some "Vitamin C supplement can be taken with iron-rich meals" |} ]
        else []) in
  match adjustments with
  | [] => []
  | _ :: _ =>
      [ health_recommendation user "Anemia Management Nutrition"
          "Nutritional support for managing anemia and improving iron status"
          adjustments 0.92 "anemia" "easy" "medium_term" ]
  end.

Definition _bone_health_recommendations (user : User.t) (current_intake : gmap string Q)
  : list Recommendation.t :=
  let calcium := get0 current_intake "calcium_mg" in
  let vitamin_d := get0 current_intake "vitamin_d_mcg" in
  let adjustments :=
    (if Qlt_bool calcium 1000
     then [ {| NutrientAdjustment.nutrient_name := "calcium_mg";
               NutrientAdjustment.current_intake := calcium;
               NutrientAdjustment.recommended_intake := 1200;
               NutrientAdjustment.adjustment_amount := 1200 - calcium;
               NutrientAdjustment.adjustment_direction := "increase";
               NutrientAdjustment.unit := "mg";
               NutrientAdjustment.reason :=
                 "Adequate calcium is essential for bone strength and density";
               NutrientAdjustment.health_impact := "Reduced risk of fractures and bone loss";
               NutrientAdjustment.food_sources :=
                 ["dairy products"; "leafy greens"; "sardines"; "almonds"];
               NutrientAdjustment.supplement_suggestion :=
                 Some "Calcium citrate supplement if dietary intake is insufficient" |} ]
     else [])
    ++ (if Qlt_bool vitamin_d 15
        then [ {| NutrientAdjustment.nutrient_name := "vitamin_d_mcg";
                  NutrientAdjustment.current_intake := vitamin_d;
                  NutrientAdjustment.recommended_intake := 20;
                  NutrientAdjustment.adjustment_amount := 20 - vitamin_d;
                  NutrientAdjustment.adjustment_direction := "increase";
                  NutrientAdjustment.unit := "mcg";
                  NutrientAdjustment.reason :=
                    "Vitamin D is crucial for calcium absorption and bone health";
                  NutrientAdjustment.health_impact :=
                    "Better calcium utilization and bone mineralization";
                  NutrientAdjustment.food_sources :=
                    ["fatty fish"; "fortified milk"; "egg yolks"; "mushrooms"];
                  NutrientAdjustment.supplement_suggestion :=
                    Some "Vitamin D3 supplement recommended, especially in winter" |} ]
        else []) in
  match adjustments with
  | [] => []
  | _ :: _ =>
      [ health_recommendation user "Bone Health Support"
          "Nutritional strategies to support bone health and prevent osteoporosis"
          adjustments 0.87 "osteoporosis" "easy" "long_term" ]
  end.

(** One iteration of [for condition in user.health_conditions]: what the
    [if]/[elif] chain extends the list with. *)
Definition condition_recommendations (user : User.t) (current_intake : gmap string Q)
    (condition : HealthCondition.t) : list Recommendation.t :=
  let condition_name := PyStr.lower (HealthCondition.name condition) in
  if PyStr.contains "diabetes" condition_name
  then _diabetes_recommendations user current_intake
  else if PyStr.contains "hypertension" condition_name
          || PyStr.contains "blood pressure" condition_name
  then _hypertension_recommendations user current_intake
  else if PyStr.contains "heart" condition_name
          || PyStr.contains "cardiovascular" condition_name
  then _heart_health_recommendations user current_intake
  else if PyStr.contains "anemia" condition_name
  then _anemia_recommendations user current_intake
  else if PyStr.contains "osteoporosis" condition_name
  then _bone_health_recommendations user current_intake
  else [].

(** No pack raises, so the handler of the [try] is never entered. *)
Definition _generate_health_optimization_recommendations (user : User.t)
    (current_intake : gmap string Q) : list Recommendation.t :=
  flat_map (condition_recommendations user current_intake) (User.health_conditions user).

(** *** Aggregation and ranking *)

(** [key=lambda x: (x.priority, -x.model_confidence)] *)
Definition sort_key (x : Recommendation.t) : Z * Q :=
  (Recommendation.priority x, - Recommendation.model_confidence x)%Q.

(** [a < b] on the key tuples: the first components decide unless they
    are equal. *)
Definition key_lt (a b : Z * Q) : bool :=
  if (a.1 =? b.1)%Z then Qlt_bool a.2 b.2 else (a.1 <? b.1)%Z.

(** [list.sort] is stable; it is modelled by the stable insertion sort,
    which places an element after those that are not greater. *)
Fixpoint insert_by {A : Type} (key : A -> Z * Q) (x : A) (l : list A) : list A :=
  match l with
  | [] => [x]
  | y :: t => if key_lt (key x) (key y) then x :: y :: t else y :: insert_by key x t
  end.

Definition py_sort {A : Type} (key : A -> Z * Q) (l : list A) : list A :=
  fold_left (fun sorted x => insert_by key x sorted) l [].

(** The body of the [try] of [generate_comprehensive_recommendations]. *)
Definition generate_body (w : World) (user : User.t)
    (current_intake : option (gmap string Q)) (meal_type : option string)
  : result (list Recommendation.t) :=
  let* nutrition_profile := _get_or_create_nutrition_profile w user in
  let* current_intake :=
    match current_intake with
    | None => _get_current_daily_intake w user
    | Some intake => Ok intake
    end in
  let* gaps := _generate_nutrient_gap_recommendations user nutrition_profile current_intake in
  let recommendations :=
    gaps
    ++ _generate_food_suggestions w user nutrition_profile current_intake meal_type
    ++ _generate_meal_plan_recommendations w user nutrition_profile
    ++ _generate_health_optimization_recommendations user current_intake in
  Ok (take 10 (py_sort sort_key recommendations)).

Definition generate_comprehensive_recommendations (w : World) (user : User.t)
    (current_intake : option (gmap string Q)) (meal_type : option string)
  : list Recommendation.t :=
  try_except (generate_body w user current_intake meal_type) (fun _ => []).

(** *** Feedback *)

(** The collection of stored recommendations, by document id.
    [Recommendation.get] of an unknown id is a missing key. *)
Definition get_recommendation_by_id (store : gmap string Recommendation.t)
    (recommendation_id user_id : string) : option Recommendation.t :=
  match store !! recommendation_id with
  | Some recommendation =>
      if String.eqb (Recommendation.user_id recommendation) user_id
      then Some recommendation else None
  | None => None
  end.

Definition set_feedback (r : Recommendation.t) (is_accepted : bool)
    (rating : option Z) (feedback : option string) : Recommendation.t :=
  {| Recommendation.user_id := Recommendation.user_id r;
     Recommendation.recommendation_type := Recommendation.recommendation_type r;
     Recommendation.title := Recommendation.title r;
     Recommendation.description := Recommendation.description r;
     Recommendation.confidence_level := Recommendation.confidence_level r;
     Recommendation.food_suggestions := Recommendation.food_suggestions r;
     Recommendation.meal_plan := Recommendation.meal_plan r;
     Recommendation.nutrient_adjustments := Recommendation.nutrient_adjustments r;
     Recommendation.model_version := Recommendation.model_version r;
     Recommendation.model_confidence := Recommendation.model_confidence r;
     Recommendation.features_used := Recommendation.features_used r;
     Recommendation.user_goals := Recommendation.user_goals r;
     Recommendation.health_conditions := Recommendation.health_conditions r;
     Recommendation.dietary_restrictions := Recommendation.dietary_restrictions r;
     Recommendation.priority := Recommendation.priority r;
     Recommendation.expected_impact := Recommendation.expected_impact r;
     Recommendation.implementation_difficulty := Recommendation.implementation_difficulty r;
     Recommendation.time_horizon := Recommendation.time_horizon r;
     Recommendation.is_active := Recommendation.is_active r;
     (* recommendation.is_viewed = True *)
     Recommendation.is_viewed := true;
     (* recommendation.is_accepted = is_accepted *)
     Recommendation.is_accepted := is_accepted;
     (* if feedback: recommendation.user_feedback = feedback *)
     Recommendation.user_feedback :=
       match feedback with
       | Some text => if String.eqb text "" then Recommendation.user_feedback r else Some text
       | None => Recommendation.user_feedback r
       end;
     (* if rating: recommendation.user_rating = rating *)
     Recommendation.user_rating :=
       match rating with
       | Some n => if (n =? 0)%Z then Recommendation.user_rating r else Some n
       | None => Recommendation.user_rating r
       end |}.

(** Returns the store after [recommendation.save()] and the boolean.
    [save] is taken to succeed. A document store that validates on save
    refuses a document outside its schema; the statement that feedback
    returns true therefore assumes the saved document inside it
    ([schema_valid]). *)
Definition update_recommendation_feedback (store : gmap string Recommendation.t)
    (recommendation_id user_id : string) (is_accepted : bool)
    (rating : option Z) (feedback : option string)
  : gmap string Recommendation.t * bool :=
  match get_recommendation_by_id store recommendation_id user_id with
  | None => (store, false)
  | Some recommendation =>
      (<[recommendation_id := set_feedback recommendation is_accepted rating feedback]> store,
       true)
  end.

Inductive HttpStatus : Type :=
| HTTP_200_OK
| HTTP_404_NOT_FOUND
| HTTP_422_UNPROCESSABLE_ENTITY.

(** [POST /{recommendation_id}/feedback]: the body is validated against
    [RecommendationFeedback] before the handler runs. *)
Definition submit_recommendation_feedback (store : gmap string Recommendation.t)
    (recommendation_id : string) (body : RecommendationFeedback.t) (current_user_id : string)
  : gmap string Recommendation.t * HttpStatus :=
  if RecommendationFeedback.validate body then
    let '(store', success) :=
      update_recommendation_feedback store recommendation_id current_user_id
        (RecommendationFeedback.is_accepted body)
        (RecommendationFeedback.rating body)
        (RecommendationFeedback.feedback body) in
    if success then (store', HTTP_200_OK) else (store', HTTP_404_NOT_FOUND)
  else (store, HTTP_422_UNPROCESSABLE_ENTITY).

(** [app/utils/validators.py] *)
Definition validate_rating (rating : Z) : bool := (1 <=? rating)%Z && (rating <=? 5)%Z.

(** [data] carries the keys ['rating'] and ['feedback']; a missing key
    and [None] are both [None] here. *)
Definition validate_recommendation_feedback (rating : option Z) (feedback : option string)
  : list string :=
  (match rating with
   | Some r => if validate_rating r then [] else ["Rating must be between 1 and 5"]
   | None => []
   end)
  ++ (match feedback with
      | Some text =>
          if (1000 <? String.length text)%nat
          then ["Feedback text cannot exceed 1000 characters"] else []
      | None => []
      end).

(** ** Concrete scenarios *)

Module Scenario.

Definition user_with (conditions : list string) (allergies : list string) : User.t :=
  {| User.id := "u1";
     User.age := Some 30%Z;
     User.gender := Some "female";
     User.activity_level := Some "moderately_active";
     User.primary_goal := Some "maintenance";
     User.health_conditions := map HealthCondition.mk conditions;
     User.dietary_restrictions := [];
     User.allergies := allergies |}.

Definition user_A : User.t := user_with [] [].

Definition targets_A : MacroTargets.t :=
  {| MacroTargets.calories := 2000;
     MacroTargets.protein_g := 100;
     MacroTargets.carbs_g := 250;
     MacroTargets.fat_g := 70;
     MacroTargets.fiber_g := 30 |}.

Definition profile_of (targets : MacroTargets.t) : NutritionProfile.t :=
  NutritionProfile.mk "u1" targets NutritionProfile.default_meal_distribution.

(** Scenario A: protein 40 g of a 100 g target, everything else on
    target. *)
Definition intake_A : gmap string Q :=
  list_to_map [("calories", 2000%Q); ("protein_g", 40%Q); ("carbs_g", 250%Q);
               ("fat_g", 70%Q); ("fiber_g", 30%Q)].

(** Every macro on target. *)
Definition intake_on_target : gmap string Q :=
  list_to_map [("calories", 2000%Q); ("protein_g", 100%Q); ("carbs_g", 250%Q);
               ("fat_g", 70%Q); ("fiber_g", 30%Q)].

Definition toast : AISuggestion.t :=
  {| AISuggestion.name := Some "Peanut butter toast";
     AISuggestion.ingredients := [];
     AISuggestion.estimated_nutrition :=
       list_to_map [("calories", 320%Q); ("protein_g", 12%Q)];
     AISuggestion.rationale := None |}.

(** A stored profile, [logs] food logs in the last three days, and a
    generator that answers [answer] to every request. *)
Definition world_of (targets : MacroTargets.t) (answer : result (list AISuggestion.t))
    (logs : nat) : World :=
  {| find_profile := fun _ => Ok (Some (profile_of targets));
     get_nutrition_recommendations := fun _ => Ok targets;
     insert_profile := fun _ => Ok tt;
     find_daily_intake := fun _ => Ok None;
     generate_meal_suggestions := fun _ => answer;
     recent_logs := fun _ => Ok logs;
     current_hour := 12;
     now := 0 |}.

Definition world_A : World := world_of targets_A (Ok [toast]) 8.

Definition world_down : World :=
  world_of targets_A (Raise (UpstreamError "generator unavailable")) 8.

(** Scenario C: hypertension and 3000 mg of sodium. *)
Definition user_C : User.t := user_with ["Hypertension"] [].

Definition intake_C : gmap string Q :=
  <["sodium_mg" := 3000%Q]> (<["potassium_mg" := 4000%Q]> intake_on_target).

(** Scenario B: type 2 diabetes and 10 g of fiber. *)
Definition user_B : User.t := user_with ["Type 2 Diabetes"] [].

Definition intake_B : gmap string Q := <["fiber_g" := 10%Q]> intake_on_target.



(** Twelve conditions that each select a pack, with low fiber. *)
Definition user_many : User.t := user_with (repeat "diabetes" 12) [].

(** A stored recommendation of user [u1]. *)
Definition stored : Recommendation.t :=
  health_recommendation user_C "Blood Pressure Management"
    "Nutritional strategies to help manage blood pressure" [] 0.88
    "hypertension" "medium" "long_term".

Definition store_1 : gmap string Recommendation.t := {["r1" := stored]}.

Definition long_text : string := string_of_list_ascii (repeat "a"%char 1001).

Definition feedback_long : RecommendationFeedback.t :=
  {| RecommendationFeedback.recommendation_id := "r1";
     RecommendationFeedback.is_accepted := true;
     RecommendationFeedback.rating := None;
     RecommendationFeedback.feedback := Some long_text |}.

Definition feedback_rating_6 : RecommendationFeedback.t :=
  {| RecommendationFeedback.recommendation_id := "r1";
     RecommendationFeedback.is_accepted := true;
     RecommendationFeedback.rating := Some 6%Z;
     RecommendationFeedback.feedback := None |}.

(** One condition that names both diabetes and hypertension; with
    [intake_C] the sodium is 3000 mg and the fiber on target. *)
Definition user_D : User.t := user_with ["Diabetes with hypertension"] [].

(** A suggestion with a tree nut in its name. *)
Definition almond_cake : AISuggestion.t :=
  {| AISuggestion.name := Some "Almond cake";
     AISuggestion.ingredients := [];
     AISuggestion.estimated_nutrition :=
       list_to_map [("calories", 410%Q); ("protein_g", 9%Q)];
     AISuggestion.rationale := None |}.

End Scenario.

(** ** Vocabulary of the statements *)

(** The adjustments the gap loop appended for [nutrient]. *)
Definition emitted_for (nutrient : string) (adjustments : list NutrientAdjustment.t)
  : list NutrientAdjustment.t :=
  List.filter (fun a => String.eqb (NutrientAdjustment.nutrient_name a) nutrient) adjustments.

(** The intake [generate_comprehensive_recommendations] works with: the
    argument when given, else today's stored intake. *)
Definition resolved_intake (w : World) (user : User.t)
    (current_intake : option (gmap string Q)) : result (gmap string Q) :=
  match current_intake with
  | None => _get_current_daily_intake w user
  | Some intake => Ok intake
  end.

(** Ranking order: lower priority number first, and at equal priority
    the higher confidence first. *)
Definition rank_le (x y : Recommendation.t) : Prop :=
  (Recommendation.priority x < Recommendation.priority y)%Z
  \/ (Recommendation.priority x = Recommendation.priority y
      /\ (Recommendation.model_confidence y <= Recommendation.model_confidence x)%Q).

(** What every rule pack may emit: at most one recommendation, of type
    health_optimization, confidence high, priority 2, with one or two
    adjustments. *)
Definition pack_shape (out : list Recommendation.t) : Prop :=
  (length out <= 1)%nat
  /\ Forall (fun r =>
               Recommendation.recommendation_type r = HEALTH_OPTIMIZATION
               /\ Recommendation.confidence_level r = ConfidenceLevel.HIGH
               /\ Recommendation.priority r = 2%Z
               /\ (1 <= length (Recommendation.nutrient_adjustments r) <= 2)%nat) out.

(** [a] asks to move [nutrient] in [direction] to [recommended]. *)
Definition adjusts (a : NutrientAdjustment.t) (nutrient direction : string)
    (recommended : Q) : Prop :=
  NutrientAdjustment.nutrient_name a = nutrient
  /\ NutrientAdjustment.adjustment_direction a = direction
  /\ NutrientAdjustment.recommended_intake a = recommended.

(** [keyword in condition.name.lower()] *)
Definition names (keyword : string) (condition : HealthCondition.t) : bool :=
  PyStr.contains keyword (PyStr.lower (HealthCondition.name condition)).

(** The generator answered with nothing usable: an empty list or an
    exception. *)
Definition no_suggestion (answer : result (list AISuggestion.t)) : Prop :=
  answer = Ok [] \/ exists e, answer = Raise e.

(** ** The other validators of [app/utils/validators.py] *)

Definition validate_age (age : Z) : bool := (13 <=? age)%Z && (age <=? 120)%Z.

Definition validate_weight (weight : Q) : bool := Qle_bool 20.0 weight && Qle_bool weight 500.0.

Definition validate_height (height : Q) : bool := Qle_bool 100.0 height && Qle_bool height 250.0.

Definition validate_meal_type (meal_type : string) : bool :=
  let allowed_types := ["breakfast"; "lunch"; "dinner"; "snack"] in
  existsb (String.eqb (PyStr.lower meal_type)) allowed_types.

(** The [ranges] table of [validate_nutrition_value]. *)
Definition nutrition_ranges : list (string * (Q * Q)) :=
  [("calories", (0, 10000)); ("protein_g", (0, 500)); ("carbs_g", (0, 1000));
   ("fat_g", (0, 300)); ("fiber_g", (0, 100)); ("sugar_g", (0, 500));
   ("sodium_mg", (0, 10000)); ("vitamin_a_mcg", (0, 5000)); ("vitamin_c_mg", (0, 2000));
   ("vitamin_d_mcg", (0, 100)); ("calcium_mg", (0, 3000)); ("iron_mg", (0, 50));
   ("potassium_mg", (0, 10000))]%Q.

Definition validate_nutrition_value (value : Q) (nutrient_type : string) : bool :=
  match List.find (fun kv => String.eqb (fst kv) nutrient_type) nutrition_ranges with
  | None => true
  | Some (_, (min_val, max_val)) => Qle_bool min_val value && Qle_bool value max_val
  end.

Definition validate_fdc_id (fdc_id : Z) : bool := (0 <? fdc_id)%Z.

Definition validate_quantity (quantity : Q) : bool :=
  Qle_bool 0.01 quantity && Qle_bool quantity 1000.0.

(** [re.search] of a one-character class: some character is in it. *)
Definition any_char (class : ascii -> bool) (s : string) : bool :=
  existsb class (list_ascii_of_string s).

Definition is_digit (c : ascii) : bool :=
  let n := nat_of_ascii c in (48 <=? n)%nat && (n <=? 57)%nat.

(** The class of [validate_password_strength]'s last check; the double
    quote is character 34. *)
Definition special_characters : list ascii :=
  list_ascii_of_string "!@#$%^&*(),.?:{}|<>" ++ [ascii_of_nat 34].

Definition is_special (c : ascii) : bool := existsb (Ascii.eqb c) special_characters.

Definition validate_password_strength (password : string) : bool * list string :=
  let issues :=
    (if (String.length password <? 8)%nat
     then ["Password must be at least 8 characters long"] else [])
    ++ (if any_char PyStr.is_upper password then []
        else ["Password must contain at least one uppercase letter"])
    ++ (if any_char PyStr.is_lower password then []
        else ["Password must contain at least one lowercase letter"])
    ++ (if any_char is_digit password then []
        else ["Password must contain at least one number"])
    ++ (if any_char is_special password then []
        else ["Password must contain at least one special character"]) in
  ((length issues =? 0)%nat, issues).

(** The characters [sanitize_string] deletes: [<], [>], the double quote
    and the apostrophe. *)
Definition is_harmful (c : ascii) : bool :=
  let n := nat_of_ascii c in
  (n =? 60)%nat || (n =? 62)%nat || (n =? 34)%nat || (n =? 39)%nat.

(** [re.sub(class, '', s)] *)
Fixpoint remove_chars (class : ascii -> bool) (s : string) : string :=
  match s with
  | EmptyString => EmptyString
  | String c t => if class c then remove_chars class t else String c (remove_chars class t)
  end.

(** [s[:n]] for [n >= 0] *)
Fixpoint str_take (n : nat) (s : string) : string :=
  match n, s with
  | S n', String c t => String c (str_take n' t)
  | _, _ => EmptyString
  end.

(** The ASCII characters [str.isspace] accepts. *)
Definition is_space (c : ascii) : bool :=
  let n := nat_of_ascii c in
  ((9 <=? n)%nat && (n <=? 13)%nat) || ((28 <=? n)%nat && (n <=? 32)%nat).

Fixpoint lstrip (s : string) : string :=
  match s with
  | EmptyString => EmptyString
  | String c t => if is_space c then lstrip t else s
  end.

Fixpoint rstrip (s : string) : string :=
  match s with
  | EmptyString => EmptyString
  | String c t =>
      match rstrip t with
      | EmptyString => if is_space c then EmptyString else String c EmptyString
      | t' => String c t'
      end
  end.

(** [s.strip()] *)
Definition strip (s : string) : string := rstrip (lstrip s).

(** [max_length] is taken non-negative. *)
Definition sanitize_string (text : string) (max_length : nat) : string :=
  if String.eqb text "" then ""
  else strip (str_take max_length (remove_chars is_harmful text)).

(** The keys [validate_user_profile_data] reads; a missing key and
    [None] are both [None]. *)
Module ProfileData.
Record t : Type := mk {
  age : option Z;
  weight_kg : option Q;
  height_cm : option Q;
  target_weight_kg : option Q;
  target_calories : option Q
}.
End ProfileData.

Definition validate_user_profile_data (data : ProfileData.t) : list string :=
  (match ProfileData.age data with
   | Some age =>
       if validate_age age then [] else ["Age must be between 13 and 120 years"]
   | None => []
   end)
  ++ (match ProfileData.weight_kg data with
      | Some weight =>
          if validate_weight weight then [] else ["Weight must be between 20 and 500 kg"]
      | None => []
      end)
  ++ (match ProfileData.height_cm data with
      | Some height =>
          if validate_height height then [] else ["Height must be between 100 and 250 cm"]
      | None => []
      end)
  ++ (match ProfileData.target_weight_kg data with
      | Some weight =>
          if validate_weight weight
          then [] else ["Target weight must be between 20 and 500 kg"]
      | None => []
      end)
  ++ (match ProfileData.target_calories data with
      | Some calories =>
          if Qle_bool 800 calories && Qle_bool calories 5000
          then [] else ["Target calories must be between 800 and 5000"]
      | None => []
      end).

(** ** [GET /{recommendation_id}] of [app/api/v1/endpoints/recommendations.py] *)

(** [RecommendationResponse], without its time stamps. *)
Module RecommendationResponse.
Record t : Type := mk {
  id : string;
  recommendation_type : RecommendationType;
  title : string;
  description : string;
  confidence_level : ConfidenceLevel.t;
  food_suggestions : list FoodSuggestion.t;
  meal_plan : option MealPlan.t;
  nutrient_adjustments : list NutrientAdjustment.t;
  priority : Z;
  expected_impact : string;
  implementation_difficulty : string;
  time_horizon : string;
  is_viewed : bool;
  is_accepted : bool;
  user_rating : option Z
}.
End RecommendationResponse.

Definition response_of (id : string) (r : Recommendation.t) : RecommendationResponse.t :=
  {| RecommendationResponse.id := id;
     RecommendationResponse.recommendation_type := Recommendation.recommendation_type r;
     RecommendationResponse.title := Recommendation.title r;
     RecommendationResponse.description := Recommendation.description r;
     RecommendationResponse.confidence_level := Recommendation.confidence_level r;
     RecommendationResponse.food_suggestions := Recommendation.food_suggestions r;
     RecommendationResponse.meal_plan := Recommendation.meal_plan r;
     RecommendationResponse.nutrient_adjustments := Recommendation.nutrient_adjustments r;
     RecommendationResponse.priority := Recommendation.priority r;
     RecommendationResponse.expected_impact := Recommendation.expected_impact r;
     RecommendationResponse.implementation_difficulty :=
       Recommendation.implementation_difficulty r;
     RecommendationResponse.time_horizon := Recommendation.time_horizon r;
     RecommendationResponse.is_viewed := Recommendation.is_viewed r;
     RecommendationResponse.is_accepted := Recommendation.is_accepted r;
     RecommendationResponse.user_rating := Recommendation.user_rating r |}.

(** [recommendation.is_viewed = True] *)
Definition set_viewed (r : Recommendation.t) : Recommendation.t :=
  {| Recommendation.user_id := Recommendation.user_id r;
     Recommendation.recommendation_type := Recommendation.recommendation_type r;
     Recommendation.title := Recommendation.title r;
     Recommendation.description := Recommendation.description r;
     Recommendation.confidence_level := Recommendation.confidence_level r;
     Recommendation.food_suggestions := Recommendation.food_suggestions r;
     Recommendation.meal_plan := Recommendation.meal_plan r;
     Recommendation.nutrient_adjustments := Recommendation.nutrient_adjustments r;
     Recommendation.model_version := Recommendation.model_version r;
     Recommendation.model_confidence := Recommendation.model_confidence r;
     Recommendation.features_used := Recommendation.features_used r;
     Recommendation.user_goals := Recommendation.user_goals r;
     Recommendation.health_conditions := Recommendation.health_conditions r;
     Recommendation.dietary_restrictions := Recommendation.dietary_restrictions r;
     Recommendation.priority := Recommendation.priority r;
     Recommendation.expected_impact := Recommendation.expected_impact r;
     Recommendation.implementation_difficulty := Recommendation.implementation_difficulty r;
     Recommendation.time_horizon := Recommendation.time_horizon r;
     Recommendation.is_active := Recommendation.is_active r;
     Recommendation.is_viewed := true;
     Recommendation.is_accepted := Recommendation.is_accepted r;
     Recommendation.user_feedback := Recommendation.user_feedback r;
     Recommendation.user_rating := Recommendation.user_rating r |}.

(** Returns the store after the handler and its answer: the status and,
    on success, the response body. *)
Definition get_recommendation_details (store : gmap string Recommendation.t)
    (recommendation_id current_user_id : string)
  : gmap string Recommendation.t * (HttpStatus * option RecommendationResponse.t) :=
  match get_recommendation_by_id store recommendation_id current_user_id with
  | None => (store, (HTTP_404_NOT_FOUND, None))
  | Some recommendation =>
      if Recommendation.is_viewed recommendation
      then (store, (HTTP_200_OK, Some (response_of recommendation_id recommendation)))
      else
        let viewed := set_viewed recommendation in
        (<[recommendation_id := viewed]> store,
         (HTTP_200_OK, Some (response_of recommendation_id viewed)))
  end.

(** ** Vocabulary of the further statements *)

(** [priority_score: float = Field(..., ge=0, le=1)] *)
Definition food_suggestion_valid (s : FoodSuggestion.t) : bool :=
  Qle_bool 0 (FoodSuggestion.priority_score s)
  && Qle_bool (FoodSuggestion.priority_score s) 1.

(** The constraints the schema of [Recommendation] puts on a document:
    [model_confidence] and every [priority_score] within 0..1, [priority]
    and a given [user_rating] within 1..5. A document store that
    validates what it reads or saves accepts exactly these documents. *)
Definition schema_valid (r : Recommendation.t) : bool :=
  Qle_bool 0 (Recommendation.model_confidence r)
  && Qle_bool (Recommendation.model_confidence r) 1
  && (1 <=? Recommendation.priority r)%Z && (Recommendation.priority r <=? 5)%Z
  && match Recommendation.user_rating r with
     | Some n => (1 <=? n)%Z && (n <=? 5)%Z
     | None => true
     end
  && forallb food_suggestion_valid (Recommendation.food_suggestions r)
  && match Recommendation.meal_plan r with
     | Some plan =>
         forallb (fun meal : string * list FoodSuggestion.t =>
                    forallb food_suggestion_valid (snd meal))
                 (map_to_list (MealPlan.meals plan))
     | None => true
     end.

(** Every stored rating lies in 1..5, as the schema of [user_rating]
    asks. *)
Definition ratings_valid (store : gmap string Recommendation.t) : Prop :=
  forall id r n,
    store !! id = Some r -> Recommendation.user_rating r = Some n -> (1 <= n <= 5)%Z.

(** ** The target calculator: [app/ml/nutrition_calculator.py] *)

(** The fields of [User] that only the calculator reads. *)
Module Physique.
Record t : Type := mk {
  weight_kg : option Q;
  height_cm : option Q;
  target_calories : option Z
}.
End Physique.

(** What the calculator can raise: a division by zero, pydantic's
    validation error, and whatever a model's [predict] raised. *)
Inductive calc_exn : Type :=
| ZeroDivisionError
| ValidationError
| PredictionError (e : exn).

Inductive outcome (A : Type) : Type :=
| Returned (a : A)
| Raised (e : calc_exn).

Arguments Returned {A} a.
Arguments Raised {A} e.

(** A recommendation model as the service uses it: [is_fitted] and the
    answer of [predict] for a user's profile. *)
Module MLModel.
Record t : Type := mk {
  is_fitted : bool;
  predict : User.t -> Physique.t -> result (gmap string Q)
}.
End MLModel.


(** [x or d] for an optional number: [None] and 0 give [d]. *)
Definition or_number (x : option Q) (d : Q) : Q :=
  match x with
  | Some v => if Qeq_bool v 0 then d else v
  | None => d
  end.

(** [x or d] for an optional string: [None] and the empty string give
    [d]. *)
Definition or_string (x : option string) (d : string) : string :=
  match x with
  | Some s => if String.eqb s "" then d else s
  | None => d
  end.

Definition age_number (user : User.t) : option Q := inject_Z <$> User.age user.

(** Python's [min(a, b)] *)
Definition Qmin2 (a b : Q) : Q := if Qlt_bool b a then b else a.

(** An optional percentage is valid when absent or within 0..100. *)
Definition percent_ok (x : option Q) : bool :=
  match x with
  | Some p => Qle_bool 0 p && Qle_bool p 100
  | None => true
  end.

(** [MacroTargets(...)] with the constraints of its fields:
    [calories > 0], the four gram amounts [>= 0], the percentages within
    0..100. *)
Definition new_macro_targets (calories protein_g carbs_g fat_g fiber_g : Q)
    (protein_percent carbs_percent fat_percent : option Q) : outcome MacroTargets.t :=
  if Qlt_bool 0 calories && Qle_bool 0 protein_g && Qle_bool 0 carbs_g
     && Qle_bool 0 fat_g && Qle_bool 0 fiber_g
     && percent_ok protein_percent && percent_ok carbs_percent && percent_ok fat_percent
  then Returned {| MacroTargets.calories := calories;
                   MacroTargets.protein_g := protein_g;
                   MacroTargets.carbs_g := carbs_g;
                   MacroTargets.fat_g := fat_g;
                   MacroTargets.fiber_g := fiber_g |}
  else Raised ValidationError.

(** The dictionary [get_nutrition_recommendations] returns, without its
    time stamp. *)
Module NutritionRecommendations.
Record t : Type := mk {
  calorie_target : Q;
  macro_targets : MacroTargets.t;
  micronutrient_targets : gmap string Q;
  bmr : Q;
  tdee : Q;
  calculation_method : string
}.
End NutritionRecommendations.

Module NutritionCalculatorService.

(** The service holds two models; either may be [None]. *)
Record t : Type := mk {
  calorie_model : option MLModel.t;
  macro_model : option MLModel.t
}.

(** [not x] for an optional number. *)
Definition is_falsy (x : option Q) : bool :=
  match x with
  | Some v => Qeq_bool v 0
  | None => true
  end.

Definition calculate_bmr (user : User.t) (physique : Physique.t) : Q :=
  let '(weight, height, age) :=
    if is_falsy (Physique.weight_kg physique) || is_falsy (Physique.height_cm physique)
       || is_falsy (age_number user)
    then (or_number (Physique.weight_kg physique) 70,
          or_number (Physique.height_cm physique) 170,
          or_number (age_number user) 30)
    else (default 0%Q (Physique.weight_kg physique),
          default 0%Q (Physique.height_cm physique),
          default 0%Q (age_number user)) in
  if decide (User.gender user = Some "male")
  then (10 * weight + 6.25 * height - 5 * age + 5)%Q
  else (10 * weight + 6.25 * height - 5 * age - 161)%Q.

Definition activity_multipliers : list (string * Q) :=
  [("sedentary", 1.2); ("lightly_active", 1.375); ("moderately_active", 1.55);
   ("very_active", 1.725); ("extremely_active", 1.9)]%Q.

Definition calculate_tdee (user : User.t) (physique : Physique.t) : Q :=
  let bmr := calculate_bmr user physique in
  let multiplier :=
    default 1.55%Q
      (snd <$> List.find
                 (fun kv =>
                    String.eqb (fst kv)
                      (or_string (User.activity_level user) "moderately_active"))
                 activity_multipliers) in
  (bmr * multiplier)%Q.

(** [self.model and self.model.is_fitted] *)
Definition fitted (model : option MLModel.t) : option MLModel.t :=
  match model with
  | Some m => if MLModel.is_fitted m then Some m else None
  | None => None
  end.

(** The goal adjustment that ends [calculate_calorie_target]. *)
Definition traditional_calorie_target (user : User.t) (physique : Physique.t) : Q :=
  let tdee := calculate_tdee user physique in
  if decide (User.primary_goal user = Some "weight_loss") then (tdee - 500)%Q
  else if decide (User.primary_goal user = Some "weight_gain") then (tdee + 500)%Q
  else if decide (User.primary_goal user = Some "muscle_gain") then (tdee + 300)%Q
  else tdee.

Definition calculate_calorie_target (service : t) (user : User.t)
    (physique : Physique.t) : Q :=
  match Physique.target_calories physique with
  | Some (Zpos p) => inject_Z (Zpos p)
  | Some (Zneg p) => inject_Z (Zneg p)
  | _ =>
      match fitted (calorie_model service) with
      | Some model =>
          match MLModel.predict model user physique with
          | Ok prediction =>
              default (calculate_tdee user physique) (prediction !! "calories")
          | Raise _ => traditional_calorie_target user physique
          end
      | None => traditional_calorie_target user physique
      end
  end.

(** The part of [calculate_macro_targets] after the model branch. *)
Definition traditional_macro_targets (user : User.t) (physique : Physique.t)
    (total_calories : Q) : outcome MacroTargets.t :=
  let weight := or_number (Physique.weight_kg physique) 70 in
  let goal := or_string (User.primary_goal user) "maintenance" in
  let activity_level := or_string (User.activity_level user) "moderately_active" in
  let protein_per_kg :=
    if String.eqb goal "muscle_gain" then 2.2%Q
    else if String.eqb goal "weight_loss" then 2.0%Q
    else if String.eqb activity_level "very_active"
            || String.eqb activity_level "extremely_active" then 1.8%Q
    else 1.2%Q in
  let protein_g := (weight * protein_per_kg)%Q in
  let protein_calories := (protein_g * 4)%Q in
  let fat_percent :=
    if String.eqb goal "muscle_gain" then 0.25%Q
    else if String.eqb goal "weight_loss" then 0.30%Q
    else 0.28%Q in
  let fat_calories := (total_calories * fat_percent)%Q in
  let fat_g := (fat_calories / 9)%Q in
  let carb_calories := (total_calories - protein_calories - fat_calories)%Q in
  let carb_g := max0 (carb_calories / 4) in
  let fiber_g := Qmin2 35 (total_calories / 1000 * 14) in
  if Qeq_bool total_calories 0 then Raised ZeroDivisionError
  else
    let protein_percent := (protein_calories / total_calories * 100)%Q in
    let carb_percent := (carb_calories / total_calories * 100)%Q in
    let fat_percent := (fat_calories / total_calories * 100)%Q in
    new_macro_targets total_calories protein_g carb_g fat_g fiber_g
      (Some protein_percent) (Some carb_percent) (Some fat_percent).

Definition calculate_macro_targets (service : t) (user : User.t)
    (physique : Physique.t) (total_calories : Q) : outcome MacroTargets.t :=
  match fitted (macro_model service) with
  | Some model =>
      match MLModel.predict model user physique with
      | Ok prediction =>
          match new_macro_targets total_calories
                  (default 50%Q (prediction !! "protein_g"))
                  (default 250%Q (prediction !! "carbs_g"))
                  (default 70%Q (prediction !! "fat_g"))
                  (default 25%Q (prediction !! "fiber_g")) None None None with
          | Returned targets => Returned targets
          | Raised _ => traditional_macro_targets user physique total_calories
          end
      | Raise _ => traditional_macro_targets user physique total_calories
      end
  | None => traditional_macro_targets user physique total_calories
  end.

(** The table of [calculate_micronutrient_targets] before the health
    conditions are applied. *)
Definition base_micronutrient_targets (user : User.t) : gmap string Q :=
  let age := or_number (age_number user) 30 in
  let gender := or_string (User.gender user) "male" in
  if String.eqb gender "male" then
    list_to_map
      [("vitamin_a_mcg", 900); ("vitamin_c_mg", 90); ("vitamin_d_mcg", 20);
       ("vitamin_e_mg", 15); ("vitamin_k_mcg", 120); ("thiamin_mg", 1.2);
       ("riboflavin_mg", 1.3); ("niacin_mg", 16);
       ("vitamin_b6_mg", if Qlt_bool 50 age then 1.7 else 1.3);
       ("folate_mcg", 400); ("vitamin_b12_mcg", 2.4);
       ("calcium_mg", if Qlt_bool 70 age then 1200 else 1000);
       ("iron_mg", 8);
       ("magnesium_mg", if Qlt_bool 30 age then 420 else 400);
       ("phosphorus_mg", 700); ("potassium_mg", 3400); ("sodium_mg", 2300);
       ("zinc_mg", 11)]%Q
  else
    list_to_map
      [("vitamin_a_mcg", 700); ("vitamin_c_mg", 75); ("vitamin_d_mcg", 20);
       ("vitamin_e_mg", 15); ("vitamin_k_mcg", 90); ("thiamin_mg", 1.1);
       ("riboflavin_mg", 1.1); ("niacin_mg", 14);
       ("vitamin_b6_mg", if Qlt_bool 50 age then 1.5 else 1.3);
       ("folate_mcg", 400); ("vitamin_b12_mcg", 2.4);
       ("calcium_mg", if Qlt_bool 50 age then 1200 else 1000);
       ("iron_mg", if Qlt_bool 50 age then 8 else 18);
       ("magnesium_mg", if Qlt_bool 30 age then 320 else 310);
       ("phosphorus_mg", 700); ("potassium_mg", 2600); ("sodium_mg", 2300);
       ("zinc_mg", 8)]%Q.

(** [targets[key] *= factor] *)
Definition scale (key : string) (factor : Q) (targets : gmap string Q) : gmap string Q :=
  alter (fun v => (v * factor)%Q) key targets.

(** One iteration of [for condition in user.health_conditions]. *)
Definition adjust_for_condition (targets : gmap string Q) (condition : HealthCondition.t)
  : gmap string Q :=
  let condition_name := PyStr.lower (HealthCondition.name condition) in
  if PyStr.contains "anemia" condition_name then scale "iron_mg" 1.5 targets
  else if PyStr.contains "osteoporosis" condition_name
  then scale "vitamin_d_mcg" 1.5 (scale "calcium_mg" 1.2 targets)
  else if PyStr.contains "hypertension" condition_name
  then scale "potassium_mg" 1.2 (<["sodium_mg" := 1500%Q]> targets)
  else targets.

Definition calculate_micronutrient_targets (user : User.t) : gmap string Q :=
  fold_left adjust_for_condition (User.health_conditions user)
    (base_micronutrient_targets user).

(** The handler of its [try] raises the exception again. *)
Definition get_nutrition_recommendations (service : t) (user : User.t)
    (physique : Physique.t) : outcome NutritionRecommendations.t :=
  let calorie_target := calculate_calorie_target service user physique in
  match calculate_macro_targets service user physique calorie_target with
  | Raised e => Raised e
  | Returned macro_targets =>
      Returned
        {| NutritionRecommendations.calorie_target := calorie_target;
           NutritionRecommendations.macro_targets := macro_targets;
           NutritionRecommendations.micronutrient_targets :=
             calculate_micronutrient_targets user;
           NutritionRecommendations.bmr := calculate_bmr user physique;
           NutritionRecommendations.tdee := calculate_tdee user physique;
           NutritionRecommendations.calculation_method :=
             match calorie_model service with
             | Some _ => "ml_enhanced"
             | None => "traditional"
             end |}
  end.

End NutritionCalculatorService.

(** The branch of the calculator's [if]/[elif] chain that lowers the
    sodium limit is reached: the condition names hypertension and neither
    anemia nor osteoporosis. *)
Definition limits_sodium (condition : HealthCondition.t) : bool :=
  negb (names "anemia" condition) && negb (names "osteoporosis" condition)
  && names "hypertension" condition.

(** An adjustment is coherent with [current_intake]: it reads the intake
    of its nutrient, its amount is the positive distance to the recommended
    intake, and its direction points to the recommended intake. *)
Definition adjustment_coherent (current_intake : gmap string Q)
    (a : NutrientAdjustment.t) : Prop :=
  NutrientAdjustment.current_intake a
  = get0 current_intake (NutrientAdjustment.nutrient_name a)
  /\ (NutrientAdjustment.adjustment_amount a
      == Qabs (NutrientAdjustment.recommended_intake a
               - NutrientAdjustment.current_intake a))%Q
  /\ (0 < NutrientAdjustment.adjustment_amount a)%Q
  /\ (NutrientAdjustment.adjustment_direction a = "increase"
      /\ (NutrientAdjustment.current_intake a < NutrientAdjustment.recommended_intake a)%Q
      \/ NutrientAdjustment.adjustment_direction a = "decrease"
         /\ (NutrientAdjustment.recommended_intake a
             < NutrientAdjustment.current_intake a)%Q).

(** * Properties *)

(** ** Comparisons *)

Lemma Qlt_bool_iff (x y : Q) : Qlt_bool x y = true <-> (x < y)%Q.
Proof.
  unfold Qlt_bool. rewrite negb_true_iff.
  split.
  - intros H. apply Qnot_le_lt. intros Hle.
    apply Qle_bool_iff in Hle. congruence.
  - intros H. destruct (Qle_bool y x) eqn:E; [|reflexivity].
    apply Qle_bool_iff in E. exfalso. exact (Qlt_not_le _ _ H E).
Qed.

Lemma Qlt_bool_false_iff (x y : Q) : Qlt_bool x y = false <-> (y <= x)%Q.
Proof.
  unfold Qlt_bool. rewrite negb_false_iff. apply Qle_bool_iff.
Qed.

Lemma Qlt_bool_true (x y : Q) : (x < y)%Q -> Qlt_bool x y = true.
Proof. apply Qlt_bool_iff. Qed.

Lemma Qlt_bool_false (x y : Q) : (y <= x)%Q -> Qlt_bool x y = false.
Proof. apply Qlt_bool_false_iff. Qed.

Lemma Qlt_0_minus (x y : Q) : (0 < x - y)%Q <-> (y < x)%Q.
Proof. unfold Qminus. symmetry. apply Qlt_minus_iff. Qed.

Lemma Qle_minus_0 (x y : Q) : (x - y <= 0)%Q <-> (x <= y)%Q.
Proof.
  split; intros H.
  - apply Qnot_lt_le. intros Hlt. apply (proj2 (Qlt_0_minus x y)) in Hlt.
    exact (Qlt_not_le _ _ Hlt H).
  - apply Qnot_lt_le. intros Hlt. apply (proj1 (Qlt_0_minus x y)) in Hlt.
    exact (Qlt_not_le _ _ Hlt H).
Qed.

(** ** The gap loop *)

Section GapLoop.

Variable user : User.t.
Variable current_intake : gmap string Q.

Lemma gap_ratio_pos (current target : Q) :
  (0 < target)%Q -> gap_ratio current target = (current / target)%Q.
Proof. intros H. unfold gap_ratio. now rewrite (Qlt_bool_true _ _ H). Qed.

Lemma gap_ratio_nonpos (current target : Q) :
  (target <= 0)%Q -> gap_ratio current target = 0%Q.
Proof. intros H. unfold gap_ratio. now rewrite (Qlt_bool_false _ _ H). Qed.

Lemma gap_severity_critical (ratio : Q) :
  (ratio < 0.5)%Q ->
  gap_severity ratio = Some (RecommendationPriority.CRITICAL, "critical").
Proof.
  intros H. unfold gap_severity, critical_threshold.
  now rewrite (Qlt_bool_true _ _ H).
Qed.

Lemma gap_severity_high (ratio : Q) :
  (0.5 <= ratio)%Q -> (ratio < 0.8)%Q ->
  gap_severity ratio = Some (RecommendationPriority.HIGH, "high").
Proof.
  intros H1 H2. unfold gap_severity, critical_threshold, protein_deficit_threshold.
  now rewrite (Qlt_bool_false _ _ H1), (Qlt_bool_true _ _ H2).
Qed.

Lemma gap_severity_within (ratio : Q) :
  (0.8 <= ratio)%Q -> (ratio <= 1.5)%Q -> gap_severity ratio = None.
Proof.
  intros H1 H2.
  unfold gap_severity, critical_threshold, protein_deficit_threshold, excess_threshold.
  assert (H0 : (0.5 <= ratio)%Q) by (eapply Qle_trans; [|exact H1]; discriminate).
  now rewrite (Qlt_bool_false _ _ H0), (Qlt_bool_false _ _ H1), (Qlt_bool_false _ _ H2).
Qed.

Lemma gap_severity_excess (ratio : Q) :
  (1.5 < ratio)%Q ->
  gap_severity ratio = Some (RecommendationPriority.MEDIUM, "excess").
Proof.
  intros H.
  unfold gap_severity, critical_threshold, protein_deficit_threshold, excess_threshold.
  assert (H1 : (0.8 <= ratio)%Q).
  { apply Qlt_le_weak. eapply Qlt_trans; [|exact H]. reflexivity. }
  assert (H0 : (0.5 <= ratio)%Q) by (eapply Qle_trans; [|exact H1]; discriminate).
  now rewrite (Qlt_bool_false _ _ H0), (Qlt_bool_false _ _ H1), (Qlt_bool_true _ _ H).
Qed.

(** The severity decides: an adjustment is appended exactly when the
    ratio is classified. *)
Lemma gap_severity_flagged (ratio : Q) :
  (ratio < 0.8 \/ 1.5 < ratio)%Q -> gap_severity ratio <> None.
Proof.
  intros [H|H].
  - destruct (Qlt_le_dec ratio 0.5) as [Hc|Hc].
    + now rewrite gap_severity_critical.
    + now rewrite gap_severity_high.
  - now rewrite gap_severity_excess.
Qed.

Lemma gap_adjustment_name (item : string * Q) (a : NutrientAdjustment.t) :
  gap_adjustment user current_intake item = Some a ->
  NutrientAdjustment.nutrient_name a = item.1.
Proof.
  destruct item as [nutrient target]. unfold gap_adjustment.
  destruct (gap_severity _) as [[p s]|]; [|discriminate].
  intros [= <-]. reflexivity.
Qed.

(** What the loop body builds once the severity is known. *)
Lemma gap_adjustment_some (nutrient : string) (target : Q)
    (p : RecommendationPriority.t) (severity : string) :
  gap_severity (gap_ratio (get0 current_intake nutrient) target) = Some (p, severity) ->
  exists a,
    gap_adjustment user current_intake (nutrient, target) = Some a
    /\ NutrientAdjustment.nutrient_name a = nutrient
    /\ NutrientAdjustment.current_intake a = get0 current_intake nutrient
    /\ NutrientAdjustment.recommended_intake a = target
    /\ NutrientAdjustment.adjustment_amount a
       = Qabs (target - get0 current_intake nutrient)
    /\ (NutrientAdjustment.adjustment_direction a = "increase"
        <-> (get0 current_intake nutrient < target)%Q)
    /\ (NutrientAdjustment.adjustment_direction a = "decrease"
        <-> (target <= get0 current_intake nutrient)%Q)
    /\ (nutrient = "calories" -> NutrientAdjustment.unit a = "kcal")
    /\ (nutrient <> "calories" -> NutrientAdjustment.unit a = "g")
    /\ NutrientAdjustment.health_impact a = _get_health_impact nutrient severity
    /\ NutrientAdjustment.reason a
       = _get_nutrient_gap_reason nutrient
           (gap_ratio (get0 current_intake nutrient) target) user.
Proof.
  intros Hs. unfold gap_adjustment. rewrite Hs.
  eexists. split; [reflexivity|]. cbn [NutrientAdjustment.nutrient_name
    NutrientAdjustment.current_intake NutrientAdjustment.recommended_intake
    NutrientAdjustment.adjustment_amount NutrientAdjustment.adjustment_direction
    NutrientAdjustment.unit NutrientAdjustment.health_impact NutrientAdjustment.reason].
  repeat split; try reflexivity.
  - destruct (Qlt_bool 0 _) eqn:E; [|discriminate]. intros _.
    apply Qlt_bool_iff in E. exact (proj1 (Qlt_0_minus _ _) E).
  - intros H. rewrite (Qlt_bool_true 0 _); [reflexivity|].
    exact (proj2 (Qlt_0_minus _ _) H).
  - destruct (Qlt_bool 0 _) eqn:E; [discriminate|]. intros _.
    apply Qlt_bool_false_iff in E. exact (proj1 (Qle_minus_0 _ _) E).
  - intros H. rewrite (Qlt_bool_false 0 _); [reflexivity|].
    exact (proj2 (Qle_minus_0 _ _) H).
  - intros ->. reflexivity.
  - intros H. destruct (String.eqb_spec nutrient "calories"); [contradiction|reflexivity].
Qed.

Lemma emitted_for_absent (nutrient : string) (items : list (string * Q)) :
  ~ In nutrient (map fst items) ->
  emitted_for nutrient (omap (gap_adjustment user current_intake) items) = [].
Proof.
  induction items as [|item items IH]; intros Hn; [reflexivity|].
  cbn [omap list_omap].
  destruct (gap_adjustment user current_intake item) as [a|] eqn:E.
  - unfold emitted_for. cbn [List.filter].
    rewrite (gap_adjustment_name _ _ E).
    destruct (String.eqb_spec item.1 nutrient) as [Heq|_].
    + exfalso. apply Hn. now left.
    + apply IH. intros H. apply Hn. now right.
  - apply IH. intros H. apply Hn. now right.
Qed.

(** The loop appends at most one adjustment per key of [macros]. *)
Lemma emitted_for_present (nutrient : string) (target : Q) (items : list (string * Q)) :
  List.NoDup (map fst items) -> In (nutrient, target) items ->
  emitted_for nutrient (omap (gap_adjustment user current_intake) items)
  = match gap_adjustment user current_intake (nutrient, target) with
    | Some a => [a]
    | None => []
    end.
Proof.
  induction items as [|item items IH]; intros Hnd Hin; [destruct Hin|].
  cbn [map] in Hnd. apply List.NoDup_cons_iff in Hnd as [Hhd Hnd].
  cbn [omap list_omap].
  destruct Hin as [->|Hin].
  - cbn [fst] in Hhd.
    destruct (gap_adjustment user current_intake (nutrient, target)) as [a|] eqn:E.
    + unfold emitted_for. cbn [List.filter].
      rewrite (gap_adjustment_name _ _ E). cbn [fst]. rewrite String.eqb_refl.
      f_equal. now apply emitted_for_absent.
    + now apply emitted_for_absent.
  - assert (Hne : item.1 <> nutrient).
    { intros Heq. apply Hhd. rewrite Heq.
      change nutrient with (fst (nutrient, target)). now apply in_map. }
    destruct (gap_adjustment user current_intake item) as [a|] eqn:E.
    + unfold emitted_for. cbn [List.filter].
      rewrite (gap_adjustment_name _ _ E).
      destruct (String.eqb_spec item.1 nutrient); [contradiction|].
      now apply IH.
    + now apply IH.
Qed.

End GapLoop.

Lemma macros_NoDup (macro_targets : MacroTargets.t) :
  List.NoDup (map fst (macros macro_targets)).
Proof.
  cbn. repeat (apply List.NoDup_cons; [cbn; intuition discriminate|]).
  apply List.NoDup_nil.
Qed.

Lemma gap_adjustments_for (user : User.t) (macro_targets : MacroTargets.t)
    (current_intake : gmap string Q) (nutrient : string) (target : Q) :
  In (nutrient, target) (macros macro_targets) ->
  emitted_for nutrient (gap_adjustments user macro_targets current_intake)
  = match gap_adjustment user current_intake (nutrient, target) with
    | Some a => [a]
    | None => []
    end.
Proof.
  intros Hin. unfold gap_adjustments.
  apply emitted_for_present; [apply macros_NoDup|exact Hin].
Qed.

(** Below half of a positive target the intake is below the target. *)
Lemma critical_ratio_below (current target : Q) :
  (0 < target)%Q -> (current / target < 0.8)%Q -> (current < target)%Q.
Proof.
  intros Ht Hr.
  assert (Hc : (current == (current / target) * target)%Q).
  { rewrite Qmult_comm. rewrite Qmult_div_r; [reflexivity|].
    intros H0. rewrite H0 in Ht. now apply Qlt_irrefl in Ht. }
  rewrite Hc.
  apply Qlt_trans with (0.8 * target)%Q.
  - apply Qmult_lt_compat_r; assumption.
  - rewrite <- (Qmult_1_l target) at 2. apply Qmult_lt_compat_r; [assumption|reflexivity].
Qed.

Lemma excess_ratio_above (current target : Q) :
  (0 < target)%Q -> (1.5 < current / target)%Q -> (target <= current)%Q.
Proof.
  intros Ht Hr.
  assert (Hc : (current == (current / target) * target)%Q).
  { rewrite Qmult_comm. rewrite Qmult_div_r; [reflexivity|].
    intros H0. rewrite H0 in Ht. now apply Qlt_irrefl in Ht. }
  rewrite Hc. apply Qlt_le_weak.
  apply Qlt_trans with (1.5 * target)%Q.
  - rewrite <- (Qmult_1_l target) at 1. apply Qmult_lt_compat_r; [assumption|reflexivity].
  - apply Qmult_lt_compat_r; assumption.
Qed.

Lemma macros_names (macro_targets : MacroTargets.t) (nutrient : string) (target : Q) :
  In (nutrient, target) (macros macro_targets) ->
  In nutrient ["calories"; "protein_g"; "carbs_g"; "fat_g"; "fiber_g"].
Proof.
  intros H. change nutrient with (fst (nutrient, target)).
  apply (in_map fst) in H. exact H.
Qed.

Lemma reason_critical (user : User.t) (nutrient : string) (ratio : Q) :
  In nutrient ["calories"; "protein_g"; "carbs_g"; "fat_g"; "fiber_g"] ->
  (ratio < 0.5)%Q ->
  PyStr.contains "critical" (PyStr.lower (_get_nutrient_gap_reason nutrient ratio user)) = true.
Proof.
  intros Hin Hr. unfold _get_nutrient_gap_reason.
  rewrite (Qlt_bool_true _ _ Hr).
  cbn [In] in Hin. destruct Hin as [<-|[<-|[<-|[<-|[<-|[]]]]]]; vm_compute; reflexivity.
Qed.

Lemma reason_not_critical (user : User.t) (nutrient : string) (ratio : Q) :
  In nutrient ["calories"; "protein_g"; "carbs_g"; "fat_g"; "fiber_g"] ->
  (0.5 <= ratio)%Q ->
  PyStr.contains "critical" (PyStr.lower (_get_nutrient_gap_reason nutrient ratio user)) = false.
Proof.
  intros Hin Hr. unfold _get_nutrient_gap_reason.
  rewrite (Qlt_bool_false _ _ Hr).
  cbn [In] in Hin.
  destruct (Qlt_bool ratio 0.8);
    destruct Hin as [<-|[<-|[<-|[<-|[<-|[]]]]]]; vm_compute; reflexivity.
Qed.

(** C3. For a macro nutrient with a positive target and ratio
    r = current / target, the gap loop appends exactly one adjustment
    classified critical, with direction increase, when r < 0.5; exactly one
    classified high, a deficit, when 0.5 <= r < 0.8; none when
    0.8 <= r <= 1.5; exactly one classified excess when r > 1.5. Every
    adjustment appended for the nutrient carries
    adjustment_amount = |target - current|, direction increase exactly when
    current < target, and unit kcal for calories and g for the others. *)
Theorem gap_analyzer_classification (user : User.t) (macro_targets : MacroTargets.t)
    (current_intake : gmap string Q) (nutrient : string) (target : Q) :
  In (nutrient, target) (macros macro_targets) ->
  (0 < target)%Q ->
  let current := get0 current_intake nutrient in
  let r := (current / target)%Q in
  let emitted := emitted_for nutrient (gap_adjustments user macro_targets current_intake) in
  ((r < 0.5)%Q ->
   exists a, emitted = [a]
     /\ gap_severity (gap_ratio current target)
        = Some (RecommendationPriority.CRITICAL, "critical")
     /\ NutrientAdjustment.health_impact a = _get_health_impact nutrient "critical"
     /\ critical_reason a = true
     /\ NutrientAdjustment.adjustment_direction a = "increase")
  /\ ((0.5 <= r)%Q -> (r < 0.8)%Q ->
      exists a, emitted = [a]
        /\ gap_severity (gap_ratio current target)
           = Some (RecommendationPriority.HIGH, "high")
        /\ NutrientAdjustment.health_impact a = _get_health_impact nutrient "high"
        /\ critical_reason a = false
        /\ NutrientAdjustment.adjustment_direction a = "increase")
  /\ ((0.8 <= r)%Q -> (r <= 1.5)%Q -> emitted = [])
  /\ ((1.5 < r)%Q ->
      exists a, emitted = [a]
        /\ gap_severity (gap_ratio current target)
           = Some (RecommendationPriority.MEDIUM, "excess")
        /\ NutrientAdjustment.health_impact a = _get_health_impact nutrient "excess"
        /\ critical_reason a = false
        /\ NutrientAdjustment.adjustment_direction a = "decrease")
  /\ Forall (fun a =>
               NutrientAdjustment.nutrient_name a = nutrient
               /\ NutrientAdjustment.current_intake a = current
               /\ NutrientAdjustment.recommended_intake a = target
               /\ NutrientAdjustment.adjustment_amount a = Qabs (target - current)
               /\ (NutrientAdjustment.adjustment_direction a = "increase"
                   <-> (current < target)%Q)
               /\ (nutrient = "calories" -> NutrientAdjustment.unit a = "kcal")
               /\ (nutrient <> "calories" -> NutrientAdjustment.unit a = "g"))
            emitted.
Proof.
  intros Hin Hpos current r emitted.
  assert (Hnames := macros_names _ _ _ Hin).
  assert (Hem : emitted
                = match gap_adjustment user current_intake (nutrient, target) with
                  | Some a => [a]
                  | None => []
                  end) by (apply gap_adjustments_for; exact Hin).
  assert (Hratio : gap_ratio current target = r) by (apply gap_ratio_pos; exact Hpos).
  repeat split.
  - intros Hr.
    assert (Hs := gap_severity_critical r Hr). rewrite <- Hratio in Hs.
    destruct (gap_adjustment_some user current_intake nutrient target _ _ Hs)
      as (a & Ha & _ & _ & _ & _ & Hinc & _ & _ & _ & Himp & Hreason).
    exists a. rewrite Hem, Ha. repeat split; try assumption.
    + unfold critical_reason. rewrite Hreason. fold current. rewrite Hratio.
      now apply reason_critical.
    + apply Hinc. apply critical_ratio_below; [exact Hpos|].
      eapply Qlt_trans; [exact Hr|reflexivity].
  - intros Hr1 Hr2.
    assert (Hs := gap_severity_high r Hr1 Hr2). rewrite <- Hratio in Hs.
    destruct (gap_adjustment_some user current_intake nutrient target _ _ Hs)
      as (a & Ha & _ & _ & _ & _ & Hinc & _ & _ & _ & Himp & Hreason).
    exists a. rewrite Hem, Ha. repeat split; try assumption.
    + unfold critical_reason. rewrite Hreason. fold current. rewrite Hratio.
      now apply reason_not_critical.
    + apply Hinc. now apply critical_ratio_below.
  - intros Hr1 Hr2. rewrite Hem. unfold gap_adjustment. fold current.
    rewrite Hratio. now rewrite (gap_severity_within r Hr1 Hr2).
  - intros Hr.
    assert (Hs := gap_severity_excess r Hr). rewrite <- Hratio in Hs.
    destruct (gap_adjustment_some user current_intake nutrient target _ _ Hs)
      as (a & Ha & _ & _ & _ & _ & _ & Hdec & _ & _ & Himp & Hreason).
    exists a. rewrite Hem, Ha. repeat split; try assumption.
    + unfold critical_reason. rewrite Hreason. fold current. rewrite Hratio.
      apply reason_not_critical; [exact Hnames|].
      apply Qlt_le_weak. eapply Qlt_trans; [|exact Hr]. reflexivity.
    + apply Hdec. now apply excess_ratio_above.
  - rewrite Hem.
    destruct (gap_severity (gap_ratio current target)) as [[p s]|] eqn:Hs.
    + destruct (gap_adjustment_some user current_intake nutrient target _ _ Hs)
        as (a & Ha & Hn & Hc & Hrec & Hamt & Hinc & _ & Hkcal & Hg & _ & _).
      rewrite Ha. constructor; [|constructor]. repeat split; try assumption; apply Hinc.
    + unfold gap_adjustment. fold current. rewrite Hs. constructor.
Qed.

Lemma gap_analyzer_classification_witness :
  In ("protein_g", 100%Q) (macros Scenario.targets_A)
  /\ (0 < 100)%Q
  /\ exists a,
       emitted_for "protein_g"
         (gap_adjustments Scenario.user_A Scenario.targets_A Scenario.intake_A) = [a]
       /\ critical_reason a = true
       /\ NutrientAdjustment.adjustment_direction a = "increase".
Proof.
  assert (Hin : In ("protein_g", 100%Q) (macros Scenario.targets_A))
    by (cbn; right; left; reflexivity).
  assert (Hpos : (0 < 100)%Q) by reflexivity.
  split; [exact Hin|]. split; [exact Hpos|].
  destruct (gap_analyzer_classification Scenario.user_A Scenario.targets_A
              Scenario.intake_A "protein_g" 100%Q Hin Hpos) as (Hcrit & _).
  destruct Hcrit as (a & Ha & _ & _ & Hc & Hd); [reflexivity|].
  exists a. repeat split; assumption.
Defined.




(** ** The wrapping recommendation *)

(** Reading [priority] off an adjustment raises, so the wrapper is never
    built. *)
Lemma gap_wrap_raises (user : User.t) (nutrition_profile : NutritionProfile.t)
    (current_intake : gmap string Q) :
  gap_adjustments user (NutritionProfile.macro_targets nutrition_profile) current_intake
  <> [] ->
  _generate_nutrient_gap_recommendations user nutrition_profile current_intake
  = Raise (AttributeError "NutrientAdjustment" "priority").
Proof.
  intros Hne. unfold _generate_nutrient_gap_recommendations.
  destruct (gap_adjustments _ _ _) as [|first rest]; [contradiction|reflexivity].
Qed.

Lemma gap_wrap_silent (user : User.t) (nutrition_profile : NutritionProfile.t)
    (current_intake : gmap string Q) :
  gap_adjustments user (NutritionProfile.macro_targets nutrition_profile) current_intake
  = [] ->
  _generate_nutrient_gap_recommendations user nutrition_profile current_intake = Ok [].
Proof.
  intros He. unfold _generate_nutrient_gap_recommendations. now rewrite He.
Qed.

(** The analyzer either raises or returns nothing: it never returns a
    recommendation. *)
Lemma gap_recommendations_never_returned (user : User.t)
    (nutrition_profile : NutritionProfile.t) (current_intake : gmap string Q)
    (out : list Recommendation.t) :
  _generate_nutrient_gap_recommendations user nutrition_profile current_intake = Ok out ->
  out = [].
Proof.
  unfold _generate_nutrient_gap_recommendations.
  destruct (gap_adjustments _ _ _); [now intros [= <-]|discriminate].
Qed.

Lemma emitted_for_nonempty (nutrient : string) (adjustments : list NutrientAdjustment.t) :
  emitted_for nutrient adjustments <> [] -> adjustments <> [].
Proof. intros H ->. now apply H. Qed.

(** A flagged macro leaves the loop with a non-empty list. *)
Lemma flagged_gap_adjustments (user : User.t) (macro_targets : MacroTargets.t)
    (current_intake : gmap string Q) (nutrient : string) (target : Q) :
  In (nutrient, target) (macros macro_targets) ->
  (target <= 0
   \/ get0 current_intake nutrient / target < 0.8
   \/ 1.5 < get0 current_intake nutrient / target)%Q ->
  gap_adjustments user macro_targets current_intake <> [].
Proof.
  intros Hin Hflag.
  apply (emitted_for_nonempty nutrient).
  rewrite (gap_adjustments_for _ _ _ _ _ Hin).
  assert (Hs : gap_severity (gap_ratio (get0 current_intake nutrient) target) <> None).
  { destruct (Qlt_le_dec 0 target) as [Hpos|Hle].
    - rewrite (gap_ratio_pos _ _ Hpos). apply gap_severity_flagged.
      destruct Hflag as [Hle|Hflag]; [|exact Hflag].
      exfalso. exact (Qlt_not_le _ _ Hpos Hle).
    - rewrite (gap_ratio_nonpos _ _ Hle). now rewrite gap_severity_critical. }
  destruct (gap_severity _) as [[p s]|] eqn:E; [|contradiction].
  destruct (gap_adjustment_some user current_intake nutrient target _ _ E) as (a & Ha & _).
  rewrite Ha. discriminate.
Qed.

(** ** The generation pass *)

Lemma generate_body_gap_raises (w : World) (user : User.t)
    (current_intake : option (gmap string Q)) (meal_type : option string)
    (nutrition_profile : NutritionProfile.t) (intake : gmap string Q) :
  _get_or_create_nutrition_profile w user = Ok nutrition_profile ->
  resolved_intake w user current_intake = Ok intake ->
  gap_adjustments user (NutritionProfile.macro_targets nutrition_profile) intake <> [] ->
  generate_body w user current_intake meal_type
  = Raise (AttributeError "NutrientAdjustment" "priority").
Proof.
  intros Hp Hi Hne. unfold generate_body.
  rewrite Hp. cbn [bind].
  change (match current_intake with
          | Some intake0 => Ok intake0
          | None => _get_current_daily_intake w user
          end) with (resolved_intake w user current_intake).
  rewrite Hi. cbn [bind].
  now rewrite (gap_wrap_raises _ _ _ Hne).
Qed.

(** C4. When the gap loop flags one of the five macros (ratio below 0.8
    or above 1.5, or target <= 0), building the wrapper raises
    AttributeError on [priority], the top-level handler catches it, and
    the pass returns the empty list. *)
Theorem flagged_macro_empties_generation (w : World) (user : User.t)
    (current_intake : option (gmap string Q)) (meal_type : option string)
    (nutrition_profile : NutritionProfile.t) (intake : gmap string Q)
    (nutrient : string) (target : Q) :
  _get_or_create_nutrition_profile w user = Ok nutrition_profile ->
  resolved_intake w user current_intake = Ok intake ->
  In (nutrient, target) (macros (NutritionProfile.macro_targets nutrition_profile)) ->
  (target <= 0
   \/ get0 intake nutrient / target < 0.8
   \/ 1.5 < get0 intake nutrient / target)%Q ->
  _generate_nutrient_gap_recommendations user nutrition_profile intake
  = Raise (AttributeError "NutrientAdjustment" "priority")
  /\ generate_body w user current_intake meal_type
     = Raise (AttributeError "NutrientAdjustment" "priority")
  /\ generate_comprehensive_recommendations w user current_intake meal_type = [].
Proof.
  intros Hp Hi Hin Hflag.
  assert (Hne := flagged_gap_adjustments user _ intake _ _ Hin Hflag).
  split; [now apply gap_wrap_raises|].
  assert (Hbody := generate_body_gap_raises w user current_intake meal_type _ _ Hp Hi Hne).
  split; [exact Hbody|].
  unfold generate_comprehensive_recommendations. now rewrite Hbody.
Qed.

Lemma flagged_macro_empties_generation_witness :
  (get0 Scenario.intake_A "protein_g" / 100 < 0.8)%Q
  /\ generate_comprehensive_recommendations Scenario.world_A Scenario.user_A
       (Some Scenario.intake_A) None = [].
Proof.
  assert (Hr : (get0 Scenario.intake_A "protein_g" / 100 < 0.8)%Q) by reflexivity.
  split; [exact Hr|].
  apply (flagged_macro_empties_generation Scenario.world_A Scenario.user_A
           (Some Scenario.intake_A) None (Scenario.profile_of Scenario.targets_A)
           Scenario.intake_A "protein_g" 100%Q).
  - reflexivity.
  - reflexivity.
  - cbn. right. left. reflexivity.
  - right. left. exact Hr.
Defined.

(** C2, on the code. In scenario A the loop leaves one adjustment, and
    the wrapper that should carry it (type nutrient_adjustment, confidence
    high, 0.85, minimum priority) is not built: the analyzer raises
    AttributeError while computing [priority]. *)
Theorem gap_wrapper_not_built :
  length (gap_adjustments Scenario.user_A Scenario.targets_A Scenario.intake_A) = 1%nat
  /\ _generate_nutrient_gap_recommendations Scenario.user_A
       (Scenario.profile_of Scenario.targets_A) Scenario.intake_A
     = Raise (AttributeError "NutrientAdjustment" "priority").
Proof. split; vm_compute; reflexivity. Qed.

(** C1, on the code. In scenario A (protein target 100 g, intake 40 g)
    the loop does build the expected protein adjustment, yet
    [generate_comprehensive_recommendations] returns the empty list. *)
Theorem scenario_A_returns_nothing :
  gap_adjustments Scenario.user_A Scenario.targets_A Scenario.intake_A
  = [ {| NutrientAdjustment.nutrient_name := "protein_g";
         NutrientAdjustment.current_intake := 40;
         NutrientAdjustment.recommended_intake := 100;
         NutrientAdjustment.adjustment_amount := 60;
         NutrientAdjustment.adjustment_direction := "increase";
         NutrientAdjustment.unit := "g";
         NutrientAdjustment.reason :=
           "Your protein g intake is critically low, which may impact muscle maintenance and repair.";
         NutrientAdjustment.health_impact :=
           "Risk of muscle loss and impaired immune function";
         NutrientAdjustment.food_sources :=
           ["lean meats"; "fish"; "eggs"; "legumes"; "dairy"; "nuts"];
         NutrientAdjustment.supplement_suggestion := None |} ]
  /\ generate_comprehensive_recommendations Scenario.world_A Scenario.user_A
       (Some Scenario.intake_A) None = [].
Proof. split; vm_compute; reflexivity. Qed.

(** ** Ranking *)

Lemma key_lt_true (x y : Recommendation.t) :
  key_lt (sort_key x) (sort_key y) = true -> rank_le x y.
Proof.
  unfold key_lt, sort_key, rank_le. cbn [fst snd].
  destruct (Z.eqb_spec (Recommendation.priority x) (Recommendation.priority y)) as [He|Hne].
  - intros H. right. split; [exact He|].
    apply Qlt_bool_iff in H. apply Qlt_le_weak.
    apply Qopp_lt_compat in H. now rewrite !Qopp_opp in H.
  - intros H. left. now apply Z.ltb_lt.
Qed.

Lemma key_lt_false (x y : Recommendation.t) :
  key_lt (sort_key x) (sort_key y) = false -> rank_le y x.
Proof.
  unfold key_lt, sort_key, rank_le. cbn [fst snd].
  destruct (Z.eqb_spec (Recommendation.priority x) (Recommendation.priority y)) as [He|Hne].
  - intros H. right. split; [now symmetry|].
    apply Qlt_bool_false_iff in H.
    apply Qopp_le_compat in H. now rewrite !Qopp_opp in H.
  - intros H. left. apply Z.ltb_ge in H. lia.
Qed.

Lemma rank_le_trans (x y z : Recommendation.t) :
  rank_le x y -> rank_le y z -> rank_le x z.
Proof.
  unfold rank_le. intros [H1|[H1 H1']] [H2|[H2 H2']].
  - left. lia.
  - left. lia.
  - left. lia.
  - right. split; [congruence|]. eapply Qle_trans; eassumption.
Qed.

Lemma insert_by_Forall (P : Recommendation.t -> Prop) (x : Recommendation.t)
    (l : list Recommendation.t) :
  P x -> Forall P l -> Forall P (insert_by sort_key x l).
Proof.
  intros Hx Hl. induction Hl as [|y t Hy Ht IH]; cbn [insert_by].
  - now constructor.
  - destruct (key_lt _ _); repeat constructor; assumption.
Qed.

Lemma insert_by_sorted (x : Recommendation.t) (l : list Recommendation.t) :
  StronglySorted rank_le l -> StronglySorted rank_le (insert_by sort_key x l).
Proof.
  intros Hs. induction Hs as [|y t Ht IH Hy]; cbn [insert_by].
  - repeat constructor.
  - destruct (key_lt (sort_key x) (sort_key y)) eqn:E.
    + apply key_lt_true in E. constructor.
      * now constructor.
      * constructor; [exact E|].
        eapply Forall_impl; [exact Hy|]. intros z Hz. exact (rank_le_trans _ _ _ E Hz).
    + apply key_lt_false in E. constructor; [exact IH|].
      now apply insert_by_Forall.
Qed.

Lemma insert_by_perm (x : Recommendation.t) (l : list Recommendation.t) :
  Permutation (x :: l) (insert_by sort_key x l).
Proof.
  induction l as [|y t IH]; cbn [insert_by]; [reflexivity|].
  destruct (key_lt _ _); [reflexivity|].
  rewrite perm_swap. now apply perm_skip.
Qed.

Lemma py_sort_from_sorted (l sorted : list Recommendation.t) :
  StronglySorted rank_le sorted ->
  StronglySorted rank_le
    (fold_left (fun sorted x => insert_by sort_key x sorted) l sorted).
Proof.
  revert sorted. induction l as [|x l IH]; intros sorted Hs; cbn [fold_left].
  - exact Hs.
  - apply IH. now apply insert_by_sorted.
Qed.

Lemma py_sort_from_perm (l sorted : list Recommendation.t) :
  Permutation (sorted ++ l)
    (fold_left (fun sorted x => insert_by sort_key x sorted) l sorted).
Proof.
  revert sorted. induction l as [|x l IH]; intros sorted; cbn [fold_left].
  - now rewrite app_nil_r.
  - rewrite <- IH. rewrite <- insert_by_perm.
    symmetry. apply Permutation_middle.
Qed.

Lemma py_sort_sorted (l : list Recommendation.t) :
  StronglySorted rank_le (py_sort sort_key l).
Proof. apply py_sort_from_sorted. constructor. Qed.

Lemma py_sort_perm (l : list Recommendation.t) : Permutation l (py_sort sort_key l).
Proof. exact (py_sort_from_perm l []). Qed.

Lemma take_sorted (n : nat) (l : list Recommendation.t) :
  StronglySorted rank_le l -> StronglySorted rank_le (take n l).
Proof.
  intros Hs. revert n. induction Hs as [|y t Ht IH Hy]; intros [|n]; cbn [take];
    try constructor.
  - apply IH.
  - now apply Forall_take.
Qed.

(** C5. The list returned is sorted by rank (priority non-decreasing,
    and at equal priority confidence non-increasing, between any two
    positions) and holds at most ten recommendations. *)
Theorem generate_ranked_and_bounded (w : World) (user : User.t)
    (current_intake : option (gmap string Q)) (meal_type : option string) :
  StronglySorted rank_le
    (generate_comprehensive_recommendations w user current_intake meal_type)
  /\ (length (generate_comprehensive_recommendations w user current_intake meal_type)
      <= 10)%nat.
Proof.
  unfold generate_comprehensive_recommendations, generate_body.
  destruct (_get_or_create_nutrition_profile w user) as [profile|e];
    cbn [bind try_except]; [|split; [constructor|cbn; lia]].
  destruct (match current_intake with
            | Some intake => Ok intake
            | None => _get_current_daily_intake w user
            end) as [intake|e];
    cbn [bind try_except]; [|split; [constructor|cbn; lia]].
  destruct (_generate_nutrient_gap_recommendations user profile intake) as [gaps|e];
    cbn [bind try_except]; [|split; [constructor|cbn; lia]].
  split.
  - apply take_sorted, py_sort_sorted.
  - rewrite length_take. lia.
Qed.

(** Ten of twelve recommendations survive the truncation, and a meal
    plan ranks after a health recommendation. *)
Example generate_truncates :
  length (generate_comprehensive_recommendations Scenario.world_A
            (Scenario.user_with (repeat "hypertension" 12) [])
            (Some Scenario.intake_C) None) = 10%nat
  /\ map (fun r => (Recommendation.recommendation_type r, Recommendation.priority r))
       (generate_comprehensive_recommendations
          (Scenario.world_of Scenario.targets_A (Ok [Scenario.toast]) 2)
          Scenario.user_C (Some Scenario.intake_C) None)
     = [(HEALTH_OPTIMIZATION, 2%Z); (MEAL_PLAN, 4%Z)].
Proof. split; vm_compute; reflexivity. Qed.

(** ** Rule packs *)

Section RulePacks.

Variable user : User.t.
Variable current_intake : gmap string Q.

Ltac pack_cases :=
  repeat match goal with
         | |- context [Qlt_bool ?x ?y] =>
             let E := fresh "E" in destruct (Qlt_bool x y) eqn:E
         end.

Lemma health_recommendation_shape (title description : string)
    (adjustments : list NutrientAdjustment.t) (confidence : Q)
    (condition difficulty horizon : string) :
  (1 <= length adjustments <= 2)%nat ->
  pack_shape [health_recommendation user title description adjustments confidence
                condition difficulty horizon].
Proof.
  intros H. split; [cbn; lia|].
  constructor; [|constructor]. cbn. repeat split; lia.
Qed.

Lemma pack_shape_nil : pack_shape [].
Proof. split; [cbn; lia|constructor]. Qed.

Lemma diabetes_shape : pack_shape (_diabetes_recommendations user current_intake).
Proof.
  unfold _diabetes_recommendations. pack_cases;
    first [apply pack_shape_nil | apply health_recommendation_shape; cbn; lia].
Qed.

Lemma hypertension_shape : pack_shape (_hypertension_recommendations user current_intake).
Proof.
  unfold _hypertension_recommendations. pack_cases;
    first [apply pack_shape_nil | apply health_recommendation_shape; cbn; lia].
Qed.

Lemma heart_health_shape : pack_shape (_heart_health_recommendations user current_intake).
Proof.
  unfold _heart_health_recommendations. pack_cases;
    first [apply pack_shape_nil | apply health_recommendation_shape; cbn; lia].
Qed.

Lemma anemia_shape : pack_shape (_anemia_recommendations user current_intake).
Proof.
  unfold _anemia_recommendations. pack_cases;
    first [apply pack_shape_nil | apply health_recommendation_shape; cbn; lia].
Qed.

Lemma bone_health_shape : pack_shape (_bone_health_recommendations user current_intake).
Proof.
  unfold _bone_health_recommendations. pack_cases;
    first [apply pack_shape_nil | apply health_recommendation_shape; cbn; lia].
Qed.

Lemma condition_recommendations_shape (condition : HealthCondition.t) :
  pack_shape (condition_recommendations user current_intake condition).
Proof.
  unfold condition_recommendations.
  repeat match goal with
         | |- context [if ?b then _ else _] => destruct b
         end;
    auto using diabetes_shape, hypertension_shape, heart_health_shape, anemia_shape,
      bone_health_shape, pack_shape_nil.
Qed.

(** Each pack fires exactly on its thresholds. *)
Lemma diabetes_fires :
  _diabetes_recommendations user current_intake <> []
  <-> (get0 current_intake "fiber_g" < 25)%Q.
Proof.
  unfold _diabetes_recommendations.
  destruct (Qlt_bool _ 25) eqn:E.
  - apply Qlt_bool_iff in E. split; [intros _; exact E|discriminate].
  - apply Qlt_bool_false_iff in E. split; [intros H; now contradiction H|].
    intros H. exfalso. exact (Qlt_not_le _ _ H E).
Qed.

Lemma heart_health_fires :
  _heart_health_recommendations user current_intake <> []
  <-> (get0 current_intake "fiber_g" < 25)%Q.
Proof.
  unfold _heart_health_recommendations.
  destruct (Qlt_bool _ 25) eqn:E.
  - apply Qlt_bool_iff in E. split; [intros _; exact E|discriminate].
  - apply Qlt_bool_false_iff in E. split; [intros H; now contradiction H|].
    intros H. exfalso. exact (Qlt_not_le _ _ H E).
Qed.

Ltac two_thresholds E1 E2 :=
  match goal with
  | |- context [Qlt_bool ?a ?b] =>
      destruct (Qlt_bool a b) eqn:E1;
      match goal with
      | |- context [Qlt_bool ?c ?d] => destruct (Qlt_bool c d) eqn:E2
      end
  end;
  try apply Qlt_bool_iff in E1; try apply Qlt_bool_false_iff in E1;
  try apply Qlt_bool_iff in E2; try apply Qlt_bool_false_iff in E2;
  (split;
   [ intros H; first [now left | now right | now contradiction H]
   | first [ discriminate
           | intros [H|H]; exfalso;
             first [exact (Qlt_not_le _ _ H E1) | exact (Qlt_not_le _ _ H E2)] ] ]).

Lemma hypertension_fires :
  _hypertension_recommendations user current_intake <> []
  <-> (2300 < get0 current_intake "sodium_mg"
       \/ get0 current_intake "potassium_mg" < 3500)%Q.
Proof. unfold _hypertension_recommendations. two_thresholds E1 E2. Qed.

Lemma anemia_fires :
  _anemia_recommendations user current_intake <> []
  <-> (get0 current_intake "iron_mg" < 15
       \/ get0 current_intake "vitamin_c_mg" < 75)%Q.
Proof. unfold _anemia_recommendations. two_thresholds E1 E2. Qed.

Lemma bone_health_fires :
  _bone_health_recommendations user current_intake <> []
  <-> (get0 current_intake "calcium_mg" < 1000
       \/ get0 current_intake "vitamin_d_mcg" < 15)%Q.
Proof. unfold _bone_health_recommendations. two_thresholds E1 E2. Qed.

Lemma diabetes_fiber :
  (get0 current_intake "fiber_g" < 25)%Q ->
  exists r a,
    _diabetes_recommendations user current_intake = [r]
    /\ Recommendation.nutrient_adjustments r = [a]
    /\ adjusts a "fiber_g" "increase" 30.
Proof.
  intros H. unfold _diabetes_recommendations.
  rewrite (Qlt_bool_true _ _ H).
  eexists. eexists. split; [reflexivity|]. split; [reflexivity|].
  repeat split.
Qed.

Lemma hypertension_sodium :
  (2300 < get0 current_intake "sodium_mg")%Q ->
  exists r a,
    _hypertension_recommendations user current_intake = [r]
    /\ In a (Recommendation.nutrient_adjustments r)
    /\ adjusts a "sodium_mg" "decrease" 1500.
Proof.
  intros H. unfold _hypertension_recommendations.
  rewrite (Qlt_bool_true _ _ H).
  eexists. eexists. split; [reflexivity|]. split; [left; reflexivity|].
  repeat split.
Qed.

End RulePacks.

(** C6, as stated, fails: a user whose condition names hypertension
    does not always get the sodium adjustment. For the one condition
    "Diabetes with hypertension" and 3000 mg of sodium the chain runs the
    diabetes pack only, and with fiber on target nothing is returned. *)
Lemma hypertension_user_without_sodium_adjustment :
  ~ (forall (user : User.t) (current_intake : gmap string Q)
            (condition : HealthCondition.t),
        In condition (User.health_conditions user) ->
        names "hypertension" condition = true ->
        (2300 < get0 current_intake "sodium_mg")%Q ->
        exists r a,
          In r (_generate_health_optimization_recommendations user current_intake)
          /\ In a (Recommendation.nutrient_adjustments r)
          /\ adjusts a "sodium_mg" "decrease" 1500).
Proof.
  intros H.
  destruct (H Scenario.user_D Scenario.intake_C
              (HealthCondition.mk "Diabetes with hypertension"))
    as (r & a & Hr & _).
  - left. reflexivity.
  - reflexivity.
  - reflexivity.
  - vm_compute in Hr. exact Hr.
Qed.

(** C6, amended. For each health condition of the user, the pack
    selected by the keyword chain (case-insensitive substring, first match
    wins: diabetes, then hypertension or blood pressure, then heart or
    cardiovascular, then anemia, then osteoporosis) contributes at most one
    recommendation, of type health_optimization, confidence high and
    priority 2, with one or two adjustments, and it contributes one exactly
    when one of its fixed thresholds is met. A condition that names
    hypertension or blood pressure and does not name diabetes, on sodium
    above 2300 mg, contributes a recommendation that asks to decrease sodium
    to 1500; a condition that names diabetes, on fiber below 25 g,
    contributes one whose only adjustment asks to increase fiber to 30. *)
Theorem rule_packs (user : User.t) (current_intake : gmap string Q)
    (condition : HealthCondition.t) :
  In condition (User.health_conditions user) ->
  let out := condition_recommendations user current_intake condition in
  let hypertension :=
    names "hypertension" condition || names "blood pressure" condition in
  let heart := names "heart" condition || names "cardiovascular" condition in
  (forall r, In r out ->
             In r (_generate_health_optimization_recommendations user current_intake))
  /\ pack_shape out
  /\ (names "diabetes" condition = true ->
      out = _diabetes_recommendations user current_intake)
  /\ (names "diabetes" condition = false -> hypertension = true ->
      out = _hypertension_recommendations user current_intake)
  /\ (names "diabetes" condition = false -> hypertension = false -> heart = true ->
      out = _heart_health_recommendations user current_intake)
  /\ (names "diabetes" condition = false -> hypertension = false -> heart = false ->
      names "anemia" condition = true ->
      out = _anemia_recommendations user current_intake)
  /\ (names "diabetes" condition = false -> hypertension = false -> heart = false ->
      names "anemia" condition = false -> names "osteoporosis" condition = true ->
      out = _bone_health_recommendations user current_intake)
  /\ (names "diabetes" condition = false -> hypertension = false -> heart = false ->
      names "anemia" condition = false -> names "osteoporosis" condition = false ->
      out = [])
  /\ (_diabetes_recommendations user current_intake <> []
      <-> (get0 current_intake "fiber_g" < 25)%Q)
  /\ (_hypertension_recommendations user current_intake <> []
      <-> (2300 < get0 current_intake "sodium_mg"
           \/ get0 current_intake "potassium_mg" < 3500)%Q)
  /\ (_heart_health_recommendations user current_intake <> []
      <-> (get0 current_intake "fiber_g" < 25)%Q)
  /\ (_anemia_recommendations user current_intake <> []
      <-> (get0 current_intake "iron_mg" < 15
           \/ get0 current_intake "vitamin_c_mg" < 75)%Q)
  /\ (_bone_health_recommendations user current_intake <> []
      <-> (get0 current_intake "calcium_mg" < 1000
           \/ get0 current_intake "vitamin_d_mcg" < 15)%Q)
  /\ ((2300 < get0 current_intake "sodium_mg")%Q ->
      exists r a,
        _hypertension_recommendations user current_intake = [r]
        /\ In a (Recommendation.nutrient_adjustments r)
        /\ adjusts a "sodium_mg" "decrease" 1500)
  /\ ((get0 current_intake "fiber_g" < 25)%Q ->
      exists r a,
        _diabetes_recommendations user current_intake = [r]
        /\ Recommendation.nutrient_adjustments r = [a]
        /\ adjusts a "fiber_g" "increase" 30)
  /\ (names "diabetes" condition = false -> hypertension = true ->
      (2300 < get0 current_intake "sodium_mg")%Q ->
      exists r a,
        out = [r]
        /\ In r (_generate_health_optimization_recommendations user current_intake)
        /\ In a (Recommendation.nutrient_adjustments r)
        /\ adjusts a "sodium_mg" "decrease" 1500)
  /\ (names "diabetes" condition = true ->
      (get0 current_intake "fiber_g" < 25)%Q ->
      exists r a,
        out = [r]
        /\ In r (_generate_health_optimization_recommendations user current_intake)
        /\ Recommendation.nutrient_adjustments r = [a]
        /\ adjusts a "fiber_g" "increase" 30).
Proof.
  intros Hin out hypertension heart.
  assert (Hout : forall r, In r out ->
                   In r (_generate_health_optimization_recommendations user
                           current_intake)).
  { intros r Hr. unfold _generate_health_optimization_recommendations.
    apply in_flat_map. exists condition. split; assumption. }
  assert (Hsel_d : names "diabetes" condition = true ->
                   out = _diabetes_recommendations user current_intake).
  { intros Hd. subst out. unfold condition_recommendations.
    unfold names in Hd. now rewrite Hd. }
  assert (Hsel_h : names "diabetes" condition = false -> hypertension = true ->
                   out = _hypertension_recommendations user current_intake).
  { intros Hd Hh. subst out hypertension. unfold condition_recommendations.
    unfold names in Hd, Hh. now rewrite Hd, Hh. }
  split; [exact Hout|].
  split; [apply condition_recommendations_shape|].
  split; [exact Hsel_d|]. split; [exact Hsel_h|].
  assert (Hrest :
    (names "diabetes" condition = false -> hypertension = false -> heart = true ->
     out = _heart_health_recommendations user current_intake)
    /\ (names "diabetes" condition = false -> hypertension = false -> heart = false ->
        names "anemia" condition = true ->
        out = _anemia_recommendations user current_intake)
    /\ (names "diabetes" condition = false -> hypertension = false -> heart = false ->
        names "anemia" condition = false -> names "osteoporosis" condition = true ->
        out = _bone_health_recommendations user current_intake)
    /\ (names "diabetes" condition = false -> hypertension = false -> heart = false ->
        names "anemia" condition = false -> names "osteoporosis" condition = false ->
        out = [])).
  { subst out hypertension heart. unfold condition_recommendations, names.
    repeat split;
      solve [ intros; repeat match goal with
                             | H : _ = _ |- _ => rewrite H
                             end; reflexivity ]. }
  destruct Hrest as (Hheart & Hanemia & Hbone & Hnone).
  split; [exact Hheart|]. split; [exact Hanemia|]. split; [exact Hbone|].
  split; [exact Hnone|].
  split; [apply diabetes_fires|]. split; [apply hypertension_fires|].
  split; [apply heart_health_fires|]. split; [apply anemia_fires|].
  split; [apply bone_health_fires|]. split; [apply hypertension_sodium|].
  split; [apply diabetes_fiber|]. split.
  - intros Hd Hh Hsodium.
    destruct (hypertension_sodium user current_intake Hsodium) as (r & a & Hr & Ha & Hadj).
    exists r, a. rewrite (Hsel_h Hd Hh) in Hout |- *.
    split; [exact Hr|]. split; [|split; [exact Ha|exact Hadj]].
    apply Hout. rewrite Hr. left. reflexivity.
  - intros Hd Hfiber.
    destruct (diabetes_fiber user current_intake Hfiber) as (r & a & Hr & Ha & Hadj).
    exists r, a. rewrite (Hsel_d Hd) in Hout |- *.
    split; [exact Hr|]. split; [|split; [exact Ha|exact Hadj]].
    apply Hout. rewrite Hr. left. reflexivity.
Qed.

Lemma rule_packs_witness :
  In (HealthCondition.mk "Hypertension") (User.health_conditions Scenario.user_C)
  /\ exists r a,
       condition_recommendations Scenario.user_C Scenario.intake_C
         (HealthCondition.mk "Hypertension") = [r]
       /\ In r (generate_comprehensive_recommendations Scenario.world_A Scenario.user_C
                  (Some Scenario.intake_C) None)
       /\ In a (Recommendation.nutrient_adjustments r)
       /\ adjusts a "sodium_mg" "decrease" 1500.
Proof.
  assert (Hin : In (HealthCondition.mk "Hypertension")
                  (User.health_conditions Scenario.user_C)) by (left; reflexivity).
  split; [exact Hin|].
  destruct (rule_packs Scenario.user_C Scenario.intake_C _ Hin)
    as (_ & _ & _ & Hsel & _ & _ & _ & _ & _ & _ & _ & _ & _ & Hsodium & _ & _ & _).
  destruct Hsodium as (r & a & Hr & Ha & Hadj); [reflexivity|].
  exists r, a. rewrite (Hsel eq_refl eq_refl).
  split; [exact Hr|]. split; [|split; [exact Ha|exact Hadj]].
  vm_compute in Hr. injection Hr as <-. vm_compute. left. reflexivity.
Defined.

(** ** Absorbed failures *)

Lemma food_suggestions_absorbed (w : World) (user : User.t)
    (nutrition_profile : NutritionProfile.t) (current_intake : gmap string Q)
    (meal_type : option string) :
  no_suggestion
    (generate_meal_suggestions w
       (food_request w user (NutritionProfile.macro_targets nutrition_profile)
          current_intake meal_type)) ->
  _generate_food_suggestions w user nutrition_profile current_intake meal_type = [].
Proof.
  intros H. unfold _generate_food_suggestions, food_suggestions_body.
  destruct (deficit_nutrients_of _ _); [reflexivity|].
  cbv zeta. destruct H as [->|[e ->]]; reflexivity.
Qed.

Lemma meal_plan_type (w : World) (user : User.t) (nutrition_profile : NutritionProfile.t) :
  Forall (fun r => Recommendation.recommendation_type r = MEAL_PLAN)
    (_generate_meal_plan_recommendations w user nutrition_profile).
Proof.
  unfold _generate_meal_plan_recommendations, meal_plan_body.
  destruct (recent_logs w (User.id user)) as [n|e]; cbn [bind try_except]; [|constructor].
  destruct (n <? 5)%nat; cbn [try_except]; [|constructor].
  destruct (daily_meals_loop _ _ _ _ _) as [meals|e]; cbn [bind try_except]; [|constructor].
  destruct (decide (meals = ∅)); cbn [try_except]; repeat constructor.
Qed.

Lemma health_optimization_type (user : User.t) (current_intake : gmap string Q) :
  Forall (fun r => Recommendation.recommendation_type r = HEALTH_OPTIMIZATION)
    (_generate_health_optimization_recommendations user current_intake).
Proof.
  unfold _generate_health_optimization_recommendations.
  apply List.Forall_forall. intros r Hr.
  apply in_flat_map in Hr as (condition & _ & Hr).
  destruct (condition_recommendations_shape user current_intake condition) as [_ Hall].
  rewrite List.Forall_forall in Hall. now apply Hall.
Qed.

Lemma In_take (A : Type) (n : nat) (l : list A) (x : A) : In x (take n l) -> In x l.
Proof.
  revert n. induction l as [|y t IH]; intros [|n]; cbn [take In]; try tauto.
  intros [H|H]; [now left|right; eauto].
Qed.

(** What a pass returns was produced by one of the four generators. *)
Lemma generate_from_generators (w : World) (user : User.t)
    (current_intake : option (gmap string Q)) (meal_type : option string)
    (r : Recommendation.t) :
  In r (generate_comprehensive_recommendations w user current_intake meal_type) ->
  exists nutrition_profile intake,
    _get_or_create_nutrition_profile w user = Ok nutrition_profile
    /\ resolved_intake w user current_intake = Ok intake
    /\ (In r (_generate_food_suggestions w user nutrition_profile intake meal_type)
        \/ In r (_generate_meal_plan_recommendations w user nutrition_profile)
        \/ In r (_generate_health_optimization_recommendations user intake)).
Proof.
  unfold generate_comprehensive_recommendations, generate_body, resolved_intake.
  destruct (_get_or_create_nutrition_profile w user) as [profile|e];
    cbn [bind try_except]; [|intros []].
  destruct (match current_intake with
            | Some intake => Ok intake
            | None => _get_current_daily_intake w user
            end) as [intake|e];
    cbn [bind try_except]; [|intros []].
  destruct (_generate_nutrient_gap_recommendations user profile intake) as [gaps|e] eqn:Eg;
    cbn [bind try_except]; [|intros []].
  apply gap_recommendations_never_returned in Eg. subst gaps.
  intros Hr. apply In_take in Hr.
  apply (Permutation_in _ (Permutation_sym (py_sort_perm _))) in Hr.
  cbn [app] in Hr.
  exists profile, intake. split; [reflexivity|]. split; [reflexivity|].
  apply in_app_or in Hr as [Hr|Hr]; [now left|].
  apply in_app_or in Hr as [Hr|Hr]; [right; now left|right; now right].
Qed.

(** C7. If the generator raises or answers with an empty list on the
    food request, the food generator returns nothing and no
    food_suggestion recommendation is returned by the pass; and whatever
    exception the body of the pass raises, the pass returns the empty
    list. The pass is a total function to lists: it never raises. *)
Theorem generator_failure_absorbed (w : World) (user : User.t)
    (current_intake : option (gmap string Q)) (meal_type : option string) :
  (forall nutrition_profile intake,
      no_suggestion
        (generate_meal_suggestions w
           (food_request w user (NutritionProfile.macro_targets nutrition_profile)
              intake meal_type))) ->
  (forall nutrition_profile intake,
      _generate_food_suggestions w user nutrition_profile intake meal_type = [])
  /\ Forall (fun r => Recommendation.recommendation_type r <> FOOD_SUGGESTION)
       (generate_comprehensive_recommendations w user current_intake meal_type)
  /\ (forall e, generate_body w user current_intake meal_type = Raise e ->
                generate_comprehensive_recommendations w user current_intake meal_type
                = []).
Proof.
  intros Hgen.
  assert (Hfood : forall nutrition_profile intake,
             _generate_food_suggestions w user nutrition_profile intake meal_type = []).
  { intros p i. apply food_suggestions_absorbed, Hgen. }
  split; [exact Hfood|]. split.
  - apply List.Forall_forall. intros r Hr.
    apply generate_from_generators in Hr as (p & i & _ & _ & [Hr|[Hr|Hr]]).
    + rewrite Hfood in Hr. destruct Hr.
    + assert (Hm := meal_plan_type w user p).
      rewrite List.Forall_forall in Hm. rewrite (Hm r Hr). discriminate.
    + assert (Hh := health_optimization_type user i).
      rewrite List.Forall_forall in Hh. rewrite (Hh r Hr). discriminate.
  - intros e He. unfold generate_comprehensive_recommendations. now rewrite He.
Qed.

Lemma generator_failure_absorbed_witness :
  (forall nutrition_profile intake,
      no_suggestion
        (generate_meal_suggestions Scenario.world_down
           (food_request Scenario.world_down Scenario.user_A
              (NutritionProfile.macro_targets nutrition_profile) intake None)))
  /\ _generate_food_suggestions Scenario.world_down Scenario.user_A
       (Scenario.profile_of Scenario.targets_A) Scenario.intake_A None = [].
Proof.
  assert (Hgen : forall nutrition_profile intake,
             no_suggestion
               (generate_meal_suggestions Scenario.world_down
                  (food_request Scenario.world_down Scenario.user_A
                     (NutritionProfile.macro_targets nutrition_profile) intake None))).
  { intros p i. right. eexists. reflexivity. }
  split; [exact Hgen|].
  exact (proj1 (generator_failure_absorbed Scenario.world_down Scenario.user_A
                  (Some Scenario.intake_A) None Hgen)
           (Scenario.profile_of Scenario.targets_A) Scenario.intake_A).
Defined.

(** A profile store that raises empties the pass as well. *)
Example profile_store_down :
  generate_comprehensive_recommendations
    {| find_profile := fun _ => Raise (UpstreamError "store unavailable");
       get_nutrition_recommendations := fun _ => Ok Scenario.targets_A;
       insert_profile := fun _ => Ok tt;
       find_daily_intake := fun _ => Ok None;
       generate_meal_suggestions := fun _ => Ok [Scenario.toast];
       recent_logs := fun _ => Ok 0%nat;
       current_hour := 8;
       now := 0 |}
    Scenario.user_C (Some Scenario.intake_C) None = [].
Proof. reflexivity. Qed.

(** ** Feedback *)

(** A rating outside 1..5 is refused by the schema and the store is as
    before. *)
Lemma rating_out_of_range_rejected (store : gmap string Recommendation.t)
    (recommendation_id current_user_id : string) (body : RecommendationFeedback.t)
    (r : Z) :
  RecommendationFeedback.rating body = Some r ->
  (r < 1 \/ 5 < r)%Z ->
  submit_recommendation_feedback store recommendation_id body current_user_id
  = (store, HTTP_422_UNPROCESSABLE_ENTITY).
Proof.
  intros Hr Hout. unfold submit_recommendation_feedback, RecommendationFeedback.validate.
  rewrite Hr.
  destruct (1 <=? r)%Z eqn:E1; destruct (r <=? 5)%Z eqn:E2; cbn [andb]; try reflexivity.
  apply Z.leb_le in E1, E2. lia.
Qed.

(** The schema puts no bound on the text. *)
Lemma feedback_text_unchecked (body : RecommendationFeedback.t) :
  RecommendationFeedback.rating body = None ->
  RecommendationFeedback.validate body = true.
Proof. intros H. unfold RecommendationFeedback.validate. now rewrite H. Qed.

(** C9, on the code. A feedback text of 1001 characters, which
    [validate_recommendation_feedback] reports as an error, is accepted by
    the endpoint: the call answers 200 and the stored recommendation is
    changed (viewed, accepted, text stored). *)
Theorem long_feedback_is_stored :
  String.length Scenario.long_text = 1001%nat
  /\ validate_recommendation_feedback None (Some Scenario.long_text)
     = ["Feedback text cannot exceed 1000 characters"]
  /\ Scenario.store_1 !! "r1" = Some Scenario.stored
  /\ Recommendation.is_viewed Scenario.stored = false
  /\ Recommendation.is_accepted Scenario.stored = false
  /\ Recommendation.user_feedback Scenario.stored = None
  /\ submit_recommendation_feedback Scenario.store_1 "r1" Scenario.feedback_long "u1"
     = (<["r1" := set_feedback Scenario.stored true None (Some Scenario.long_text)]>
          Scenario.store_1,
        HTTP_200_OK)
  /\ Recommendation.is_viewed
       (set_feedback Scenario.stored true None (Some Scenario.long_text)) = true
  /\ Recommendation.is_accepted
       (set_feedback Scenario.stored true None (Some Scenario.long_text)) = true
  /\ Recommendation.user_feedback
       (set_feedback Scenario.stored true None (Some Scenario.long_text))
     = Some Scenario.long_text.
Proof.
  repeat split; try (vm_compute; reflexivity).
Qed.

(** ** Allergens *)

(** C10, as stated, fails: an allergy that names a group is not always
    matched with it. The allergy "Tree nuts allergy" contains the group
    name "tree nuts", and "Almond cake" contains the keyword "almond", but
    the allergy is not inside the group name and holds none of the group's
    keywords, so nothing is warned. *)
Lemma allergy_naming_group_not_warned :
  ~ (forall (suggestion : AISuggestion.t) (user_allergies : list string)
            (allergy allergen_group : string) (keywords : list string),
        In allergy user_allergies ->
        In (allergen_group, keywords) common_allergens ->
        (PyStr.contains allergen_group (PyStr.lower allergy) = true
         \/ PyStr.contains (PyStr.lower allergy) allergen_group = true) ->
        (exists keyword,
            In keyword keywords
            /\ PyStr.contains keyword (suggestion_text suggestion) = true) ->
        In ("May contain " +:+ allergen_group)
           (_check_allergens suggestion user_allergies)).
Proof.
  intros H.
  assert (Hin : In "May contain tree nuts"
                  (_check_allergens Scenario.almond_cake ["Tree nuts allergy"])).
  { apply (H Scenario.almond_cake ["Tree nuts allergy"] "Tree nuts allergy" "tree nuts"
             ["almond"; "walnut"; "pecan"; "cashew"; "pistachio"]).
    - left. reflexivity.
    - cbn. do 4 right. left. reflexivity.
    - left. reflexivity.
    - exists "almond". split; [left; reflexivity|reflexivity]. }
  vm_compute in Hin. exact Hin.
Qed.

(** C10, amended. When a user allergy, lowered, occurs in the name of
    an allergen group or contains one of the group's keywords, and the
    suggestion's lowered name-and-ingredients text contains one of the
    group's keywords, the warnings contain "May contain {group}". An
    allergy that contains the group's name is matched in this way for
    every group whose name is one of its own keywords, which is every group
    but "tree nuts". A suggestion named "Peanut butter toast" gets
    "May contain peanuts" for the allergy "peanut", whatever its
    ingredients and the other allergies. *)
Theorem check_allergens_warns (suggestion : AISuggestion.t) (user_allergies : list string)
    (allergy allergen_group : string) (keywords : list string) :
  In allergy user_allergies ->
  In (allergen_group, keywords) common_allergens ->
  (PyStr.contains (PyStr.lower allergy) allergen_group = true
   \/ exists keyword,
        In keyword keywords /\ PyStr.contains keyword (PyStr.lower allergy) = true) ->
  (exists keyword,
      In keyword keywords
      /\ PyStr.contains keyword (suggestion_text suggestion) = true) ->
  In ("May contain " +:+ allergen_group) (_check_allergens suggestion user_allergies)
  /\ (forall s allergies,
         AISuggestion.name s = Some "Peanut butter toast" ->
         In "peanut" allergies ->
         In "May contain peanuts" (_check_allergens s allergies))
  /\ _check_allergens Scenario.toast ["peanut"] = ["May contain peanuts"]
  /\ (forall s allergies a g ks,
         In a allergies ->
         In (g, ks) common_allergens ->
         g <> "tree nuts" ->
         PyStr.contains g (PyStr.lower a) = true ->
         (exists keyword,
             In keyword ks /\ PyStr.contains keyword (suggestion_text s) = true) ->
         In ("May contain " +:+ g) (_check_allergens s allergies)).
Proof.
  intros Hallergy Hgroup Hnames Htext.
  assert (Hgen : forall s allergies a g ks,
             In a allergies -> In (g, ks) common_allergens ->
             allergy_matches (PyStr.lower a) g ks = true ->
             existsb (fun keyword => PyStr.contains keyword (suggestion_text s)) ks = true ->
             In ("May contain " +:+ g) (_check_allergens s allergies)).
  { intros s allergies a g ks Ha Hg Hm Ht. unfold _check_allergens.
    apply in_flat_map. exists a. split; [exact Ha|].
    apply in_flat_map. exists (g, ks). split; [exact Hg|].
    cbv beta iota zeta. rewrite Hm, Ht. left. reflexivity. }
  split; [|split].
  - apply (Hgen suggestion user_allergies allergy allergen_group keywords);
      try assumption.
    + unfold allergy_matches. apply orb_true_iff.
      destruct Hnames as [H|(k & Hk & H)]; [now left|right].
      apply existsb_exists. exists k. split; assumption.
    + apply existsb_exists. destruct Htext as (k & Hk & H). exists k. split; assumption.
  - intros s allergies Hname Hin.
    apply (Hgen s allergies "peanut" "peanuts" ["peanut"; "peanuts"]).
    + exact Hin.
    + cbn. do 5 right. left. reflexivity.
    + reflexivity.
    + unfold suggestion_text. rewrite Hname. reflexivity.
  - split; [vm_compute; reflexivity|].
    intros s allergies a g ks Ha Hg Hne Hc (k & Hk & Ht).
    apply (Hgen s allergies a g ks Ha Hg).
    + unfold allergy_matches. apply orb_true_iff. right.
      apply existsb_exists. exists g. split; [|exact Hc].
      cbn in Hg.
      repeat match type of Hg with
             | _ \/ _ => destruct Hg as [Hg|Hg]
             | (_, _) = (_, _) => injection Hg as <- <-
             | False => destruct Hg
             end;
        solve [ cbn; tauto | contradiction Hne; reflexivity ].
    + apply existsb_exists. exists k. split; assumption.
Qed.

Lemma check_allergens_warns_witness :
  In "peanut" ["peanut"]
  /\ In ("peanuts", ["peanut"; "peanuts"]) common_allergens
  /\ In "May contain peanuts" (_check_allergens Scenario.toast ["peanut"]).
Proof.
  assert (Ha : In "peanut" ["peanut"]) by (left; reflexivity).
  assert (Hg : In ("peanuts", ["peanut"; "peanuts"]) common_allergens)
    by (cbn; do 5 right; left; reflexivity).
  split; [exact Ha|]. split; [exact Hg|].
  assert (Hn : PyStr.contains (PyStr.lower "peanut") "peanuts" = true
               \/ exists keyword,
                    In keyword ["peanut"; "peanuts"]
                    /\ PyStr.contains keyword (PyStr.lower "peanut") = true)
    by (left; reflexivity).
  assert (Ht : exists keyword,
             In keyword ["peanut"; "peanuts"]
             /\ PyStr.contains keyword (suggestion_text Scenario.toast) = true).
  { exists "peanut". split; [left; reflexivity|reflexivity]. }
  exact (proj1 (check_allergens_warns Scenario.toast ["peanut"] "peanut" "peanuts"
                  ["peanut"; "peanuts"] Ha Hg Hn Ht)).
Defined.

(** * Further properties of the engine *)

(** ** What a pass can return *)

(** A nutrient that triggers the food suggestions (below 80% of its
    target) is one the gap loop flags. *)
Lemma deficit_flags_gap (user : User.t) (macro_targets : MacroTargets.t)
    (current_intake : gmap string Q) :
  deficit_nutrients_of macro_targets current_intake <> [] ->
  gap_adjustments user macro_targets current_intake <> [].
Proof.
  intros Hd.
  assert (Hflag : forall nutrient target,
             In (nutrient, target) (macros macro_targets) ->
             Qlt_bool (get0 current_intake nutrient) (target * 0.8) = true ->
             gap_adjustments user macro_targets current_intake <> []).
  { intros nutrient target Hin Hlt. apply Qlt_bool_iff in Hlt.
    apply (flagged_gap_adjustments user macro_targets current_intake nutrient target Hin).
    destruct (Qlt_le_dec 0 target) as [Hpos|Hle]; [right; left|now left].
    apply Qlt_shift_div_r; [exact Hpos|]. now rewrite Qmult_comm. }
  unfold deficit_nutrients_of in Hd. cbn [List.filter] in Hd.
  change (MacroTargets.getattr macro_targets "protein_g")
    with (MacroTargets.protein_g macro_targets) in Hd.
  change (MacroTargets.getattr macro_targets "fiber_g")
    with (MacroTargets.fiber_g macro_targets) in Hd.
  destruct (Qlt_bool (get0 current_intake "protein_g") _) eqn:Ep.
  - refine (Hflag "protein_g" (MacroTargets.protein_g macro_targets) _ Ep).
    cbn. right. left. reflexivity.
  - destruct (Qlt_bool (get0 current_intake "fiber_g") _) eqn:Ef; [|contradiction].
    refine (Hflag "fiber_g" (MacroTargets.fiber_g macro_targets) _ Ef).
    cbn. do 4 right. left. reflexivity.
Qed.

Lemma food_suggestions_without_deficit (w : World) (user : User.t)
    (nutrition_profile : NutritionProfile.t) (current_intake : gmap string Q)
    (meal_type : option string) :
  deficit_nutrients_of (NutritionProfile.macro_targets nutrition_profile) current_intake
  = [] ->
  _generate_food_suggestions w user nutrition_profile current_intake meal_type = [].
Proof.
  intros Hd. unfold _generate_food_suggestions, food_suggestions_body. now rewrite Hd.
Qed.

(** X1. Whatever the collaborators answer, a pass returns only meal
    plans and health optimizations: a nutrient_adjustment wrapper is never
    built, and the food suggestions are produced only for an intake that
    makes the gap analyzer raise. *)
Theorem pass_returns_plans_and_health_only (w : World) (user : User.t)
    (current_intake : option (gmap string Q)) (meal_type : option string) :
  Forall (fun r =>
            Recommendation.recommendation_type r = MEAL_PLAN
            \/ Recommendation.recommendation_type r = HEALTH_OPTIMIZATION)
    (generate_comprehensive_recommendations w user current_intake meal_type).
Proof.
  apply List.Forall_forall. intros r Hr.
  assert (Hout := Hr).
  apply generate_from_generators in Hr as (p & i & Hp & Hi & Hsrc).
  destruct Hsrc as [Hfood|[Hmeal|Hhealth]].
  - exfalso.
    destruct (list_eq_dec (deficit_nutrients_of (NutritionProfile.macro_targets p) i) [])
      as [Hd|Hd].
    + rewrite (food_suggestions_without_deficit _ _ _ _ _ Hd) in Hfood. destruct Hfood.
    + assert (Hg := deficit_flags_gap user _ _ Hd).
      assert (Hbody := generate_body_gap_raises w user current_intake meal_type p i Hp Hi Hg).
      unfold generate_comprehensive_recommendations in Hout. rewrite Hbody in Hout.
      destruct Hout.
  - left. assert (Hm := meal_plan_type w user p).
    rewrite List.Forall_forall in Hm. now apply Hm.
  - right. assert (Hh := health_optimization_type user i).
    rewrite List.Forall_forall in Hh. now apply Hh.
Qed.

(** X2. When protein or fiber is below 80% of its target, the pass
    returns the empty list: the same intake makes the gap analyzer
    raise. *)
Theorem food_trigger_empties_pass (w : World) (user : User.t)
    (current_intake : option (gmap string Q)) (meal_type : option string)
    (nutrition_profile : NutritionProfile.t) (intake : gmap string Q) :
  _get_or_create_nutrition_profile w user = Ok nutrition_profile ->
  resolved_intake w user current_intake = Ok intake ->
  ((get0 intake "protein_g"
    < MacroTargets.protein_g (NutritionProfile.macro_targets nutrition_profile) * 0.8)%Q
   \/ (get0 intake "fiber_g"
       < MacroTargets.fiber_g (NutritionProfile.macro_targets nutrition_profile) * 0.8)%Q) ->
  deficit_nutrients_of (NutritionProfile.macro_targets nutrition_profile) intake <> []
  /\ generate_comprehensive_recommendations w user current_intake meal_type = [].
Proof.
  intros Hp Hi Hlow.
  assert (Hd : deficit_nutrients_of (NutritionProfile.macro_targets nutrition_profile) intake
               <> []).
  { unfold deficit_nutrients_of. cbn [List.filter].
    change (MacroTargets.getattr (NutritionProfile.macro_targets nutrition_profile)
              "protein_g")
      with (MacroTargets.protein_g (NutritionProfile.macro_targets nutrition_profile)).
    change (MacroTargets.getattr (NutritionProfile.macro_targets nutrition_profile)
              "fiber_g")
      with (MacroTargets.fiber_g (NutritionProfile.macro_targets nutrition_profile)).
    destruct Hlow as [H|H]; apply Qlt_bool_true in H; rewrite H.
    - discriminate.
    - destruct (Qlt_bool (get0 intake "protein_g") _); discriminate. }
  split; [exact Hd|].
  assert (Hg := deficit_flags_gap user _ _ Hd).
  unfold generate_comprehensive_recommendations.
  now rewrite (generate_body_gap_raises w user current_intake meal_type _ _ Hp Hi Hg).
Qed.

Lemma food_trigger_empties_pass_witness :
  (get0 Scenario.intake_A "protein_g"
   < MacroTargets.protein_g Scenario.targets_A * 0.8)%Q
  /\ generate_comprehensive_recommendations Scenario.world_A Scenario.user_A
       (Some Scenario.intake_A) (Some "lunch") = [].
Proof.
  assert (Hlow : (get0 Scenario.intake_A "protein_g"
                  < MacroTargets.protein_g Scenario.targets_A * 0.8)%Q) by reflexivity.
  split; [exact Hlow|].
  exact (proj2 (food_trigger_empties_pass Scenario.world_A Scenario.user_A
                  (Some Scenario.intake_A) (Some "lunch")
                  (Scenario.profile_of Scenario.targets_A) Scenario.intake_A
                  eq_refl eq_refl (or_introl Hlow))).
Defined.

(** ** Food suggestions *)

(** X3. The food generator returns at most one recommendation, and
    none when protein and fiber both reach 80% of target, whatever the
    generator would answer. A recommendation it returns is a
    food_suggestion of priority 3 and confidence 0.75 built from a
    non-empty answer: it holds the first three suggestions at most, each
    with score 0.8, the deficit nutrients as benefits, the target meal type
    and the allergen warnings of its own suggestion. *)
Theorem food_suggestions_shape (w : World) (user : User.t)
    (nutrition_profile : NutritionProfile.t) (current_intake : gmap string Q)
    (meal_type : option string) :
  let macro_targets := NutritionProfile.macro_targets nutrition_profile in
  let deficits := deficit_nutrients_of macro_targets current_intake in
  let out := _generate_food_suggestions w user nutrition_profile current_intake meal_type in
  (length out <= 1)%nat
  /\ (deficits = [] -> out = [])
  /\ (forall r, In r out ->
        exists answer,
          generate_meal_suggestions w
            (food_request w user macro_targets current_intake meal_type) = Ok answer
          /\ answer <> []
          /\ deficits <> []
          /\ Recommendation.recommendation_type r = FOOD_SUGGESTION
          /\ Recommendation.priority r = 3%Z
          /\ Recommendation.model_confidence r = 0.75%Q
          /\ Recommendation.nutrient_adjustments r = []
          /\ length (Recommendation.food_suggestions r) = Nat.min 3 (length answer)
          /\ map FoodSuggestion.allergen_warnings (Recommendation.food_suggestions r)
             = map (fun s => _check_allergens s (User.allergies user)) (take 3 answer)
          /\ Forall (fun f =>
                       FoodSuggestion.priority_score f = 0.8%Q
                       /\ FoodSuggestion.nutritional_benefits f = deficits
                       /\ FoodSuggestion.meal_type f = Some (target_meal_type_of w meal_type)
                       /\ FoodSuggestion.matches_dietary_restrictions f = true)
               (Recommendation.food_suggestions r)).
Proof.
  intros macro_targets deficits out.
  subst out. unfold _generate_food_suggestions, food_suggestions_body.
  fold macro_targets. fold deficits.
  destruct deficits as [|d ds] eqn:Ed.
  { cbn. repeat split; [lia|intros r []]. }
  cbv zeta.
  destruct (generate_meal_suggestions w
              (food_request w user macro_targets current_intake meal_type))
    as [[|s answer]|e] eqn:Eg; cbn [bind try_except].
  - cbn. repeat split; [lia|intros r []].
  - split; [cbn; lia|]. split; [discriminate|].
    intros r [<-|[]]. exists (s :: answer).
    split; [reflexivity|]. split; [discriminate|]. split; [discriminate|].
    cbn [Recommendation.recommendation_type Recommendation.priority
           Recommendation.model_confidence Recommendation.nutrient_adjustments
           Recommendation.food_suggestions].
    repeat split.
    + rewrite length_map, length_take. reflexivity.
    + rewrite map_map. reflexivity.
    + apply List.Forall_forall. intros f Hf.
      apply in_map_iff in Hf as (s' & <- & _). repeat split.
  - cbn. repeat split; [lia|intros r []].
Qed.

(** ** Allergen screening *)

Lemma check_allergens_length (suggestion : AISuggestion.t) (user_allergies : list string) :
  (length (_check_allergens suggestion user_allergies) <= 8 * length user_allergies)%nat.
Proof.
  unfold _check_allergens.
  induction user_allergies as [|allergy rest IH]; [cbn; lia|].
  cbn [flat_map]. rewrite length_app. cbn [length].
  assert (Hone : forall groups : list (string * list string),
             (length
                (flat_map
                   (fun group : string * list string =>
                      let '(allergen_group, keywords) := group in
                      if allergy_matches (PyStr.lower allergy) allergen_group keywords
                      then if existsb
                                (fun keyword =>
                                   PyStr.contains keyword (suggestion_text suggestion))
                                keywords
                           then ["May contain " +:+ allergen_group]
                           else []
                      else [])
                   groups) <= length groups)%nat).
  { induction groups as [|[g ks] groups IHg]; [cbn; lia|].
    cbn [flat_map]. rewrite length_app. cbn [length].
    destruct (allergy_matches _ _ _); [destruct (existsb _ _)|]; cbn [length]; lia. }
  specialize (Hone common_allergens). cbn [length common_allergens] in Hone.
  lia.
Qed.

(** X4. Every warning is "May contain {group}" for a group of the table
    that matches one of the user's allergies and has a keyword in the
    suggestion's text; there are at most eight warnings per allergy, and
    none without allergies. *)
Theorem check_allergens_sound (suggestion : AISuggestion.t) (user_allergies : list string) :
  (length (_check_allergens suggestion user_allergies) <= 8 * length user_allergies)%nat
  /\ _check_allergens suggestion [] = []
  /\ forall warning,
       In warning (_check_allergens suggestion user_allergies) ->
       exists allergy allergen_group keywords,
         In allergy user_allergies
         /\ In (allergen_group, keywords) common_allergens
         /\ warning = "May contain " +:+ allergen_group
         /\ allergy_matches (PyStr.lower allergy) allergen_group keywords = true
         /\ exists keyword,
              In keyword keywords
              /\ PyStr.contains keyword (suggestion_text suggestion) = true.
Proof.
  split; [apply check_allergens_length|]. split; [reflexivity|].
  intros warning Hw. unfold _check_allergens in Hw.
  apply in_flat_map in Hw as (allergy & Ha & Hw).
  apply in_flat_map in Hw as ([g ks] & Hg & Hw).
  destruct (allergy_matches (PyStr.lower allergy) g ks) eqn:Em; [|destruct Hw].
  destruct (existsb _ ks) eqn:Et; [|destruct Hw].
  destruct Hw as [<-|[]].
  exists allergy, g, ks. repeat split; try assumption.
  apply existsb_exists in Et as (k & Hk & Hc). exists k. split; assumption.
Qed.

Lemma contains_empty (hay : string) : PyStr.contains "" hay = true.
Proof. destruct hay; reflexivity. Qed.

(** X5. An empty allergy string occurs in every group name, so it
    matches every group: each group with a keyword in the suggestion's
    text is warned about. *)
Theorem empty_allergy_matches_every_group (suggestion : AISuggestion.t)
    (user_allergies : list string) (allergen_group keyword : string)
    (keywords : list string) :
  In "" user_allergies ->
  In (allergen_group, keywords) common_allergens ->
  In keyword keywords ->
  PyStr.contains keyword (suggestion_text suggestion) = true ->
  In ("May contain " +:+ allergen_group) (_check_allergens suggestion user_allergies).
Proof.
  intros Ha Hg Hk Hc. unfold _check_allergens.
  apply in_flat_map. exists "". split; [exact Ha|].
  apply in_flat_map. exists (allergen_group, keywords). split; [exact Hg|].
  cbv beta iota zeta. cbn [PyStr.lower].
  unfold allergy_matches. rewrite contains_empty. cbn [orb].
  assert (He : existsb (fun keyword0 => PyStr.contains keyword0 (suggestion_text suggestion))
                 keywords = true).
  { apply existsb_exists. exists keyword. split; assumption. }
  rewrite He. left. reflexivity.
Qed.

Lemma empty_allergy_matches_every_group_witness :
  In "" [""]
  /\ In ("milk", ["milk"; "dairy"; "cheese"; "butter"; "cream"]) common_allergens
  /\ In "May contain milk" (_check_allergens Scenario.toast [""]).
Proof.
  assert (Ha : In "" [""]) by (left; reflexivity).
  assert (Hg : In ("milk", ["milk"; "dairy"; "cheese"; "butter"; "cream"]) common_allergens)
    by (left; reflexivity).
  split; [exact Ha|]. split; [exact Hg|].
  refine (empty_allergy_matches_every_group Scenario.toast [""] "milk" "butter" _ Ha Hg _ _).
  - cbn. do 3 right. left. reflexivity.
  - reflexivity.
Defined.

(** ** Meal types *)

(** X6. The meal derived from the clock is breakfast from 5 to 10,
    lunch from 11 to 14, snack from 15 to 17 and dinner at any other hour,
    and it is always a meal type [validate_meal_type] accepts. A non-empty
    meal type given by the caller is used as it is. *)
Theorem next_meal_bands (w : World) :
  (_determine_next_meal w = "breakfast" <-> (5 <= current_hour w < 11)%Z)
  /\ (_determine_next_meal w = "lunch" <-> (11 <= current_hour w < 15)%Z)
  /\ (_determine_next_meal w = "snack" <-> (15 <= current_hour w < 18)%Z)
  /\ (_determine_next_meal w = "dinner" <-> (current_hour w < 5 \/ 18 <= current_hour w)%Z)
  /\ validate_meal_type (_determine_next_meal w) = true
  /\ (forall m, m <> "" -> target_meal_type_of w (Some m) = m)
  /\ target_meal_type_of w None = _determine_next_meal w
  /\ target_meal_type_of w (Some "") = _determine_next_meal w.
Proof.
  assert (Hbands :
            (_determine_next_meal w = "breakfast" <-> (5 <= current_hour w < 11)%Z)
            /\ (_determine_next_meal w = "lunch" <-> (11 <= current_hour w < 15)%Z)
            /\ (_determine_next_meal w = "snack" <-> (15 <= current_hour w < 18)%Z)
            /\ (_determine_next_meal w = "dinner"
                <-> (current_hour w < 5 \/ 18 <= current_hour w)%Z)
            /\ validate_meal_type (_determine_next_meal w) = true).
  { unfold _determine_next_meal.
    destruct (Z.leb_spec 5 (current_hour w)); destruct (Z.ltb_spec (current_hour w) 11);
      destruct (Z.leb_spec 11 (current_hour w)); destruct (Z.ltb_spec (current_hour w) 15);
      destruct (Z.leb_spec 15 (current_hour w)); destruct (Z.ltb_spec (current_hour w) 18);
      cbn [andb]; try (exfalso; lia);
      (split; [split; [intros Heq; first [discriminate Heq | lia]
                      |intros Hh; first [reflexivity | exfalso; lia]]|]);
      (split; [split; [intros Heq; first [discriminate Heq | lia]
                      |intros Hh; first [reflexivity | exfalso; lia]]|]);
      (split; [split; [intros Heq; first [discriminate Heq | lia]
                      |intros Hh; first [reflexivity | exfalso; lia]]|]);
      (split; [split; [intros Heq; first [discriminate Heq | lia]
                      |intros Hh; first [reflexivity | exfalso; lia]]|]);
      reflexivity. }
  destruct Hbands as (Hb & Hl & Hs & Hd & Hv).
  split; [exact Hb|]. split; [exact Hl|]. split; [exact Hs|]. split; [exact Hd|].
  split; [exact Hv|]. split; [|split; reflexivity].
  intros m Hm. unfold target_meal_type_of.
  destruct (String.eqb_spec m ""); [contradiction|reflexivity].
Qed.

(** ** Meal plans *)

Section MealPlanLoop.

Variable w : World.
Variable user : User.t.
Variable macro_targets : MacroTargets.t.

(** A slot whose generator call raises ends the loop with an exception,
    whatever the other slots answered. *)
Lemma daily_meals_loop_raises (items : list (string * Q))
    (daily_meals : gmap string (list FoodSuggestion.t))
    (meal_type : string) (percentage : Q) (e : exn) :
  In (meal_type, percentage) items ->
  generate_meal_suggestions w (meal_request user macro_targets meal_type percentage)
  = Raise e ->
  exists e', daily_meals_loop w user macro_targets items daily_meals = Raise e'.
Proof.
  intros Hin Hr. revert daily_meals.
  induction items as [|[m p] items IH]; intros daily_meals; [destruct Hin|].
  cbn [daily_meals_loop].
  destruct Hin as [[= -> ->]|Hin].
  - rewrite Hr. cbn [bind]. eauto.
  - destruct (generate_meal_suggestions w (meal_request user macro_targets m p))
      as [answer|e0]; cbn [bind]; [|eauto].
    apply IH. exact Hin.
Qed.

Lemma daily_meals_loop_nothing (items : list (string * Q))
    (daily_meals : gmap string (list FoodSuggestion.t)) :
  (forall meal_type percentage,
      In (meal_type, percentage) items ->
      generate_meal_suggestions w (meal_request user macro_targets meal_type percentage)
      = Ok []) ->
  daily_meals_loop w user macro_targets items daily_meals = Ok daily_meals.
Proof.
  revert daily_meals.
  induction items as [|[m p] items IH]; intros daily_meals Hall; [reflexivity|].
  cbn [daily_meals_loop]. rewrite (Hall m p (or_introl eq_refl)). cbn [bind].
  apply IH. intros m' p' Hin. apply Hall. now right.
Qed.

(** Every entry of the finished dictionary was there before the loop or
    is the first suggestion of a slot of that name. *)
Lemma daily_meals_loop_entries (items : list (string * Q))
    (daily_meals result : gmap string (list FoodSuggestion.t)) :
  daily_meals_loop w user macro_targets items daily_meals = Ok result ->
  forall meal_type foods,
    result !! meal_type = Some foods ->
    daily_meals !! meal_type = Some foods
    \/ exists percentage suggestion rest,
         In (meal_type, percentage) items
         /\ generate_meal_suggestions w
              (meal_request user macro_targets meal_type percentage)
            = Ok (suggestion :: rest)
         /\ foods = [food_suggestion_of suggestion "" meal_type [] []].
Proof.
  revert daily_meals.
  induction items as [|[m p] items IH]; intros daily_meals Hloop meal_type foods Hlook.
  - cbn in Hloop. injection Hloop as <-. now left.
  - cbn [daily_meals_loop] in Hloop.
    destruct (generate_meal_suggestions w (meal_request user macro_targets m p))
      as [[|s rest]|e0] eqn:Eg; cbn [bind] in Hloop; [| |discriminate].
    + destruct (IH _ Hloop _ _ Hlook) as [Hold|(p' & s' & rest' & Hin & Hg & Hf)].
      * now left.
      * right. exists p', s', rest'. split; [now right|]. split; assumption.
    + destruct (IH _ Hloop _ _ Hlook) as [Hold|(p' & s' & rest' & Hin & Hg & Hf)].
      * destruct (decide (m = meal_type)) as [->|Hne].
        -- rewrite lookup_insert_eq in Hold. injection Hold as <-.
           right. exists p, s, rest. split; [now left|]. split; [exact Eg|reflexivity].
        -- rewrite lookup_insert_ne in Hold by exact Hne. now left.
      * right. exists p', s', rest'. split; [now right|]. split; assumption.
Qed.

End MealPlanLoop.

(** X7. The meal plan builder returns at most one recommendation, and
    none when the user has five or more recent food logs, when the log
    query raises, when every slot gets an empty answer, or when the
    generator raises for any single slot of the meal distribution: one
    failing slot discards the suggestions of all the others. *)
Theorem meal_plan_gate (w : World) (user : User.t) (nutrition_profile : NutritionProfile.t) :
  let out := _generate_meal_plan_recommendations w user nutrition_profile in
  let macro_targets := NutritionProfile.macro_targets nutrition_profile in
  (length out <= 1)%nat
  /\ (forall n, recent_logs w (User.id user) = Ok n -> (5 <= n)%nat -> out = [])
  /\ (forall e, recent_logs w (User.id user) = Raise e -> out = [])
  /\ (forall meal_type percentage e,
         In (meal_type, percentage) (NutritionProfile.meal_distribution nutrition_profile) ->
         generate_meal_suggestions w (meal_request user macro_targets meal_type percentage)
         = Raise e ->
         out = [])
  /\ ((forall meal_type percentage,
          In (meal_type, percentage) (NutritionProfile.meal_distribution nutrition_profile) ->
          generate_meal_suggestions w (meal_request user macro_targets meal_type percentage)
          = Ok []) ->
      out = []).
Proof.
  intros out macro_targets. subst out.
  unfold _generate_meal_plan_recommendations, meal_plan_body. fold macro_targets.
  split; [|split; [|split; [|split]]].
  - destruct (recent_logs w (User.id user)) as [n|e]; cbn [bind try_except]; [|cbn; lia].
    destruct (n <? 5)%nat; cbn [try_except]; [|cbn; lia].
    destruct (daily_meals_loop _ _ _ _ _) as [meals|e]; cbn [bind try_except]; [|cbn; lia].
    destruct (decide (meals = ∅)); cbn; lia.
  - intros n -> Hn. cbn [bind].
    destruct (Nat.ltb_spec n 5) as [Hlt|_]; [lia|reflexivity].
  - intros e ->. reflexivity.
  - intros meal_type percentage e Hin Hr.
    destruct (recent_logs w (User.id user)) as [n|e0]; cbn [bind try_except]; [|reflexivity].
    destruct (n <? 5)%nat; cbn [try_except]; [|reflexivity].
    destruct (daily_meals_loop_raises w user macro_targets _ ∅ _ _ _ Hin Hr) as [e' ->].
    reflexivity.
  - intros Hall.
    destruct (recent_logs w (User.id user)) as [n|e0]; cbn [bind try_except]; [|reflexivity].
    destruct (n <? 5)%nat; cbn [try_except]; [|reflexivity].
    rewrite (daily_meals_loop_nothing w user macro_targets _ ∅ Hall). cbn [bind].
    destruct (decide (∅ = ∅)) as [_|Hne]; [reflexivity|contradiction].
Qed.

(** X8. A meal plan recommendation that is returned has type meal_plan,
    priority 4 and confidence 0.70; the totals of its plan are the
    full-day macro targets, not sums over the suggestions; the plan is not
    empty, and each of its meals is a slot of the meal distribution holding
    exactly one food: the first suggestion the generator gave for that
    slot. *)
Theorem meal_plan_contents (w : World) (user : User.t)
    (nutrition_profile : NutritionProfile.t) (r : Recommendation.t) :
  In r (_generate_meal_plan_recommendations w user nutrition_profile) ->
  let macro_targets := NutritionProfile.macro_targets nutrition_profile in
  Recommendation.recommendation_type r = MEAL_PLAN
  /\ Recommendation.priority r = 4%Z
  /\ Recommendation.model_confidence r = 0.70%Q
  /\ Recommendation.food_suggestions r = []
  /\ exists plan,
       Recommendation.meal_plan r = Some plan
       /\ MealPlan.total_calories plan = MacroTargets.calories macro_targets
       /\ MealPlan.total_protein_g plan = MacroTargets.protein_g macro_targets
       /\ MealPlan.total_carbs_g plan = MacroTargets.carbs_g macro_targets
       /\ MealPlan.total_fat_g plan = MacroTargets.fat_g macro_targets
       /\ MealPlan.total_fiber_g plan = MacroTargets.fiber_g macro_targets
       /\ MealPlan.meals plan <> ∅
       /\ forall meal_type foods,
            MealPlan.meals plan !! meal_type = Some foods ->
            exists percentage suggestion rest,
              In (meal_type, percentage)
                (NutritionProfile.meal_distribution nutrition_profile)
              /\ generate_meal_suggestions w
                   (meal_request user macro_targets meal_type percentage)
                 = Ok (suggestion :: rest)
              /\ foods = [food_suggestion_of suggestion "" meal_type [] []].
Proof.
  unfold _generate_meal_plan_recommendations, meal_plan_body.
  destruct (recent_logs w (User.id user)) as [n|e]; cbn [bind try_except]; [|intros []].
  destruct (n <? 5)%nat; cbn [try_except]; [|intros []].
  destruct (daily_meals_loop _ _ _ _ _) as [meals|e] eqn:Eloop;
    cbn [bind try_except]; [|intros []].
  destruct (decide (meals = ∅)) as [He|Hne]; cbn [try_except]; [intros []|].
  intros [<-|[]].
  cbn [Recommendation.recommendation_type Recommendation.priority
         Recommendation.model_confidence Recommendation.food_suggestions
         Recommendation.meal_plan].
  split; [reflexivity|]. split; [reflexivity|]. split; [reflexivity|].
  split; [reflexivity|].
  eexists. split; [reflexivity|].
  cbn [MealPlan.total_calories MealPlan.total_protein_g MealPlan.total_carbs_g
         MealPlan.total_fat_g MealPlan.total_fiber_g MealPlan.meals].
  do 5 (split; [reflexivity|]). split; [exact Hne|].
  intros meal_type foods Hlook.
  destruct (daily_meals_loop_entries w user _ _ _ _ Eloop _ _ Hlook) as [Hold|Hnew].
  - rewrite lookup_empty in Hold. discriminate.
  - exact Hnew.
Qed.

Lemma meal_plan_contents_witness :
  exists r,
    In r (_generate_meal_plan_recommendations
            (Scenario.world_of Scenario.targets_A (Ok [Scenario.toast]) 2)
            Scenario.user_C (Scenario.profile_of Scenario.targets_A))
    /\ Recommendation.recommendation_type r = MEAL_PLAN
    /\ Recommendation.priority r = 4%Z.
Proof.
  eexists. 
  assert (Hin : In (hd Scenario.stored
                      (_generate_meal_plan_recommendations
                         (Scenario.world_of Scenario.targets_A (Ok [Scenario.toast]) 2)
                         Scenario.user_C (Scenario.profile_of Scenario.targets_A)))
                  (_generate_meal_plan_recommendations
                     (Scenario.world_of Scenario.targets_A (Ok [Scenario.toast]) 2)
                     Scenario.user_C (Scenario.profile_of Scenario.targets_A))).
  { vm_compute. left. reflexivity. }
  split; [exact Hin|].
  destruct (meal_plan_contents _ _ _ _ Hin) as (Ht & Hp & _).
  split; assumption.
Defined.

(** ** Today's intake *)

(** X9. Without a stored intake for today every nutrient reads 0. With
    one, a key of its micronutrient dictionary reads the micronutrient
    value, also when it is named like a macro, and each of the five macro
    keys that is not shadowed reads the stored macro amount. An exception
    of the store is passed on. *)
Theorem current_daily_intake_lookup (w : World) (user : User.t) :
  (find_daily_intake w (User.id user) = Ok None ->
   exists intake,
     _get_current_daily_intake w user = Ok intake /\ forall key, get0 intake key = 0%Q)
  /\ (forall d,
         find_daily_intake w (User.id user) = Ok (Some d) ->
         exists intake,
           _get_current_daily_intake w user = Ok intake
           /\ (forall key v,
                  DailyIntake.micronutrients d !! key = Some v -> get0 intake key = v)
           /\ (DailyIntake.micronutrients d !! "calories" = None ->
               get0 intake "calories" = DailyIntake.actual_calories d)
           /\ (DailyIntake.micronutrients d !! "protein_g" = None ->
               get0 intake "protein_g" = DailyIntake.actual_protein_g d)
           /\ (DailyIntake.micronutrients d !! "carbs_g" = None ->
               get0 intake "carbs_g" = DailyIntake.actual_carbs_g d)
           /\ (DailyIntake.micronutrients d !! "fat_g" = None ->
               get0 intake "fat_g" = DailyIntake.actual_fat_g d)
           /\ (DailyIntake.micronutrients d !! "fiber_g" = None ->
               get0 intake "fiber_g" = DailyIntake.actual_fiber_g d)
           /\ (forall key,
                  DailyIntake.micronutrients d !! key = None ->
                  ~ In key ["calories"; "protein_g"; "carbs_g"; "fat_g"; "fiber_g"] ->
                  get0 intake key = 0%Q))
  /\ (forall e,
         find_daily_intake w (User.id user) = Raise e ->
         _get_current_daily_intake w user = Raise e).
Proof.
  unfold _get_current_daily_intake.
  split; [|split].
  - intros ->. cbn [bind]. eexists. split; [reflexivity|].
    intros key. unfold get0. cbn [list_to_map foldr].
    repeat (rewrite lookup_insert; case_decide; [reflexivity|]).
    now rewrite lookup_empty.
  - intros d ->. cbn [bind]. eexists. split; [reflexivity|].
    unfold get0. cbn [list_to_map foldr].
    split; [|repeat split].
    + intros key v Hk. now rewrite (lookup_union_Some_l _ _ _ _ Hk).
    + intros Hn. rewrite (lookup_union_r _ _ _ Hn). now rewrite lookup_insert_eq.
    + intros Hn. rewrite (lookup_union_r _ _ _ Hn).
      rewrite lookup_insert_ne by discriminate. now rewrite lookup_insert_eq.
    + intros Hn. rewrite (lookup_union_r _ _ _ Hn).
      do 2 (rewrite lookup_insert_ne by discriminate). now rewrite lookup_insert_eq.
    + intros Hn. rewrite (lookup_union_r _ _ _ Hn).
      do 3 (rewrite lookup_insert_ne by discriminate). now rewrite lookup_insert_eq.
    + intros Hn. rewrite (lookup_union_r _ _ _ Hn).
      do 4 (rewrite lookup_insert_ne by discriminate). now rewrite lookup_insert_eq.
    + intros key Hn Hnot. rewrite (lookup_union_r _ _ _ Hn).
      cbn [In] in Hnot.
      repeat (rewrite lookup_insert_ne by (intros <-; apply Hnot; tauto)).
      now rewrite lookup_empty.
  - intros e ->. reflexivity.
Qed.

(** ** Feedback and viewing *)

Lemma get_recommendation_by_id_Some (store : gmap string Recommendation.t)
    (recommendation_id user_id : string) (r : Recommendation.t) :
  get_recommendation_by_id store recommendation_id user_id = Some r
  <-> store !! recommendation_id = Some r /\ Recommendation.user_id r = user_id.
Proof.
  unfold get_recommendation_by_id.
  destruct (store !! recommendation_id) as [r0|]; [|split; [discriminate|intros [[=] _]]].
  destruct (String.eqb_spec (Recommendation.user_id r0) user_id) as [He|Hne].
  - split; [intros [= <-]; now split|intros [[= <-] _]; reflexivity].
  - split; [discriminate|]. intros [[= <-] He]. contradiction.
Qed.

Lemma set_feedback_user_id (r : Recommendation.t) (is_accepted : bool)
    (rating : option Z) (feedback : option string) :
  Recommendation.user_id (set_feedback r is_accepted rating feedback)
  = Recommendation.user_id r.
Proof. reflexivity. Qed.

Lemma set_feedback_idempotent (r : Recommendation.t) (is_accepted : bool)
    (rating : option Z) (feedback : option string) :
  set_feedback (set_feedback r is_accepted rating feedback) is_accepted rating feedback
  = set_feedback r is_accepted rating feedback.
Proof.
  unfold set_feedback. cbn.
  destruct rating as [n|]; [destruct (n =? 0)%Z|];
    (destruct feedback as [text|]; [destruct (String.eqb text "")|]); reflexivity.
Qed.

Lemma set_viewed_of_viewed (r : Recommendation.t) :
  Recommendation.is_viewed r = true -> set_viewed r = r.
Proof. destruct r. cbn. intros ->. reflexivity. Qed.

Lemma set_feedback_set_viewed (r : Recommendation.t) (is_accepted : bool)
    (rating : option Z) (feedback : option string) :
  set_feedback (set_viewed r) is_accepted rating feedback
  = set_feedback r is_accepted rating feedback.
Proof. reflexivity. Qed.

(** X10. A caller who does not own a stored recommendation cannot read
    or change it: the lookup finds nothing, feedback returns false, the
    details and feedback endpoints answer 404 (for a well-formed body), and
    the store is left as it was. *)
Theorem non_owner_cannot_touch (store : gmap string Recommendation.t)
    (recommendation_id user_id : string) (r : Recommendation.t)
    (is_accepted : bool) (rating : option Z) (feedback : option string)
    (body : RecommendationFeedback.t) :
  store !! recommendation_id = Some r ->
  Recommendation.user_id r <> user_id ->
  get_recommendation_by_id store recommendation_id user_id = None
  /\ update_recommendation_feedback store recommendation_id user_id is_accepted rating
       feedback = (store, false)
  /\ get_recommendation_details store recommendation_id user_id
     = (store, (HTTP_404_NOT_FOUND, None))
  /\ fst (submit_recommendation_feedback store recommendation_id body user_id) = store
  /\ (RecommendationFeedback.validate body = true ->
      snd (submit_recommendation_feedback store recommendation_id body user_id)
      = HTTP_404_NOT_FOUND).
Proof.
  intros Hlook Hne.
  assert (Hnone : get_recommendation_by_id store recommendation_id user_id = None).
  { unfold get_recommendation_by_id. rewrite Hlook.
    destruct (String.eqb_spec (Recommendation.user_id r) user_id); [contradiction|reflexivity]. }
  split; [exact Hnone|].
  assert (Hupd : forall a rt fb,
             update_recommendation_feedback store recommendation_id user_id a rt fb
             = (store, false)).
  { intros a rt fb. unfold update_recommendation_feedback. now rewrite Hnone. }
  split; [apply Hupd|]. split.
  { unfold get_recommendation_details. now rewrite Hnone. }
  unfold submit_recommendation_feedback.
  destruct (RecommendationFeedback.validate body); rewrite ?Hupd; split;
    try reflexivity; discriminate.
Qed.

Lemma non_owner_cannot_touch_witness :
  Scenario.store_1 !! "r1" = Some Scenario.stored
  /\ Recommendation.user_id Scenario.stored <> "u2"
  /\ fst (submit_recommendation_feedback Scenario.store_1 "r1" Scenario.feedback_long "u2")
     = Scenario.store_1.
Proof.
  assert (Hlook : Scenario.store_1 !! "r1" = Some Scenario.stored) by reflexivity.
  assert (Hne : Recommendation.user_id Scenario.stored <> "u2") by discriminate.
  split; [exact Hlook|]. split; [exact Hne|].
  exact (proj1 (proj2 (proj2 (proj2
           (non_owner_cannot_touch Scenario.store_1 "r1" "u2" Scenario.stored
              true None None Scenario.feedback_long Hlook Hne))))).
Defined.

(** X11. Feedback by the owner on a stored recommendation that
    satisfies its schema, with no rating or a rating from 0 to 5, returns
    true and rewrites exactly one document: the recommendation is stored
    viewed, with the given acceptance, still inside the schema, still under
    the same owner and with its content (type, title, priority,
    adjustments, activity) untouched, every other document of the store is
    as before, and no document is added. *)
Theorem feedback_updates_one_document (store : gmap string Recommendation.t)
    (recommendation_id user_id : string) (r : Recommendation.t)
    (is_accepted : bool) (rating : option Z) (feedback : option string) :
  get_recommendation_by_id store recommendation_id user_id = Some r ->
  schema_valid r = true ->
  (forall n, rating = Some n -> (0 <= n <= 5)%Z) ->
  let result :=
    update_recommendation_feedback store recommendation_id user_id is_accepted rating
      feedback in
  let updated := set_feedback r is_accepted rating feedback in
  snd result = true
  /\ schema_valid updated = true
  /\ fst result !! recommendation_id = Some updated
  /\ get_recommendation_by_id (fst result) recommendation_id user_id = Some updated
  /\ (forall other, other <> recommendation_id -> fst result !! other = store !! other)
  /\ dom (fst result) = dom store
  /\ Recommendation.is_viewed updated = true
  /\ Recommendation.is_accepted updated = is_accepted
  /\ Recommendation.user_id updated = Recommendation.user_id r
  /\ Recommendation.recommendation_type updated = Recommendation.recommendation_type r
  /\ Recommendation.title updated = Recommendation.title r
  /\ Recommendation.priority updated = Recommendation.priority r
  /\ Recommendation.nutrient_adjustments updated = Recommendation.nutrient_adjustments r
  /\ Recommendation.is_active updated = Recommendation.is_active r.
Proof.
  intros Hget Hvalid Hrating result updated. subst result updated.
  assert (Hown := proj1 (get_recommendation_by_id_Some _ _ _ _) Hget).
  destruct Hown as [Hlook Hown].
  unfold update_recommendation_feedback. rewrite Hget. cbn [fst snd].
  split; [reflexivity|]. split.
  { revert Hvalid. unfold schema_valid, set_feedback.
    cbn [Recommendation.model_confidence Recommendation.priority
         Recommendation.user_rating Recommendation.food_suggestions
         Recommendation.meal_plan].
    destruct rating as [n|]; [|trivial].
    destruct (Z.eqb_spec n 0) as [_|Hne]; [trivial|].
    specialize (Hrating n eq_refl).
    rewrite !andb_true_iff. intros ((((((H1 & H2) & H3) & H4) & _) & H6) & H7).
    repeat split; try assumption; apply Z.leb_le; lia. }
  split; [apply lookup_insert_eq|]. split.
  { apply get_recommendation_by_id_Some. split; [apply lookup_insert_eq|exact Hown]. }
  split.
  { intros other Hne. now apply lookup_insert_ne. }
  split.
  { apply dom_insert_lookup_L. now exists r. }
  repeat split.
Qed.

Lemma feedback_updates_one_document_witness :
  get_recommendation_by_id Scenario.store_1 "r1" "u1" = Some Scenario.stored
  /\ schema_valid Scenario.stored = true
  /\ snd (update_recommendation_feedback Scenario.store_1 "r1" "u1" true (Some 4%Z) None)
     = true.
Proof.
  assert (Hget : get_recommendation_by_id Scenario.store_1 "r1" "u1" = Some Scenario.stored)
    by reflexivity.
  assert (Hvalid : schema_valid Scenario.stored = true) by reflexivity.
  assert (Hrating : forall n, Some 4%Z = Some n -> (0 <= n <= 5)%Z).
  { intros n Hn. injection Hn as <-. lia. }
  split; [exact Hget|]. split; [exact Hvalid|].
  exact (proj1 (feedback_updates_one_document Scenario.store_1 "r1" "u1" Scenario.stored
                  true (Some 4%Z) None Hget Hvalid Hrating)).
Defined.

(** X12. A missing rating or the rating 0, and a missing or empty
    feedback text, leave the stored rating and text as they were: later
    feedback cannot clear them. Any other rating or text replaces the
    stored one. *)
Theorem feedback_keeps_old_values (store : gmap string Recommendation.t)
    (recommendation_id user_id : string) (r : Recommendation.t)
    (is_accepted : bool) (rating : option Z) (feedback : option string) :
  get_recommendation_by_id store recommendation_id user_id = Some r ->
  exists updated,
    fst (update_recommendation_feedback store recommendation_id user_id is_accepted
           rating feedback) !! recommendation_id = Some updated
    /\ (rating = None \/ rating = Some 0%Z ->
        Recommendation.user_rating updated = Recommendation.user_rating r)
    /\ (feedback = None \/ feedback = Some "" ->
        Recommendation.user_feedback updated = Recommendation.user_feedback r)
    /\ (forall n, rating = Some n -> n <> 0%Z ->
                  Recommendation.user_rating updated = Some n)
    /\ (forall text, feedback = Some text -> text <> "" ->
                     Recommendation.user_feedback updated = Some text).
Proof.
  intros Hget. exists (set_feedback r is_accepted rating feedback).
  unfold update_recommendation_feedback. rewrite Hget. cbn [fst].
  split; [apply lookup_insert_eq|].
  cbn [set_feedback Recommendation.user_rating Recommendation.user_feedback].
  repeat split.
  - intros [->| ->]; reflexivity.
  - intros [->| ->]; reflexivity.
  - intros n -> Hn. destruct (Z.eqb_spec n 0); [contradiction|reflexivity].
  - intros text -> Ht. destruct (String.eqb_spec text ""); [contradiction|reflexivity].
Qed.

Lemma feedback_keeps_old_values_witness :
  get_recommendation_by_id Scenario.store_1 "r1" "u1" = Some Scenario.stored
  /\ exists updated,
       fst (update_recommendation_feedback Scenario.store_1 "r1" "u1" false (Some 0%Z)
              (Some "")) !! "r1" = Some updated
       /\ Recommendation.user_rating updated = Recommendation.user_rating Scenario.stored.
Proof.
  assert (Hget : get_recommendation_by_id Scenario.store_1 "r1" "u1" = Some Scenario.stored)
    by reflexivity.
  split; [exact Hget|].
  destruct (feedback_keeps_old_values Scenario.store_1 "r1" "u1" Scenario.stored
              false (Some 0%Z) (Some "") Hget) as (updated & Hlook & Hr & _).
  exists updated. split; [exact Hlook|]. apply Hr. now right.
Defined.

(** X13. Recording the same feedback twice leaves the store as after
    the first call, whoever calls and whether or not the recommendation
    exists. *)
Theorem feedback_idempotent (store : gmap string Recommendation.t)
    (recommendation_id user_id : string) (is_accepted : bool)
    (rating : option Z) (feedback : option string) :
  let once :=
    update_recommendation_feedback store recommendation_id user_id is_accepted rating
      feedback in
  update_recommendation_feedback (fst once) recommendation_id user_id is_accepted rating
    feedback = once.
Proof.
  cbv zeta. unfold update_recommendation_feedback at 2.
  destruct (get_recommendation_by_id store recommendation_id user_id) as [r|] eqn:Hget.
  - cbn [fst]. unfold update_recommendation_feedback.
    assert (Hown := proj1 (get_recommendation_by_id_Some _ _ _ _) Hget).
    destruct Hown as [Hlook Hown].
    assert (Hget' : get_recommendation_by_id
                      (<[recommendation_id := set_feedback r is_accepted rating feedback]>
                         store) recommendation_id user_id
                    = Some (set_feedback r is_accepted rating feedback)).
    { apply get_recommendation_by_id_Some. split; [apply lookup_insert_eq|exact Hown]. }
    rewrite Hget', Hget. rewrite set_feedback_idempotent. now rewrite insert_insert_eq.
  - cbn [fst]. unfold update_recommendation_feedback. now rewrite Hget.
Qed.

(** X14. The feedback endpoint keeps every stored rating within 1..5:
    a store whose ratings are all valid has only valid ratings after any
    call, whatever the body. *)
Theorem submit_keeps_ratings_valid (store : gmap string Recommendation.t)
    (recommendation_id current_user_id : string) (body : RecommendationFeedback.t) :
  ratings_valid store ->
  ratings_valid
    (fst (submit_recommendation_feedback store recommendation_id body current_user_id)).
Proof.
  intros Hvalid. unfold submit_recommendation_feedback.
  destruct (RecommendationFeedback.validate body) eqn:Hv; [|exact Hvalid].
  unfold update_recommendation_feedback.
  destruct (get_recommendation_by_id store recommendation_id current_user_id)
    as [r|] eqn:Hget; cbn [fst]; [|exact Hvalid].
  apply get_recommendation_by_id_Some in Hget as [Hlook _].
  intros id r' n Hlook' Hrating.
  destruct (decide (recommendation_id = id)) as [->|Hne].
  - rewrite lookup_insert_eq in Hlook'. injection Hlook' as <-.
    cbn [set_feedback Recommendation.user_rating] in Hrating.
    unfold RecommendationFeedback.validate in Hv.
    destruct (RecommendationFeedback.rating body) as [m|].
    + destruct (m =? 0)%Z.
      * exact (Hvalid _ _ _ Hlook Hrating).
      * injection Hrating as <-.
        apply andb_true_iff in Hv as [H1 H2].
        apply Z.leb_le in H1, H2. lia.
    + exact (Hvalid _ _ _ Hlook Hrating).
  - rewrite lookup_insert_ne in Hlook' by exact Hne. exact (Hvalid _ _ _ Hlook' Hrating).
Qed.

Lemma submit_keeps_ratings_valid_witness :
  ratings_valid Scenario.store_1
  /\ ratings_valid
       (fst (submit_recommendation_feedback Scenario.store_1 "r1"
               (RecommendationFeedback.mk "r1" true (Some 5%Z) None) "u1")).
Proof.
  assert (Hvalid : ratings_valid Scenario.store_1).
  { intros id r n Hlook Hr.
    destruct (decide (id = "r1")) as [->|Hne].
    - change (Scenario.store_1 !! "r1") with (Some Scenario.stored) in Hlook.
      injection Hlook as <-. discriminate Hr.
    - unfold Scenario.store_1 in Hlook.
      rewrite lookup_singleton_ne in Hlook by congruence. discriminate Hlook. }
  split; [exact Hvalid|].
  exact (submit_keeps_ratings_valid Scenario.store_1 "r1" "u1"
           (RecommendationFeedback.mk "r1" true (Some 5%Z) None) Hvalid).
Defined.

(** X15. The details endpoint answers 200 exactly to the owner of an
    existing recommendation. It then stores the recommendation as viewed,
    changing no other field and no other document, and the response always
    reports [is_viewed] true; any other call leaves the store untouched
    and returns no body. Asking again changes nothing more. *)
Theorem details_marks_viewed (store : gmap string Recommendation.t)
    (recommendation_id current_user_id : string) :
  let result := get_recommendation_details store recommendation_id current_user_id in
  (get_recommendation_by_id store recommendation_id current_user_id = None ->
   result = (store, (HTTP_404_NOT_FOUND, None)))
  /\ (forall r,
         get_recommendation_by_id store recommendation_id current_user_id = Some r ->
         snd result = (HTTP_200_OK, Some (response_of recommendation_id (set_viewed r)))
         /\ fst result !! recommendation_id = Some (set_viewed r)
         /\ (forall other, other <> recommendation_id ->
                           fst result !! other = store !! other)
         /\ Recommendation.is_accepted (set_viewed r) = Recommendation.is_accepted r
         /\ Recommendation.user_rating (set_viewed r) = Recommendation.user_rating r
         /\ Recommendation.user_feedback (set_viewed r) = Recommendation.user_feedback r
         /\ Recommendation.is_active (set_viewed r) = Recommendation.is_active r)
  /\ (forall body,
         snd (snd result) = Some body -> RecommendationResponse.is_viewed body = true)
  /\ get_recommendation_details (fst result) recommendation_id current_user_id = result.
Proof.
  cbv zeta.
  destruct (get_recommendation_by_id store recommendation_id current_user_id)
    as [r|] eqn:Hget.
  - assert (Hown := proj1 (get_recommendation_by_id_Some _ _ _ _) Hget).
    destruct Hown as [Hlook Hown].
    destruct (Recommendation.is_viewed r) eqn:Hv.
    + assert (Hres : get_recommendation_details store recommendation_id current_user_id
                     = (store, (HTTP_200_OK, Some (response_of recommendation_id r)))).
      { unfold get_recommendation_details. now rewrite Hget, Hv. }
      rewrite !Hres. cbn [fst snd].
      split; [discriminate|]. split.
      { intros r0 [= <-]. rewrite (set_viewed_of_viewed r Hv).
        split; [reflexivity|]. split; [exact Hlook|]. split; [reflexivity|].
        repeat split. }
      split; [|exact Hres].
      intros body [= <-]. exact Hv.
    + assert (Hres : get_recommendation_details store recommendation_id current_user_id
                     = (<[recommendation_id := set_viewed r]> store,
                        (HTTP_200_OK,
                         Some (response_of recommendation_id (set_viewed r))))).
      { unfold get_recommendation_details. now rewrite Hget, Hv. }
      rewrite !Hres. cbn [fst snd].
      split; [discriminate|]. split.
      { intros r0 [= <-]. split; [reflexivity|]. split; [apply lookup_insert_eq|].
        split; [intros other Hne; now apply lookup_insert_ne|]. repeat split. }
      split.
      { intros body [= <-]. reflexivity. }
      unfold get_recommendation_details.
      assert (Hget' : get_recommendation_by_id
                        (<[recommendation_id := set_viewed r]> store)
                        recommendation_id current_user_id = Some (set_viewed r)).
      { apply get_recommendation_by_id_Some. split; [apply lookup_insert_eq|exact Hown]. }
      rewrite Hget'. reflexivity.
  - assert (Hres : get_recommendation_details store recommendation_id current_user_id
                   = (store, (HTTP_404_NOT_FOUND, None))).
    { unfold get_recommendation_details. now rewrite Hget. }
    rewrite !Hres. cbn [fst snd].
    split; [reflexivity|]. split; [discriminate|]. split; [discriminate|exact Hres].
Qed.

(** X16. Viewing and feedback compose: feedback after a view stores what
    feedback alone stores, and a view after feedback changes nothing. *)
Theorem view_and_feedback_compose (store : gmap string Recommendation.t)
    (recommendation_id user_id : string) (is_accepted : bool)
    (rating : option Z) (feedback : option string) :
  let viewed := fst (get_recommendation_details store recommendation_id user_id) in
  let fed :=
    fst (update_recommendation_feedback store recommendation_id user_id is_accepted
           rating feedback) in
  fst (update_recommendation_feedback viewed recommendation_id user_id is_accepted rating
         feedback) = fed
  /\ fst (get_recommendation_details fed recommendation_id user_id) = fed.
Proof.
  cbv zeta.
  destruct (get_recommendation_by_id store recommendation_id user_id) as [r|] eqn:Hget.
  - assert (Hown := proj1 (get_recommendation_by_id_Some _ _ _ _) Hget).
    destruct Hown as [Hlook Hown].
    assert (Hfed : update_recommendation_feedback store recommendation_id user_id
                     is_accepted rating feedback
                   = (<[recommendation_id := set_feedback r is_accepted rating feedback]>
                        store, true)).
    { unfold update_recommendation_feedback. now rewrite Hget. }
    rewrite !Hfed. cbn [fst]. split.
    + unfold get_recommendation_details. rewrite Hget.
      destruct (Recommendation.is_viewed r) eqn:Hv; cbn [fst].
      * now rewrite Hfed.
      * unfold update_recommendation_feedback.
        assert (Hget' : get_recommendation_by_id
                          (<[recommendation_id := set_viewed r]> store)
                          recommendation_id user_id = Some (set_viewed r)).
        { apply get_recommendation_by_id_Some. split; [apply lookup_insert_eq|exact Hown]. }
        rewrite Hget'. cbn [fst]. rewrite set_feedback_set_viewed.
        now rewrite insert_insert_eq.
    + unfold get_recommendation_details.
      assert (Hget' : get_recommendation_by_id
                        (<[recommendation_id := set_feedback r is_accepted rating feedback]>
                           store) recommendation_id user_id
                      = Some (set_feedback r is_accepted rating feedback)).
      { apply get_recommendation_by_id_Some. split; [apply lookup_insert_eq|exact Hown]. }
      rewrite Hget'. reflexivity.
  - assert (Hfed : update_recommendation_feedback store recommendation_id user_id
                     is_accepted rating feedback = (store, false)).
    { unfold update_recommendation_feedback. now rewrite Hget. }
    assert (Hview : get_recommendation_details store recommendation_id user_id
                    = (store, (HTTP_404_NOT_FOUND, None))).
    { unfold get_recommendation_details. now rewrite Hget. }
    rewrite !Hfed, !Hview. cbn [fst]. rewrite Hfed, Hview. split; reflexivity.
Qed.

(** ** Validators *)

Lemma rating_errors_nil (rating : option Z) :
  match rating with
  | Some r => if validate_rating r then [] else ["Rating must be between 1 and 5"]
  | None => []
  end = []
  <-> forall r, rating = Some r -> (1 <= r <= 5)%Z.
Proof.
  destruct rating as [r|]; [|split; [intros _ r [=]|reflexivity]].
  unfold validate_rating.
  destruct (Z.leb_spec 1 r); destruct (Z.leb_spec r 5); cbn [andb];
    (split; [intros Hnil; first [discriminate Hnil|intros ? [= <-]; lia]
            |intros Hr; first [reflexivity|specialize (Hr _ eq_refl); lia]]).
Qed.

Lemma text_errors_nil (feedback : option string) :
  match feedback with
  | Some text =>
      if (1000 <? String.length text)%nat
      then ["Feedback text cannot exceed 1000 characters"] else []
  | None => []
  end = []
  <-> forall text, feedback = Some text -> (String.length text <= 1000)%nat.
Proof.
  destruct feedback as [text|]; [|split; [intros _ t [=]|reflexivity]].
  destruct (Nat.ltb_spec 1000 (String.length text));
    (split; [intros Hnil; first [discriminate Hnil|intros ? [= <-]; lia]
            |intros Hr; first [reflexivity|specialize (Hr _ eq_refl); lia]]).
Qed.

(** X17. [validate_recommendation_feedback] reports no error exactly
    when the rating, if given, lies in 1..5 and the text, if given, has at
    most 1000 characters; it never reports more than two errors, and
    whatever it accepts the request schema accepts too. *)
Theorem feedback_validator_accepts (rating : option Z) (feedback : option string)
    (recommendation_id : string) (is_accepted : bool) :
  (validate_recommendation_feedback rating feedback = []
   <-> (forall r, rating = Some r -> (1 <= r <= 5)%Z)
       /\ (forall text, feedback = Some text -> (String.length text <= 1000)%nat))
  /\ (length (validate_recommendation_feedback rating feedback) <= 2)%nat
  /\ (validate_recommendation_feedback rating feedback = [] ->
      RecommendationFeedback.validate
        (RecommendationFeedback.mk recommendation_id is_accepted rating feedback) = true).
Proof.
  assert (Hchar : validate_recommendation_feedback rating feedback = []
                  <-> (forall r, rating = Some r -> (1 <= r <= 5)%Z)
                      /\ (forall text, feedback = Some text ->
                                       (String.length text <= 1000)%nat)).
  { unfold validate_recommendation_feedback.
    rewrite app_nil, rating_errors_nil, text_errors_nil. reflexivity. }
  split; [exact Hchar|]. split.
  - unfold validate_recommendation_feedback. rewrite length_app.
    destruct rating as [r|]; [destruct (validate_rating r)|];
      (destruct feedback as [text|]; [destruct (1000 <? String.length text)%nat|]);
      cbn [length]; lia.
  - intros Hnil. apply Hchar in Hnil as [Hr _].
    unfold RecommendationFeedback.validate. cbn [RecommendationFeedback.rating].
    destruct rating as [r|]; [|reflexivity].
    specialize (Hr r eq_refl).
    apply andb_true_iff. split; apply Z.leb_le; lia.
Qed.

Lemma any_char_cons (class : ascii -> bool) (c : ascii) (s : string) :
  any_char class (String c s) = class c || any_char class s.
Proof. reflexivity. Qed.

(** X18. A password is reported valid exactly when no issue is listed,
    which is exactly when it has at least 8 characters and contains an
    uppercase letter, a lowercase letter, a digit and a character of the
    special class; at most five issues are listed. *)
Theorem password_strength (password : string) :
  (fst (validate_password_strength password) = true
   <-> snd (validate_password_strength password) = [])
  /\ (fst (validate_password_strength password) = true
      <-> (8 <= String.length password)%nat
          /\ any_char PyStr.is_upper password = true
          /\ any_char PyStr.is_lower password = true
          /\ any_char is_digit password = true
          /\ any_char is_special password = true)
  /\ (length (snd (validate_password_strength password)) <= 5)%nat.
Proof.
  unfold validate_password_strength. cbn [fst snd].
  destruct (Nat.ltb_spec (String.length password) 8);
    destruct (any_char PyStr.is_upper password);
    destruct (any_char PyStr.is_lower password);
    destruct (any_char is_digit password);
    destruct (any_char is_special password);
    cbn [app length Nat.eqb];
    (split; [split; [intros Hv; first [reflexivity|discriminate Hv]
                    |intros Hv; first [reflexivity|discriminate Hv]]
            |split; [split; [intros Hv; first [discriminate Hv
                                              |repeat split; first [reflexivity|lia]]
                            |intros (Hl & Hu & Hlo & Hd & Hs);
                             first [reflexivity|discriminate|exfalso; lia]]
                    |lia]]).
Qed.

(** A password without a digit is rejected whatever its length. *)
Example password_without_digit :
  validate_password_strength "Correct-Horse!"
  = (false, ["Password must contain at least one number"]).
Proof. reflexivity. Qed.

Lemma lower_char_idempotent (c : ascii) :
  PyStr.lower_char (PyStr.lower_char c) = PyStr.lower_char c.
Proof.
  destruct c as [[] [] [] [] [] [] [] []]; reflexivity.
Qed.

Lemma lower_idempotent (s : string) : PyStr.lower (PyStr.lower s) = PyStr.lower s.
Proof.
  induction s as [|c s IH]; [reflexivity|].
  cbn [PyStr.lower]. now rewrite lower_char_idempotent, IH.
Qed.

(** X19. [validate_meal_type] is case-insensitive: it accepts a string
    exactly when its lowered form is breakfast, lunch, dinner or snack, and
    it gives the same verdict on a string and on its lowered form. *)
Theorem meal_type_case_insensitive (meal_type : string) :
  (validate_meal_type meal_type = true
   <-> In (PyStr.lower meal_type) ["breakfast"; "lunch"; "dinner"; "snack"])
  /\ validate_meal_type (PyStr.lower meal_type) = validate_meal_type meal_type.
Proof.
  split.
  - unfold validate_meal_type. cbv zeta. rewrite existsb_exists. split.
    + intros (x & Hx & He). apply String.eqb_eq in He. now subst x.
    + intros Hin. exists (PyStr.lower meal_type). split; [exact Hin|apply String.eqb_refl].
  - unfold validate_meal_type. now rewrite lower_idempotent.
Qed.

(** X20. [validate_nutrition_value] accepts any value for a nutrient
    that is not in its table, and for a nutrient of the table it rejects
    every negative value and every value above 10000. *)
Theorem nutrition_value_ranges (value : Q) (nutrient_type : string) :
  (~ In nutrient_type (map fst nutrition_ranges) ->
   validate_nutrition_value value nutrient_type = true)
  /\ (In nutrient_type (map fst nutrition_ranges) ->
      validate_nutrition_value value nutrient_type = true ->
      (0 <= value <= 10000)%Q).
Proof.
  split.
  - intros Hnot. unfold validate_nutrition_value.
    destruct (List.find _ nutrition_ranges) as [[k range]|] eqn:Ef; [|reflexivity].
    exfalso. apply Hnot.
    apply find_some in Ef as [Hin He]. cbn [fst] in He.
    apply String.eqb_eq in He. subst k.
    change nutrient_type with (fst (nutrient_type, range)). now apply in_map.
  - intros Hin Hv. unfold validate_nutrition_value in Hv.
    cbn [map nutrition_ranges fst In] in Hin.
    repeat (destruct Hin as [<-|Hin];
            [cbn in Hv; apply andb_true_iff in Hv as [H1 H2];
             apply Qle_bool_iff in H1, H2; split;
             [exact H1|eapply Qle_trans; [exact H2|discriminate]]|]).
    destruct Hin.
Qed.

(** ** Sanitizing *)

Section CharClass.

Variable class : ascii -> bool.

Lemma any_char_remove (s : string) : any_char class (remove_chars class s) = false.
Proof.
  induction s as [|c s IH]; [reflexivity|].
  cbn [remove_chars]. destruct (class c) eqn:E; [exact IH|].
  rewrite any_char_cons, E, IH. reflexivity.
Qed.

Lemma remove_chars_clean (s : string) :
  any_char class s = false -> remove_chars class s = s.
Proof.
  induction s as [|c s IH]; [reflexivity|].
  rewrite any_char_cons. intros H. apply orb_false_iff in H as [Hc Hs].
  cbn [remove_chars]. rewrite Hc. now rewrite IH.
Qed.

Lemma any_char_take (n : nat) (s : string) :
  any_char class s = false -> any_char class (str_take n s) = false.
Proof.
  revert n. induction s as [|c s IH]; intros [|n] H; try reflexivity.
  rewrite any_char_cons in H. apply orb_false_iff in H as [Hc Hs].
  cbn [str_take]. rewrite any_char_cons, Hc. now apply IH.
Qed.

Lemma any_char_lstrip (s : string) :
  any_char class s = false -> any_char class (lstrip s) = false.
Proof.
  induction s as [|c s IH]; [reflexivity|]. intros H.
  cbn [lstrip]. destruct (is_space c); [|exact H].
  rewrite any_char_cons in H. apply orb_false_iff in H as [_ Hs]. now apply IH.
Qed.

Lemma any_char_rstrip (s : string) :
  any_char class s = false -> any_char class (rstrip s) = false.
Proof.
  induction s as [|c s IH]; [reflexivity|]. intros H.
  rewrite any_char_cons in H. apply orb_false_iff in H as [Hc Hs].
  specialize (IH Hs). cbn [rstrip].
  destruct (rstrip s) as [|d t].
  - destruct (is_space c); [reflexivity|]. rewrite any_char_cons, Hc. reflexivity.
  - rewrite any_char_cons, Hc. exact IH.
Qed.

End CharClass.

Lemma str_take_length (n : nat) (s : string) : (String.length (str_take n s) <= n)%nat.
Proof.
  revert n. induction s as [|c s IH]; intros [|n]; cbn [str_take String.length]; try lia.
  specialize (IH n). lia.
Qed.

Lemma str_take_all (n : nat) (s : string) :
  (String.length s <= n)%nat -> str_take n s = s.
Proof.
  revert n. induction s as [|c s IH]; intros [|n] H; cbn [String.length] in H;
    try reflexivity; try lia.
  cbn [str_take]. rewrite IH by lia. reflexivity.
Qed.

Lemma str_take_short (n : nat) (s : string) :
  (String.length (str_take n s) <= String.length s)%nat.
Proof.
  revert n. induction s as [|c s IH]; intros [|n]; cbn [str_take String.length]; try lia.
  specialize (IH n). lia.
Qed.

Lemma remove_chars_length (class : ascii -> bool) (s : string) :
  (String.length (remove_chars class s) <= String.length s)%nat.
Proof.
  induction s as [|c s IH]; [reflexivity|].
  cbn [remove_chars]. destruct (class c); cbn [String.length]; lia.
Qed.

Lemma lstrip_length (s : string) : (String.length (lstrip s) <= String.length s)%nat.
Proof.
  induction s as [|c s IH]; [reflexivity|].
  cbn [lstrip]. destruct (is_space c); cbn [String.length]; lia.
Qed.

Lemma rstrip_length (s : string) : (String.length (rstrip s) <= String.length s)%nat.
Proof.
  induction s as [|c s IH]; [reflexivity|].
  cbn [rstrip]. destruct (rstrip s) as [|d t].
  - destruct (is_space c); cbn [String.length]; lia.
  - cbn [String.length] in *. lia.
Qed.

Lemma lstrip_idempotent (s : string) : lstrip (lstrip s) = lstrip s.
Proof.
  induction s as [|c s IH]; [reflexivity|].
  cbn [lstrip]. destruct (is_space c) eqn:E; [exact IH|].
  cbn [lstrip]. now rewrite E.
Qed.

Lemma rstrip_idempotent (s : string) : rstrip (rstrip s) = rstrip s.
Proof.
  induction s as [|c s IH]; [reflexivity|].
  cbn [rstrip]. destruct (rstrip s) as [|d t] eqn:E.
  - destruct (is_space c) eqn:Ec; [reflexivity|]. cbn [rstrip]. now rewrite Ec.
  - cbn [rstrip]. cbn [rstrip] in IH. rewrite IH. reflexivity.
Qed.

(** Stripping the right end keeps a left end that is already stripped. *)
Lemma lstrip_rstrip (s : string) : lstrip s = s -> lstrip (rstrip s) = rstrip s.
Proof.
  destruct s as [|c s]; [reflexivity|]. intros H.
  assert (Hc : is_space c = false).
  { destruct (is_space c) eqn:E; [|reflexivity]. exfalso.
    cbn [lstrip] in H. rewrite E in H.
    assert (Hl := lstrip_length s). rewrite H in Hl. cbn [String.length] in Hl. lia. }
  cbn [rstrip]. destruct (rstrip s) as [|d t]; rewrite ?Hc; cbn [lstrip]; now rewrite Hc.
Qed.

Lemma strip_idempotent (s : string) : strip (strip s) = strip s.
Proof.
  unfold strip.
  rewrite (lstrip_rstrip (lstrip s) (lstrip_idempotent s)).
  apply rstrip_idempotent.
Qed.

(** X21. The sanitized string holds none of the characters [<], [>],
    double quote and apostrophe, has at most [max_length] characters, and
    neither starts nor ends with white space; sanitizing it again gives it
    back. *)
Theorem sanitize_string_clean (text : string) (max_length : nat) :
  let out := sanitize_string text max_length in
  any_char is_harmful out = false
  /\ (String.length out <= max_length)%nat
  /\ (String.length out <= String.length text)%nat
  /\ lstrip out = out
  /\ rstrip out = out
  /\ sanitize_string out max_length = out.
Proof.
  cbv zeta.
  destruct (String.eqb_spec text "") as [->|Hne].
  { cbn. repeat split; lia. }
  set (kept := str_take max_length (remove_chars is_harmful text)).
  assert (Hout : sanitize_string text max_length = strip kept).
  { unfold sanitize_string. destruct (String.eqb_spec text ""); [contradiction|reflexivity]. }
  rewrite !Hout.
  assert (Hclean : any_char is_harmful (strip kept) = false).
  { unfold strip. apply any_char_rstrip, any_char_lstrip, any_char_take, any_char_remove. }
  assert (Hlen : (String.length (strip kept) <= max_length)%nat).
  { unfold strip. assert (H1 := rstrip_length (lstrip kept)).
    assert (H2 := lstrip_length kept).
    assert (H3 := str_take_length max_length (remove_chars is_harmful text)).
    fold kept in H3. lia. }
  assert (Hshort : (String.length (strip kept) <= String.length text)%nat).
  { unfold strip. assert (H1 := rstrip_length (lstrip kept)).
    assert (H2 := lstrip_length kept).
    assert (H3 := str_take_short max_length (remove_chars is_harmful text)).
    assert (H4 := remove_chars_length is_harmful text).
    fold kept in H3. lia. }
  split; [exact Hclean|]. split; [exact Hlen|]. split; [exact Hshort|].
  split.
  { unfold strip. apply lstrip_rstrip, lstrip_idempotent. }
  split.
  { unfold strip. apply rstrip_idempotent. }
  unfold sanitize_string.
  destruct (String.eqb_spec (strip kept) "") as [He|_]; [symmetry; exact He|].
  rewrite (remove_chars_clean _ _ Hclean), (str_take_all _ _ Hlen).
  apply strip_idempotent.
Qed.

Example sanitize_string_example :
  sanitize_string "  <b>O'Brien</b>  " 10 = "bOBrien/".
Proof. reflexivity. Qed.

(** ** Profile data *)

Lemma optional_error_nil {A : Type} (field : option A) (check : A -> bool)
    (message : string) :
  match field with
  | Some v => if check v then [] else [message]
  | None => []
  end = []
  <-> forall v, field = Some v -> check v = true.
Proof.
  destruct field as [v|]; [|split; [intros _ v [=]|reflexivity]].
  destruct (check v) eqn:E; split.
  - intros _ ? [= <-]. exact E.
  - reflexivity.
  - discriminate.
  - intros H. specialize (H v eq_refl). congruence.
Qed.

Lemma Qrange_bool (lo hi x : Q) :
  Qle_bool lo x && Qle_bool x hi = true <-> (lo <= x <= hi)%Q.
Proof. rewrite andb_true_iff, !Qle_bool_iff. reflexivity. Qed.

Lemma Qrange_bool_eq (lo lo' hi hi' x : Q) :
  (lo == lo')%Q -> (hi == hi')%Q ->
  Qle_bool lo x && Qle_bool x hi = true <-> (lo' <= x <= hi')%Q.
Proof. intros Hlo Hhi. rewrite Qrange_bool, Hlo, Hhi. reflexivity. Qed.

(** X22. [validate_user_profile_data] lists no error exactly when
    every field that is present is in its range: age 13..120, weight and
    target weight 20..500 kg, height 100..250 cm, target calories
    800..5000. Absent fields are never an error, and at most five errors
    are listed. *)
Theorem profile_data_valid (data : ProfileData.t) :
  (validate_user_profile_data data = []
   <-> (forall v, ProfileData.age data = Some v -> (13 <= v <= 120)%Z)
       /\ (forall v, ProfileData.weight_kg data = Some v -> (20 <= v <= 500)%Q)
       /\ (forall v, ProfileData.height_cm data = Some v -> (100 <= v <= 250)%Q)
       /\ (forall v, ProfileData.target_weight_kg data = Some v -> (20 <= v <= 500)%Q)
       /\ (forall v, ProfileData.target_calories data = Some v -> (800 <= v <= 5000)%Q))
  /\ (length (validate_user_profile_data data) <= 5)%nat.
Proof.
  split.
  - unfold validate_user_profile_data.
    rewrite !app_nil.
    rewrite (optional_error_nil (ProfileData.age data) validate_age).
    rewrite (optional_error_nil (ProfileData.weight_kg data) validate_weight).
    rewrite (optional_error_nil (ProfileData.height_cm data) validate_height).
    rewrite (optional_error_nil (ProfileData.target_weight_kg data) validate_weight).
    rewrite (optional_error_nil (ProfileData.target_calories data)
               (fun calories => Qle_bool 800 calories && Qle_bool calories 5000)).
    unfold validate_age, validate_weight, validate_height.
    split.
    + intros (Ha & Hw & Hh & Ht & Hc). repeat split.
      * specialize (Ha v H). apply andb_true_iff in Ha as [H1 _]. now apply Z.leb_le.
      * specialize (Ha v H). apply andb_true_iff in Ha as [_ H1]. now apply Z.leb_le.
      * apply (Qrange_bool_eq 20.0 20 500.0 500 v eq_refl eq_refl), Hw, H.
      * apply (Qrange_bool_eq 20.0 20 500.0 500 v eq_refl eq_refl), Hw, H.
      * apply (Qrange_bool_eq 100.0 100 250.0 250 v eq_refl eq_refl), Hh, H.
      * apply (Qrange_bool_eq 100.0 100 250.0 250 v eq_refl eq_refl), Hh, H.
      * apply (Qrange_bool_eq 20.0 20 500.0 500 v eq_refl eq_refl), Ht, H.
      * apply (Qrange_bool_eq 20.0 20 500.0 500 v eq_refl eq_refl), Ht, H.
      * apply (Qrange_bool_eq 800 800 5000 5000 v eq_refl eq_refl), Hc, H.
      * apply (Qrange_bool_eq 800 800 5000 5000 v eq_refl eq_refl), Hc, H.
    + intros (Ha & Hw & Hh & Ht & Hc). repeat split; intros v Hv.
      * specialize (Ha v Hv). apply andb_true_iff. split; apply Z.leb_le; lia.
      * apply (Qrange_bool_eq 20.0 20 500.0 500 v eq_refl eq_refl), Hw, Hv.
      * apply (Qrange_bool_eq 100.0 100 250.0 250 v eq_refl eq_refl), Hh, Hv.
      * apply (Qrange_bool_eq 20.0 20 500.0 500 v eq_refl eq_refl), Ht, Hv.
      * apply (Qrange_bool_eq 800 800 5000 5000 v eq_refl eq_refl), Hc, Hv.
  - unfold validate_user_profile_data. rewrite !length_app.
    destruct (ProfileData.age data) as [a|]; [destruct (validate_age a)|];
      (destruct (ProfileData.weight_kg data) as [x|]; [destruct (validate_weight x)|]);
      (destruct (ProfileData.height_cm data) as [h|]; [destruct (validate_height h)|]);
      (destruct (ProfileData.target_weight_kg data) as [t|]; [destruct (validate_weight t)|]);
      (destruct (ProfileData.target_calories data) as [c|];
       [destruct (Qle_bool 800 c && Qle_bool c 5000)|]);
      cbn [length]; lia.
Qed.

(** * The target calculator *)

From Stdlib Require Import Lqa.

Module CalculatorFacts.
Import NutritionCalculatorService.

Lemma Qle_bool_true (x y : Q) : Qle_bool x y = true -> (x <= y)%Q.
Proof. apply Qle_bool_iff. Qed.

Lemma max0_nonneg (x : Q) : (0 <= max0 x)%Q.
Proof.
  unfold max0. destruct (Qlt_bool 0 x) eqn:E; [|apply Qle_refl].
  apply Qlt_bool_iff in E. now apply Qlt_le_weak.
Qed.

Lemma max0_of_nonneg (x : Q) : (0 <= x)%Q -> (max0 x == x)%Q.
Proof.
  intros H. unfold max0. destruct (Qlt_bool 0 x) eqn:E; [reflexivity|].
  apply Qlt_bool_false_iff in E. apply Qle_antisym; assumption.
Qed.



(** What the constructor checked, read back from a returned value. *)
Lemma new_macro_targets_returned (calories protein carbs fat fiber : Q)
    (pp cp fp : option Q) (m : MacroTargets.t) :
  new_macro_targets calories protein carbs fat fiber pp cp fp = Returned m ->
  m = MacroTargets.mk calories protein carbs fat fiber
  /\ (0 < calories)%Q /\ (0 <= protein)%Q /\ (0 <= carbs)%Q /\ (0 <= fat)%Q
  /\ (0 <= fiber)%Q
  /\ percent_ok pp = true /\ percent_ok cp = true /\ percent_ok fp = true.
Proof.
  unfold new_macro_targets.
  destruct (Qlt_bool 0 calories) eqn:E1; cbn [andb]; [|discriminate].
  destruct (Qle_bool 0 protein) eqn:E2; cbn [andb]; [|discriminate].
  destruct (Qle_bool 0 carbs) eqn:E3; cbn [andb]; [|discriminate].
  destruct (Qle_bool 0 fat) eqn:E4; cbn [andb]; [|discriminate].
  destruct (Qle_bool 0 fiber) eqn:E5; cbn [andb]; [|discriminate].
  destruct (percent_ok pp) eqn:E6; cbn [andb]; [|discriminate].
  destruct (percent_ok cp) eqn:E7; cbn [andb]; [|discriminate].
  destruct (percent_ok fp) eqn:E8; cbn [andb]; [|discriminate].
  intros [= <-].
  apply Qlt_bool_iff in E1. apply Qle_bool_true in E2, E3, E4, E5.
  repeat split; assumption.
Qed.

Lemma new_macro_targets_nonpositive (calories protein carbs fat fiber : Q)
    (pp cp fp : option Q) :
  (calories <= 0)%Q ->
  new_macro_targets calories protein carbs fat fiber pp cp fp = Raised ValidationError.
Proof.
  intros H. unfold new_macro_targets. now rewrite (Qlt_bool_false _ _ H).
Qed.





(** A returned result, for 70 kg and 2000 kcal. *)
Example macro_targets_example :
  exists m,
    calculate_macro_targets (NutritionCalculatorService.mk None None) Scenario.user_A
      (Physique.mk (Some 70%Q) (Some 170%Q) None) 2000 = Returned m
    /\ (MacroTargets.protein_g m == 84)%Q
    /\ (MacroTargets.carbs_g m == 276)%Q
    /\ (MacroTargets.fiber_g m == 28)%Q.
Proof.
  eexists. split; [vm_compute; reflexivity|]. repeat split.
Qed.

Lemma traditional_macro_targets_returned (user : User.t) (physique : Physique.t)
    (total_calories : Q) (m : MacroTargets.t) :
  traditional_macro_targets user physique total_calories = Returned m ->
  MacroTargets.calories m = total_calories
  /\ (0 < MacroTargets.calories m)%Q /\ (0 <= MacroTargets.protein_g m)%Q
  /\ (0 <= MacroTargets.carbs_g m)%Q /\ (0 <= MacroTargets.fat_g m)%Q
  /\ (0 <= MacroTargets.fiber_g m)%Q.
Proof.
  unfold traditional_macro_targets. cbv zeta.
  destruct (Qeq_bool total_calories 0); [discriminate|].
  intros H. apply new_macro_targets_returned in H as (-> & H1 & H2 & H3 & H4 & H5 & _).
  cbn. repeat split; assumption.
Qed.

Lemma traditional_macro_targets_nonpositive (user : User.t) (physique : Physique.t)
    (total_calories : Q) :
  (total_calories <= 0)%Q ->
  traditional_macro_targets user physique total_calories = Raised ZeroDivisionError
  \/ traditional_macro_targets user physique total_calories = Raised ValidationError.
Proof.
  intros H. unfold traditional_macro_targets. cbv zeta.
  destruct (Qeq_bool total_calories 0); [now left|right].
  now apply new_macro_targets_nonpositive.
Qed.

Lemma calculate_macro_targets_returned (service : NutritionCalculatorService.t)
    (user : User.t) (physique : Physique.t) (total_calories : Q) (m : MacroTargets.t) :
  calculate_macro_targets service user physique total_calories = Returned m ->
  MacroTargets.calories m = total_calories
  /\ (0 < MacroTargets.calories m)%Q /\ (0 <= MacroTargets.protein_g m)%Q
  /\ (0 <= MacroTargets.carbs_g m)%Q /\ (0 <= MacroTargets.fat_g m)%Q
  /\ (0 <= MacroTargets.fiber_g m)%Q.
Proof.
  unfold calculate_macro_targets.
  destruct (fitted (macro_model service)) as [model|];
    [|apply traditional_macro_targets_returned].
  destruct (MLModel.predict model user physique) as [prediction|e];
    [|apply traditional_macro_targets_returned].
  destruct (new_macro_targets _ _ _ _ _ None None None) as [m'|e] eqn:E;
    [|apply traditional_macro_targets_returned].
  intros [= <-].
  apply new_macro_targets_returned in E as (-> & H1 & H2 & H3 & H4 & H5 & _).
  cbn. repeat split; assumption.
Qed.

Lemma calculate_macro_targets_nonpositive (service : NutritionCalculatorService.t)
    (user : User.t) (physique : Physique.t) (total_calories : Q) :
  (total_calories <= 0)%Q ->
  calculate_macro_targets service user physique total_calories = Raised ZeroDivisionError
  \/ calculate_macro_targets service user physique total_calories = Raised ValidationError.
Proof.
  intros H. unfold calculate_macro_targets.
  destruct (fitted (macro_model service)) as [model|];
    [|now apply traditional_macro_targets_nonpositive].
  destruct (MLModel.predict model user physique) as [prediction|e];
    [|now apply traditional_macro_targets_nonpositive].
  rewrite (new_macro_targets_nonpositive _ _ _ _ _ None None None H).
  now apply traditional_macro_targets_nonpositive.
Qed.

(** X24. Whatever the models predict, the recommendations the
    calculator returns carry macro targets that satisfy their schema:
    positive calories, equal to the calorie target, and non-negative
    grams. For a calorie target of zero or below it returns nothing: it
    raises ZeroDivisionError or ValidationError. *)
Theorem calculator_returns_valid_targets (service : NutritionCalculatorService.t)
    (user : User.t) (physique : Physique.t) :
  (forall r,
      NutritionCalculatorService.get_nutrition_recommendations service user physique
      = Returned r ->
      let m := NutritionRecommendations.macro_targets r in
      NutritionRecommendations.calorie_target r
      = calculate_calorie_target service user physique
      /\ MacroTargets.calories m = NutritionRecommendations.calorie_target r
      /\ (0 < MacroTargets.calories m)%Q /\ (0 <= MacroTargets.protein_g m)%Q
      /\ (0 <= MacroTargets.carbs_g m)%Q /\ (0 <= MacroTargets.fat_g m)%Q
      /\ (0 <= MacroTargets.fiber_g m)%Q
      /\ NutritionRecommendations.tdee r = calculate_tdee user physique
      /\ NutritionRecommendations.bmr r = calculate_bmr user physique)
  /\ ((calculate_calorie_target service user physique <= 0)%Q ->
      NutritionCalculatorService.get_nutrition_recommendations service user physique
      = Raised ZeroDivisionError
      \/ NutritionCalculatorService.get_nutrition_recommendations service user physique
         = Raised ValidationError).
Proof.
  unfold NutritionCalculatorService.get_nutrition_recommendations. cbv zeta. split.
  - intros r.
    destruct (calculate_macro_targets service user physique
                (calculate_calorie_target service user physique)) as [m|e] eqn:E;
      [|discriminate].
    intros [= <-]. cbn.
    apply calculate_macro_targets_returned in E as (H0 & H1 & H2 & H3 & H4 & H5).
    repeat split; assumption.
  - intros Hle.
    destruct (calculate_macro_targets_nonpositive service user physique _ Hle) as [->| ->];
      [now left|now right].
Qed.

(** A user of 100 kg who wants to lose weight on 1000 kcal a day: the
    protein and fat shares exceed the calories, so no targets exist. *)
Example low_calorie_target_raises :
  NutritionCalculatorService.get_nutrition_recommendations
    (NutritionCalculatorService.mk None None)
    (User.mk "u9" (Some 40%Z) (Some "male") None (Some "weight_loss") [] [] [])
    (Physique.mk (Some 100%Q) (Some 180%Q) (Some 1000%Z))
  = Raised ValidationError.
Proof. vm_compute. reflexivity. Qed.

Lemma activity_multiplier_bounds (level : string) :
  let multiplier :=
    default 1.55%Q
      (snd <$> List.find (fun kv => String.eqb (fst kv) level) activity_multipliers) in
  (1.2 <= multiplier <= 1.9)%Q.
Proof.
  cbv zeta.
  destruct (List.find _ activity_multipliers) as [[k v]|] eqn:E;
    [|cbn; split; discriminate].
  apply find_some in E as [Hin _]. cbn [fmap option_fmap option_map default snd].
  cbn [activity_multipliers In] in Hin.
  repeat (destruct Hin as [[= <- <-]|Hin]; [split; discriminate|]).
  destruct Hin.
Qed.

(** X25. A non-zero custom calorie target is returned as it is, whatever
    the models are. Without one and without a fitted calorie model, the
    target is the TDEE minus 500 for weight loss, plus 500 for weight gain,
    plus 300 for muscle gain and the TDEE itself for any other goal or
    none, so never more than 500 kcal away from it. The TDEE of a
    non-negative BMR lies between 1.2 and 1.9 times the BMR. *)
Theorem calorie_target_bounds (service : NutritionCalculatorService.t)
    (user : User.t) (physique : Physique.t) :
  let tdee := calculate_tdee user physique in
  let target := calculate_calorie_target service user physique in
  (forall c, Physique.target_calories physique = Some c -> c <> 0%Z ->
             target = inject_Z c)
  /\ ((Physique.target_calories physique = None
       \/ Physique.target_calories physique = Some 0%Z) ->
      fitted (calorie_model service) = None ->
      (tdee - 500 <= target <= tdee + 500)%Q
      /\ (User.primary_goal user = Some "weight_loss" -> target = (tdee - 500)%Q)
      /\ (User.primary_goal user = Some "weight_gain" -> target = (tdee + 500)%Q)
      /\ (User.primary_goal user = Some "muscle_gain" -> target = (tdee + 300)%Q)
      /\ (User.primary_goal user <> Some "weight_loss" ->
          User.primary_goal user <> Some "weight_gain" ->
          User.primary_goal user <> Some "muscle_gain" -> target = tdee))
  /\ ((0 <= calculate_bmr user physique)%Q ->
      (1.2 * calculate_bmr user physique <= tdee
       <= 1.9 * calculate_bmr user physique)%Q).
Proof.
  cbv zeta. split; [|split].
  - intros c Hc Hne. unfold calculate_calorie_target. rewrite Hc.
    destruct c; [contradiction|reflexivity|reflexivity].
  - intros Hnone Hfit.
    assert (Ht : calculate_calorie_target service user physique
                 = traditional_calorie_target user physique).
    { unfold calculate_calorie_target. rewrite Hfit.
      destruct Hnone as [->| ->]; reflexivity. }
    rewrite Ht. unfold traditional_calorie_target. cbv zeta.
    generalize (calculate_tdee user physique). intros tdee.
    repeat case_decide; (split; [lra|]);
      repeat split; intros; first [reflexivity|congruence].
  - intros Hbmr. unfold calculate_tdee. cbv zeta.
    assert (Hm := activity_multiplier_bounds
                    (or_string (User.activity_level user) "moderately_active")).
    cbv zeta in Hm. destruct Hm as [H1 H2].
    generalize dependent (default 1.55%Q
                            (snd <$> List.find
                                       (fun kv =>
                                          String.eqb (fst kv)
                                            (or_string (User.activity_level user)
                                               "moderately_active"))
                                       activity_multipliers)).
    intros multiplier H1 H2. split.
    + rewrite (Qmult_comm (calculate_bmr user physique) multiplier).
      apply Qmult_le_compat_r; assumption.
    + rewrite (Qmult_comm (calculate_bmr user physique) multiplier).
      apply Qmult_le_compat_r; assumption.
Qed.

Lemma scale_other (key other : string) (factor : Q) (targets : gmap string Q) :
  key <> other -> scale key factor targets !! other = targets !! other.
Proof. intros Hne. unfold scale. now apply lookup_alter_ne. Qed.

Lemma adjust_for_condition_sodium (targets : gmap string Q) (condition : HealthCondition.t) :
  adjust_for_condition targets condition !! "sodium_mg"
  = if limits_sodium condition then Some 1500%Q else targets !! "sodium_mg".
Proof.
  unfold adjust_for_condition, limits_sodium, names. cbv zeta.
  destruct (PyStr.contains "anemia" _); cbn [negb andb].
  { now rewrite scale_other by discriminate. }
  destruct (PyStr.contains "osteoporosis" _); cbn [negb andb].
  { now rewrite !scale_other by discriminate. }
  destruct (PyStr.contains "hypertension" _); [|reflexivity].
  rewrite scale_other by discriminate. apply lookup_insert_eq.
Qed.

Lemma fold_conditions_sodium (conditions : list HealthCondition.t)
    (targets : gmap string Q) :
  fold_left adjust_for_condition conditions targets !! "sodium_mg"
  = if existsb limits_sodium conditions then Some 1500%Q else targets !! "sodium_mg".
Proof.
  revert targets. induction conditions as [|c conditions IH]; intros targets;
    [reflexivity|].
  cbn [fold_left existsb]. rewrite IH, adjust_for_condition_sodium.
  destruct (limits_sodium c); cbn [orb]; [|reflexivity].
  destruct (existsb limits_sodium conditions); reflexivity.
Qed.

Lemma base_sodium (user : User.t) :
  base_micronutrient_targets user !! "sodium_mg" = Some 2300%Q.
Proof.
  unfold base_micronutrient_targets. cbv zeta.
  destruct (String.eqb _ "male"); cbn [list_to_map foldr];
    repeat (rewrite lookup_insert_ne by discriminate); apply lookup_insert_eq.
Qed.

(** X26. The sodium target is 1500 mg when some health condition
    reaches the hypertension branch of the calculator's chain, and 2300 mg
    otherwise; it does not depend on gender or age. A condition that names
    both anemia and hypertension does not reach that branch, although the
    engine runs its hypertension pack for it, or its diabetes pack when the
    condition names diabetes too. *)
Theorem sodium_target (user : User.t) (current_intake : gmap string Q) :
  calculate_micronutrient_targets user !! "sodium_mg"
  = Some (if existsb limits_sodium (User.health_conditions user)
          then 1500%Q else 2300%Q)
  /\ (forall condition,
         names "hypertension" condition = true ->
         names "anemia" condition = true ->
         limits_sodium condition = false
         /\ condition_recommendations user current_intake condition
            = if names "diabetes" condition
              then _diabetes_recommendations user current_intake
              else _hypertension_recommendations user current_intake).
Proof.
  split.
  - unfold calculate_micronutrient_targets.
    rewrite fold_conditions_sodium, base_sodium.
    destruct (existsb _ _); reflexivity.
  - intros condition Hh Ha. split.
    + unfold limits_sodium. now rewrite Ha.
    + unfold condition_recommendations. unfold names in Hh |- *.
      destruct (PyStr.contains "diabetes" _); [reflexivity|].
      now rewrite Hh.
Qed.

Example sodium_target_example :
  calculate_micronutrient_targets (Scenario.user_with ["Hypertension"] []) !! "sodium_mg"
  = Some 1500%Q
  /\ calculate_micronutrient_targets
       (Scenario.user_with ["Anemia with hypertension"] []) !! "sodium_mg"
     = Some 2300%Q
  /\ calculate_micronutrient_targets
       (Scenario.user_with ["Diabetes, anemia and hypertension"] []) !! "sodium_mg"
     = Some 2300%Q.
Proof. repeat split; vm_compute; reflexivity. Qed.

End CalculatorFacts.

(** * More on the rule packs and the ranking *)

Section PackAdjustments.

Variable user : User.t.
Variable current_intake : gmap string Q.

Lemma increase_coherent (nutrient unit reason impact : string) (sources : list string)
    (supplement : option string) (threshold recommended : Q) :
  (threshold <= recommended)%Q ->
  (get0 current_intake nutrient < threshold)%Q ->
  adjustment_coherent current_intake
    {| NutrientAdjustment.nutrient_name := nutrient;
       NutrientAdjustment.current_intake := get0 current_intake nutrient;
       NutrientAdjustment.recommended_intake := recommended;
       NutrientAdjustment.adjustment_amount := recommended - get0 current_intake nutrient;
       NutrientAdjustment.adjustment_direction := "increase";
       NutrientAdjustment.unit := unit;
       NutrientAdjustment.reason := reason;
       NutrientAdjustment.health_impact := impact;
       NutrientAdjustment.food_sources := sources;
       NutrientAdjustment.supplement_suggestion := supplement |}.
Proof.
  intros Hle Hlt. unfold adjustment_coherent.
  cbn [NutrientAdjustment.current_intake NutrientAdjustment.nutrient_name
       NutrientAdjustment.recommended_intake NutrientAdjustment.adjustment_amount
       NutrientAdjustment.adjustment_direction].
  split; [reflexivity|]. split; [|split].
  - symmetry. apply Qabs_pos. lra.
  - lra.
  - left. split; [reflexivity|lra].
Qed.

Lemma decrease_coherent (nutrient unit reason impact : string) (sources : list string)
    (supplement : option string) (threshold recommended : Q) :
  (recommended <= threshold)%Q ->
  (threshold < get0 current_intake nutrient)%Q ->
  adjustment_coherent current_intake
    {| NutrientAdjustment.nutrient_name := nutrient;
       NutrientAdjustment.current_intake := get0 current_intake nutrient;
       NutrientAdjustment.recommended_intake := recommended;
       NutrientAdjustment.adjustment_amount := get0 current_intake nutrient - recommended;
       NutrientAdjustment.adjustment_direction := "decrease";
       NutrientAdjustment.unit := unit;
       NutrientAdjustment.reason := reason;
       NutrientAdjustment.health_impact := impact;
       NutrientAdjustment.food_sources := sources;
       NutrientAdjustment.supplement_suggestion := supplement |}.
Proof.
  intros Hle Hlt. unfold adjustment_coherent.
  cbn [NutrientAdjustment.current_intake NutrientAdjustment.nutrient_name
       NutrientAdjustment.recommended_intake NutrientAdjustment.adjustment_amount
       NutrientAdjustment.adjustment_direction].
  split; [reflexivity|]. split; [|split].
  - rewrite Qabs_neg by lra. ring.
  - lra.
  - right. split; [reflexivity|lra].
Qed.

Ltac pack_adjustments :=
  repeat match goal with
         | |- context [Qlt_bool ?x ?y] =>
             let E := fresh "E" in
             destruct (Qlt_bool x y) eqn:E; [apply Qlt_bool_iff in E|clear E]
         end;
  cbn [app];
  repeat match goal with
         | |- Forall _ [] => constructor
         | |- Forall _ [_] => constructor; [|constructor]
         | |- Forall _ (_ :: _) => constructor
         | |- Forall _ (Recommendation.nutrient_adjustments _) =>
             cbn [Recommendation.nutrient_adjustments health_recommendation]
         | |- adjustment_coherent _ _ =>
             first [ eapply increase_coherent; [|eassumption]; discriminate
                   | eapply decrease_coherent; [|eassumption]; discriminate ]
         end.

Lemma diabetes_coherent :
  Forall (fun r => Forall (adjustment_coherent current_intake)
                     (Recommendation.nutrient_adjustments r))
    (_diabetes_recommendations user current_intake).
Proof. unfold _diabetes_recommendations. cbv zeta. pack_adjustments. Qed.

Lemma hypertension_coherent :
  Forall (fun r => Forall (adjustment_coherent current_intake)
                     (Recommendation.nutrient_adjustments r))
    (_hypertension_recommendations user current_intake).
Proof. unfold _hypertension_recommendations. cbv zeta. pack_adjustments. Qed.

Lemma heart_health_coherent :
  Forall (fun r => Forall (adjustment_coherent current_intake)
                     (Recommendation.nutrient_adjustments r))
    (_heart_health_recommendations user current_intake).
Proof. unfold _heart_health_recommendations. cbv zeta. pack_adjustments. Qed.

Lemma anemia_coherent :
  Forall (fun r => Forall (adjustment_coherent current_intake)
                     (Recommendation.nutrient_adjustments r))
    (_anemia_recommendations user current_intake).
Proof. unfold _anemia_recommendations. cbv zeta. pack_adjustments. Qed.

Lemma bone_health_coherent :
  Forall (fun r => Forall (adjustment_coherent current_intake)
                     (Recommendation.nutrient_adjustments r))
    (_bone_health_recommendations user current_intake).
Proof. unfold _bone_health_recommendations. cbv zeta. pack_adjustments. Qed.

End PackAdjustments.

(** X27. Every adjustment of every health recommendation is coherent
    with the intake: it quotes the current intake of its nutrient, its
    amount is the distance between recommended and current intake and is
    positive, and it says increase when the intake is below the recommended
    value and decrease when it is above. *)
Theorem health_adjustments_coherent (user : User.t) (current_intake : gmap string Q) :
  Forall (fun r => Forall (adjustment_coherent current_intake)
                     (Recommendation.nutrient_adjustments r))
    (_generate_health_optimization_recommendations user current_intake).
Proof.
  unfold _generate_health_optimization_recommendations.
  apply List.Forall_forall. intros r Hr.
  apply in_flat_map in Hr as (condition & _ & Hr).
  assert (Hall : Forall (fun r => Forall (adjustment_coherent current_intake)
                                    (Recommendation.nutrient_adjustments r))
                   (condition_recommendations user current_intake condition)).
  { unfold condition_recommendations.
    repeat match goal with
           | |- context [if ?b then _ else _] => destruct b
           end;
      auto using diabetes_coherent, hypertension_coherent, heart_health_coherent,
        anemia_coherent, bone_health_coherent. }
  rewrite List.Forall_forall in Hall. now apply Hall.
Qed.

(** ** Ranking and truncation *)

Lemma take_drop_sorted (n : nat) (l : list Recommendation.t) :
  StronglySorted rank_le l ->
  forall x y, In x (take n l) -> In y (drop n l) -> rank_le x y.
Proof.
  intros Hs. revert n. induction Hs as [|z t Ht IH Hz]; intros [|n] x y Hx Hy;
    cbn [take drop] in *; try destruct Hx.
  - subst x. rewrite List.Forall_forall in Hz. apply Hz.
    apply list_elem_of_In. eapply (subseteq_drop n t). now apply list_elem_of_In.
  - eapply IH; eassumption.
Qed.

(** X28. Ranking loses nothing but what the truncation drops: for any
    list of recommendations, the ten kept and the ones dropped are together
    a permutation of the list, the kept ones are [min 10 (length l)] many,
    and every kept recommendation ranks at least as well as every dropped
    one. *)
Theorem ranking_keeps_the_best (l : list Recommendation.t) :
  let ranked := py_sort sort_key l in
  Permutation l (take 10 ranked ++ drop 10 ranked)
  /\ length (take 10 ranked) = Nat.min 10 (length l)
  /\ (forall x y, In x (take 10 ranked) -> In y (drop 10 ranked) -> rank_le x y).
Proof.
  cbv zeta. split; [|split].
  - rewrite take_drop. apply py_sort_perm.
  - rewrite length_take. now rewrite <- (Permutation_length (py_sort_perm l)).
  - apply take_drop_sorted, py_sort_sorted.
Qed.

(** ** Case of the allergies *)

(** X29. Allergen screening ignores the case of the user's allergies:
    lowering them first gives the same warnings. *)
Theorem check_allergens_case_insensitive (suggestion : AISuggestion.t)
    (user_allergies : list string) :
  _check_allergens suggestion (map PyStr.lower user_allergies)
  = _check_allergens suggestion user_allergies.
Proof.
  unfold _check_allergens. cbv zeta.
  induction user_allergies as [|allergy rest IH]; [reflexivity|].
  cbn [map flat_map]. rewrite IH. now rewrite lower_idempotent.
Qed.
